(** * Hands-and-Voice: the agent execution pipeline

    A shallow embedding of the two agent pipelines of the repository:

    - the starter kit ([starter-kit/js/llm-client.js],
      [starter-kit/js/agent-client.js]), module [StarterKit];
    - the portfolio demo ([js/webmcp-provider.js] with its [LLMClient],
      the demo [AgentClient], and [js/fidelity-app.js]), modules
      [WebMCPProvider], [Demo] and [Fidelity];
    - a concrete page for the examples, module [Page].

    The two pipelines are near copies that differ in their handling of
    errors, of arguments and of concurrent calls; each statement says
    which of the two it is about.

    Async functions are computations over the part of the page they can
    touch that either return or throw; async generators additionally emit
    the events they yield, each paired with the state in which the
    generator is suspended at that [yield].

    Conventions of the embedding:
    - prompts and identifiers are ASCII strings; [toLowerCase] and the
      [/i] flag act on the letters A-Z;
    - the builtins of the browser ([JSON.stringify], [JSON.parse], string
      coercion in template literals, [fetch], [Date.now], [Math.random])
      are the fields of an environment record [Env]; every statement below
      is for an arbitrary environment unless it says otherwise;
    - the [timestamp] field every event receives from [BaseEvent], the
      console output, the DOM rendering and the pacing delays
      ([setTimeout]) are not represented. *)

From Stdlib Require Import String Ascii List ZArith Bool Lia DecimalString.
Import ListNotations.
Local Open Scope list_scope.
Local Open Scope string_scope.

Set Implicit Arguments.
Set Warnings "-register-all".

(** ** JavaScript values that occur as JSON data *)

(** A JSON value.  Integers are exact; a number that is not an integer
    literal of the source (a float) is kept as its decimal rendering. *)
Inductive JSON : Type :=
| JNull
| JBool (b : bool)
| JNum (n : Z)
| JReal (repr : string)
| JStr (s : string)
| JArr (items : list JSON)
| JObj (fields : list (string * JSON)).

(** A JavaScript value read from JSON data: [None] is [undefined]. *)
Definition JSValue := option JSON.

(** What a [throw] carries: the error objects of the source all are
    [Error]s (or the engine's [TypeError] / [SyntaxError]); [message] is
    the only property the source reads from them.  The text of the
    engine's own messages is not specified here. *)
Inductive Thrown : Type :=
| JsError (message : string)
| TypeError (message : string)
| SyntaxError (message : string).

Definition message (e : Thrown) : string :=
  match e with
  | JsError m | TypeError m | SyntaxError m => m
  end.

(** Truthiness of a JSON value ([if (v)], [v || d], [v && w]). *)
Definition truthyJSON (v : JSON) : bool :=
  match v with
  | JNull => false
  | JBool b => b
  | JNum n => negb (Z.eqb n 0)
  | JReal _ => true
  | JStr s => negb (String.eqb s EmptyString)
  | JArr _ | JObj _ => true
  end.

Definition truthy (v : JSValue) : bool :=
  match v with
  | None => false
  | Some j => truthyJSON j
  end.

(** [v || d] *)
Definition orElse (v : JSValue) (d : JSON) : JSON :=
  match v with
  | Some j => if truthyJSON j then j else d
  | None => d
  end.

Fixpoint assoc (k : string) (fields : list (string * JSON)) : JSValue :=
  match fields with
  | [] => None
  | (k', v) :: rest => if String.eqb k k' then Some v else assoc k rest
  end.

(** [v.k] for the property names the source reads (choices, message,
    tool_calls, content, type, function, name, arguments, strategy,
    yearsToRetirement, monthlyContribution): on [null] and [undefined] a
    TypeError, on an object its own field, on every other value
    [undefined], since none of these names is a member of the prototypes
    of arrays, strings, numbers or booleans. *)
Definition getProp (v : JSValue) (k : string) : JSValue + Thrown :=
  match v with
  | None | Some JNull => inr (TypeError ("Cannot read properties (reading '" ++ k ++ "')"))
  | Some (JObj fields) => inl (assoc k fields)
  | Some _ => inl None
  end.

(** [v[0]] *)
Definition getFirst (v : JSValue) : JSValue + Thrown :=
  match v with
  | None | Some JNull => inr (TypeError "Cannot read properties (reading '0')")
  | Some (JObj fields) => inl (assoc "0" fields)
  | Some (JArr items) => inl (hd_error items)
  | Some (JStr (String c _)) => inl (Some (JStr (String c EmptyString)))
  | Some _ => inl None
  end.

(** [v?.k] and [v?.[0]]: [undefined] on [null] and [undefined]. *)
Definition getPropOpt (v : JSValue) (k : string) : JSValue :=
  match getProp v k with
  | inl r => r
  | inr _ => None
  end.

Definition getFirstOpt (v : JSValue) : JSValue :=
  match getFirst v with
  | inl r => r
  | inr _ => None
  end.

(** [v === 'literal'] *)
Definition isString (v : JSValue) (lit : string) : bool :=
  match v with
  | Some (JStr s) => String.eqb s lit
  | _ => false
  end.

(** The steps of a synchronous expression that may throw. *)
Definition andThen {A B} (r : A + Thrown) (f : A -> B + Thrown) : B + Thrown :=
  match r with
  | inl a => f a
  | inr e => inr e
  end.

(** [Object.keys(v).length] for a truthy JSON value. *)
Definition keysLength (v : JSON) : nat :=
  match v with
  | JObj fields => length fields
  | JArr items => length items
  | JStr s => String.length s
  | _ => 0
  end.

(** ** Strings *)

Definition isUpper (c : ascii) : bool :=
  (65 <=? nat_of_ascii c)%nat && (nat_of_ascii c <=? 90)%nat.

Definition lowerChar (c : ascii) : ascii :=
  if isUpper c then ascii_of_nat (nat_of_ascii c + 32) else c.

(** [s.toLowerCase()] *)
Fixpoint toLowerCase (s : string) : string :=
  match s with
  | EmptyString => EmptyString
  | String c rest => String (lowerChar c) (toLowerCase rest)
  end.

(** [s.includes(sub)] *)
Fixpoint includes (s sub : string) : bool :=
  String.prefix sub s ||
  match s with
  | EmptyString => false
  | String _ rest => includes rest sub
  end.

Definition dquote : string := String (ascii_of_nat 34) EmptyString.

(** [items.join(sep)] *)
Fixpoint join (sep : string) (items : list string) : string :=
  match items with
  | [] => EmptyString
  | [x] => x
  | x :: rest => x ++ sep ++ join sep rest
  end.

(** [s.split(' ')]: the pieces between the separators; the accumulator
    holds the piece being read. *)
Fixpoint splitAcc (sep : ascii) (s : string) (acc : string) : list string :=
  match s with
  | EmptyString => [acc]
  | String c rest =>
      if Ascii.eqb c sep then acc :: splitAcc sep rest EmptyString
      else splitAcc sep rest (acc ++ String c EmptyString)
  end.

Definition split (sep : ascii) (s : string) : list string := splitAcc sep s EmptyString.

Definition isDigit (c : ascii) : bool :=
  (48 <=? nat_of_ascii c)%nat && (nat_of_ascii c <=? 57)%nat.

(** The class [\s] on ASCII: tab, line feed, vertical tab, form feed,
    carriage return, space. *)
Definition isSpace (c : ascii) : bool :=
  ((9 <=? nat_of_ascii c)%nat && (nat_of_ascii c <=? 13)%nat)
  || (nat_of_ascii c =? 32)%nat.

(** The characters [.] does not match: line feed and carriage return. *)
Definition isLineTerminator (c : ascii) : bool :=
  (nat_of_ascii c =? 10)%nat || (nat_of_ascii c =? 13)%nat.

(** ** AG-UI events ([ag-ui-client.js]) *)

Inductive EventType : Type :=
| RUN_STARTED | RUN_FINISHED | RUN_ERROR | STEP_STARTED | STEP_FINISHED
| TEXT_MESSAGE_START | TEXT_MESSAGE_CONTENT | TEXT_MESSAGE_END | TEXT_MESSAGE_CHUNK
| TOOL_CALL_START | TOOL_CALL_ARGS | TOOL_CALL_END | TOOL_CALL_RESULT
| STATE_SNAPSHOT | STATE_DELTA | MESSAGES_SNAPSHOT
| RAW | CUSTOM.

(** The object passed as [error] to [RunErrorEvent]. *)
Record ErrorInfo : Type := mkErrorInfo {
  error_message : string;
  error_code : string;
  error_timestamp : option Z
}.

(** One constructor per event class; [PlainRunError] is the object literal
    [{type: RUN_ERROR, message, code}] the demo yields. *)
Inductive Event : Type :=
| RunStartedEvent (threadId runId : string)
| RunFinishedEvent (threadId runId : string) (result : option string)
| RunErrorEvent (threadId runId : string) (error : ErrorInfo)
| TextMessageStartEvent (messageId role : string)
| TextMessageContentEvent (messageId delta : string)
| TextMessageEndEvent (messageId : string)
| ToolCallStartEvent (toolCallId toolCallName : string) (parentMessageId : option string)
| ToolCallArgsEvent (toolCallId delta : string)
| ToolCallEndEvent (toolCallId : string)
| ToolCallResultEvent (messageId toolCallId result : string)
| CustomEvent (message : string)
| PlainRunError (message code : string).

Definition eventType (e : Event) : EventType :=
  match e with
  | RunStartedEvent _ _ => RUN_STARTED
  | RunFinishedEvent _ _ _ => RUN_FINISHED
  | RunErrorEvent _ _ _ => RUN_ERROR
  | TextMessageStartEvent _ _ => TEXT_MESSAGE_START
  | TextMessageContentEvent _ _ => TEXT_MESSAGE_CONTENT
  | TextMessageEndEvent _ => TEXT_MESSAGE_END
  | ToolCallStartEvent _ _ _ => TOOL_CALL_START
  | ToolCallArgsEvent _ _ => TOOL_CALL_ARGS
  | ToolCallEndEvent _ => TOOL_CALL_END
  | ToolCallResultEvent _ _ _ => TOOL_CALL_RESULT
  | CustomEvent _ => CUSTOM
  | PlainRunError _ _ => RUN_ERROR
  end.

Definition isRunStarted (e : Event) : bool :=
  match e with RunStartedEvent _ _ => true | _ => false end.

Definition isRunFinished (e : Event) : bool :=
  match e with RunFinishedEvent _ _ _ => true | _ => false end.

(** The two events that delimit a run. *)
Definition lifecycle (e : Event) : bool := isRunStarted e || isRunFinished e.

(** The events of a text message. *)
Definition isText (e : Event) : bool :=
  match e with
  | TextMessageStartEvent _ _ | TextMessageContentEvent _ _ | TextMessageEndEvent _ => true
  | _ => false
  end.

(** The events of a tool call. *)
Definition isToolEvent (e : Event) : bool :=
  match e with
  | ToolCallStartEvent _ _ _ | ToolCallArgsEvent _ _
  | ToolCallEndEvent _ | ToolCallResultEvent _ _ _ => true
  | _ => false
  end.

(** The events that carry a given tool-call id. *)
Definition carriesToolCallId (id : string) (e : Event) : bool :=
  match e with
  | ToolCallStartEvent i _ _ | ToolCallArgsEvent i _
  | ToolCallEndEvent i | ToolCallResultEvent _ i _ => String.eqb i id
  | _ => false
  end.

(** ** The browser environment *)

(** A call of [fetch]: the URL, the bearer token of the [Authorization]
    header and the value serialized as the body. *)
Record FetchRequest : Type := mkFetchRequest {
  url : string;
  bearer : option string;
  body : JSON
}.

(** What a call of [fetch] comes to: the promise rejects (network error),
    or it resolves to a response with its [ok] flag, status line and the
    outcomes of [response.text()] and [response.json()] (an error of the
    latter is a body that is not JSON). *)
Inductive FetchOutcome : Type :=
| FetchRejected (error : Thrown)
| FetchResponse (ok : bool) (status statusText : string)
                (text : string + Thrown) (json : JSON + Thrown).

(** The builtins of the browser a run depends on. *)
Record Env : Type := mkEnv {
  (* JSON.stringify(v) *)
  JSON_stringify : JSON -> string;
  (* JSON.parse(v): the value or a SyntaxError *)
  JSON_parse : JSON -> JSON + Thrown;
  (* the string a value becomes inside a template literal *)
  String_of : JSValue -> string;
  (* the remote completion service behind fetch *)
  fetch : FetchRequest -> FetchOutcome;
  (* 'thread_' + Date.now() and 'run_' + Date.now() of a run *)
  threadId : string;
  runId : string;
  (* 'tool_' + Date.now() + '_' + Math.random()... and 'msg_' + ... of the
     iteration of the tool loop with the given index *)
  toolCallId : nat -> string;
  messageId : nat -> string;
  (* 'response_' + Date.now() and the demo's 'msg_' + Date.now() *)
  responseMessageId : string;
  noToolsMessageId : string;
  (* Date.now() where the value itself is stored *)
  Date_now : Z;
  (* new Date().toISOString() and new Date().toLocaleTimeString() *)
  Date_toISOString : string;
  Date_toLocaleTimeString : string
}.

(** ** Tools, requests and the page state *)

(** The result of an async function over the state [X]. *)
Definition Async (X A : Type) : Type := X -> (A + Thrown) * X.

(** An entry of the tool registry; [execute] acts on the application
    state [App] and receives [undefined] ([None]) or a value. *)
Record Tool (App : Type) : Type := mkTool {
  name : string;
  description : string;
  execute : JSValue -> Async App JSON
}.

(** A resolved request [{name, args}]; [args = None] is an object with no
    [args] property.  The local strategies give string names; a name taken
    from a remote response is whatever value the response holds. *)
Record ToolCall : Type := mkToolCall {
  call_name : JSValue;
  call_args : JSValue
}.

(** What a run can touch outside the agent object: the application
    state, and two ghost logs, of the tool executions and of the requests
    sent with [fetch], in the order they happened. *)
Record World (App : Type) : Type := mkWorld {
  app : App;
  invoked : list (string * JSValue);
  fetched : list FetchRequest
}.

(** ** Async functions *)

Module AsyncM.
Definition ret {X A} (a : A) : Async X A := fun x => (inl a, x).

Definition bind {X A B} (m : Async X A) (f : A -> Async X B) : Async X B :=
  fun x =>
    match m x with
    | (inl a, x') => f a x'
    | (inr e, x') => (inr e, x')
    end.

Definition throw {X A} (e : Thrown) : Async X A := fun x => (inr e, x).

(** [try { m } catch (e) { h e }] *)
Definition tryCatch {X A} (m : Async X A) (h : Thrown -> Async X A) : Async X A :=
  fun x =>
    match m x with
    | (inl a, x') => (inl a, x')
    | (inr e, x') => h e x'
    end.

(** A value or an exception of a pure step. *)
Definition lift {X A} (r : A + Thrown) : Async X A := fun x => (r, x).

(** Run a computation on a component of the state. *)
Definition zoom {X Y A} (get : X -> Y) (set : Y -> X -> X) (m : Async Y A) : Async X A :=
  fun x => let (r, y) := m (get x) in (r, set y x).
End AsyncM.

Declare Scope async_scope.
Delimit Scope async_scope with async.
Notation "x <- m ;; k" := (AsyncM.bind m (fun x => k))
  (at level 61, m at next level, right associativity) : async_scope.
Notation "m ;; k" := (AsyncM.bind m (fun _ => k))
  (at level 61, right associativity) : async_scope.

(** The outcomes of [fetch] that make the remote call fail: a network
    error, a status that is not a success, a body that is not JSON. *)
Definition remoteFails (o : FetchOutcome) : bool :=
  match o with
  | FetchRejected _ => true
  | FetchResponse ok _ _ _ json =>
      negb ok || match json with inl _ => false | inr _ => true end
  end.

(** [await fetch(...)]: the request is logged and answered by the
    environment. *)
Definition doFetch (env : Env) (req : FetchRequest) : Async (list FetchRequest) FetchOutcome :=
  fun log => (inl (fetch env req), (log ++ [req])%list).

Definition onNet {App A} (m : Async (list FetchRequest) A) : Async (World App) A :=
  AsyncM.zoom (@fetched App) (fun l w => mkWorld (app w) (invoked w) l) m.

(** [await tool.execute(args)]: the call is logged and the tool runs on
    the application state. *)
Definition invoke {App} (tool : Tool App) (args : JSValue) : Async (World App) JSON :=
  fun w =>
    let (r, a) := execute tool args (app w) in
    (r, mkWorld a (invoked w ++ [(name tool, args)])%list (fetched w)).

(** [tools.find(t => t.name === n)] *)
Definition findTool {App} (tools : list (Tool App)) (n : JSValue) : option (Tool App) :=
  find (fun t => isString n (name t)) tools.

(** ** Async generators *)

(** What draining a generator from the state [s] gives: the events in the
    order they were yielded, each with the state the generator was
    suspended in, then the completion (normal or by an exception) and the
    state it leaves. *)
Record Out (S A : Type) : Type := mkOut {
  trace : list (Event * S);
  result : A + Thrown;
  final : S
}.

Definition Gen (S A : Type) : Type := S -> Out S A.

Definition events {S A} (o : Out S A) : list Event := map fst (trace o).

Module GenM.
Definition ret {S A} (a : A) : Gen S A := fun s => mkOut [] (inl a) s.

Definition bind {S A B} (m : Gen S A) (f : A -> Gen S B) : Gen S B :=
  fun s =>
    let o := m s in
    match result o with
    | inl a => let o' := f a (final o) in
               mkOut (trace o ++ trace o')%list (result o') (final o')
    | inr e => mkOut (trace o) (inr e) (final o)
    end.

(** [yield e] *)
Definition yield {S} (e : Event) : Gen S unit := fun s => mkOut [(e, s)] (inl tt) s.

(** [try { m } catch (e) { h e }] *)
Definition tryCatch {S A} (m : Gen S A) (h : Thrown -> Gen S A) : Gen S A :=
  fun s =>
    let o := m s in
    match result o with
    | inl a => o
    | inr e => let o' := h e (final o) in
               mkOut (trace o ++ trace o')%list (result o') (final o')
    end.

(** [try { m } finally { fin }] *)
Definition tryFinally {S A} (m : Gen S A) (fin : Gen S unit) : Gen S A :=
  fun s =>
    let o := m s in
    let o' := fin (final o) in
    mkOut (trace o ++ trace o')%list
          (match result o' with inl _ => result o | inr e => inr e end)
          (final o').

Definition gets {S A} (f : S -> A) : Gen S A := fun s => mkOut [] (inl (f s)) s.

Definition modify {S} (f : S -> S) : Gen S unit := fun s => mkOut [] (inl tt) (f s).

(** [await m] for an async function on a component of the state. *)
Definition await {S X A} (get : S -> X) (set : X -> S -> S) (m : Async X A) : Gen S A :=
  fun s => let (r, x) := m (get s) in mkOut [] r (set x s).
End GenM.

(** A generator none of whose events satisfies [p]. *)
Definition Avoids {S A} (p : Event -> bool) (m : Gen S A) : Prop :=
  forall s, Forall (fun e => p e = false) (events (m s)).

(** A generator that completes normally from every state. *)
Definition Returns {S A} (m : Gen S A) : Prop :=
  forall s, exists a, result (m s) = inl a.

(** A generator that leaves the quantity [f] of the state as it finds it,
    at every suspension and at the end. *)
Definition Keeps {S X A} (f : S -> X) (m : Gen S A) : Prop :=
  forall s, f (final (m s)) = f s /\ Forall (fun x => f (snd x) = f s) (trace (m s)).

Declare Scope gen_scope.
Delimit Scope gen_scope with gen.
Notation "x <- m ;; k" := (GenM.bind m (fun x => k))
  (at level 61, m at next level, right associativity) : gen_scope.
Notation "m ;; k" := (GenM.bind m (fun _ => k))
  (at level 61, right associativity) : gen_scope.

(** [${v}] for a value that is a string when the source reaches the
    template, and the coercion of the environment otherwise. *)
Definition text (env : Env) (v : JSValue) : string :=
  match v with
  | Some (JStr s) => s
  | _ => String_of env v
  end.

(** The element of [names.join(', ')] for a value: [null] and
    [undefined] give the empty string. *)
Definition joinText (env : Env) (v : JSValue) : string :=
  match v with
  | None | Some JNull => EmptyString
  | _ => text env v
  end.

(** [${JSON.stringify(v)}] *)
Definition stringifyText (env : Env) (v : JSValue) : string :=
  match v with
  | Some j => JSON_stringify env j
  | None => "undefined"
  end.

(** [response.split(' ')]: a method of strings only. *)
Definition splitWords (response : JSValue) : list string + Thrown :=
  match response with
  | Some (JStr s) => inl (split " " s)
  | _ => inr (TypeError "response.split is not a function")
  end.

(** [this.useRealLLM && this.apiKey] *)
Definition keyConfigured (useRealLLM : bool) (apiKey : option string) : bool :=
  useRealLLM && match apiKey with
                | Some k => negb (String.eqb k EmptyString)
                | None => false
                end.

(** [for (const toolCall of v)]: the elements of an array, the characters
    of a string, a TypeError for a value that is not iterable. *)
Fixpoint chars (s : string) : list JSON :=
  match s with
  | EmptyString => []
  | String c rest => JStr (String c EmptyString) :: chars rest
  end.

Definition iterate (v : JSValue) : list JSON + Thrown :=
  match v with
  | Some (JArr items) => inl items
  | Some (JStr s) => inl (chars s)
  | _ => inr (TypeError "value is not iterable")
  end.

(** The extraction of the tool calls from the parsed response, the same
    in both [LLMClient]s:
    [if (data.choices?.[0]?.message?.tool_calls)
       for (const toolCall of data.choices[0].message.tool_calls)
         if (toolCall.type === 'function')
           calls.push({name: toolCall.function.name,
                       args: JSON.parse(toolCall.function.arguments || '{}')})] *)
Fixpoint pushToolCalls (env : Env) (items : list JSON) (calls : list ToolCall)
  : list ToolCall + Thrown :=
  match items with
  | [] => inl calls
  | toolCall :: rest =>
      andThen (getProp (Some toolCall) "type") (fun type =>
      if isString type "function" then
        andThen (getProp (Some toolCall) "function") (fun function =>
        andThen (getProp function "name") (fun nm =>
        andThen (getProp function "arguments") (fun arguments =>
        andThen (JSON_parse env (orElse arguments (JStr "{}"))) (fun args =>
        pushToolCalls env rest (calls ++ [mkToolCall nm (Some args)])%list))))
      else pushToolCalls env rest calls)
  end.

Definition extractToolCalls (env : Env) (data : JSON) : list ToolCall + Thrown :=
  andThen (getProp (Some data) "choices") (fun choices =>
  let tool_calls := getPropOpt (getPropOpt (getFirstOpt choices) "message") "tool_calls" in
  if truthy tool_calls then
    andThen (iterate tool_calls) (fun items => pushToolCalls env items [])
  else inl []).

(** * The starter kit *)

Module StarterKit.

(** ** [starter-kit/js/llm-client.js] *)
Module LLMClient.
Section WithApp.
Variable App : Type.
Variable env : Env.

(** The fields of an [LLMClient] object. *)
Record t : Type := mk {
  tools : list (Tool App);
  apiKey : option string;
  useRealLLM : bool;
  llmProvider : string
}.

Definition new (tools : list (Tool App)) : t := mk tools None false "openai".

Definition setApiKey (this : t) (key : option string) : t :=
  mk (tools this) key true (llmProvider this).

Definition clearApiKey (this : t) : t :=
  mk (tools this) None false (llmProvider this).

(** The rules of the demo mode, in the order of the source; each appends
    at most one request. *)
Definition showRule (p : string) : bool :=
  includes p "show" || includes p "get" || includes p "display" || includes p "view".
Definition refreshRule (p : string) : bool :=
  includes p "refresh" || includes p "reload" || includes p "update" || includes p "fetch".
Definition analyzeRule (p : string) : bool :=
  includes p "analyze" || includes p "analysis" || includes p "examine" || includes p "insight".
Definition reportRule (p : string) : bool :=
  includes p "report" || includes p "generate" || includes p "create" || includes p "export".

Definition push (cond : bool) (call : ToolCall) (calls : list ToolCall) : list ToolCall :=
  if cond then (calls ++ [call])%list else calls.

Definition noArgs (n : string) : ToolCall := mkToolCall (Some (JStr n)) (Some (JObj [])).

(** The list [calls] that [getToolCallsFromKeywords] builds. *)
Definition keywordCalls (prompt : string) : list ToolCall :=
  let lowercasePrompt := toLowerCase prompt in
  let calls := [] in
  let calls := push (showRule lowercasePrompt) (noArgs "getAppData") calls in
  let calls := push (refreshRule lowercasePrompt) (noArgs "refreshData") calls in
  let calls := push (analyzeRule lowercasePrompt) (noArgs "analyzeData") calls in
  let calls := push (reportRule lowercasePrompt) (noArgs "generateReport") calls in
  calls.

Definition getToolCallsFromKeywords (prompt : string)
  : Async (list FetchRequest) (list ToolCall) :=
  let calls := keywordCalls prompt in
  (* await new Promise(resolve => setTimeout(resolve, 100)) *)
  AsyncM.ret calls.

(** No condition of the rules holds of the prompt. *)
Definition noRuleMatches (prompt : string) : bool :=
  let lowercasePrompt := toLowerCase prompt in
  negb (showRule lowercasePrompt) && negb (refreshRule lowercasePrompt)
  && negb (analyzeRule lowercasePrompt) && negb (reportRule lowercasePrompt).

Definition emptySchema : JSON :=
  JObj [("type", JStr "object"); ("properties", JObj []); ("required", JArr [])].

Definition property (type description : string) : JSON :=
  JObj [("type", JStr type); ("description", JStr description)].

Definition enumProperty (type : string) (values : list string) (description : string) : JSON :=
  JObj [("type", JStr type); ("enum", JArr (map JStr values)); ("description", JStr description)].

Definition parameterSchemas : list (string * JSON) :=
  [ ("getAppData", emptySchema);
    ("refreshData",
     JObj [("type", JStr "object");
           ("properties",
            JObj [("force", property "boolean" "Whether to force refresh even if data is recent")]);
           ("required", JArr [])]);
    ("analyzeData",
     JObj [("type", JStr "object");
           ("properties",
            JObj [("analysisType",
                   enumProperty "string" ["basic"; "detailed"; "statistical"]
                                "Type of analysis to perform");
                  ("filters", property "object" "Filters to apply during analysis")]);
           ("required", JArr [])]);
    ("generateReport",
     JObj [("type", JStr "object");
           ("properties",
            JObj [("format",
                   enumProperty "string" ["pdf"; "excel"; "json"] "Report output format");
                  ("title", property "string" "Title for the report");
                  ("includeSummary",
                   property "boolean" "Whether to include an executive summary")]);
           ("required", JArr [])]) ].

(** [parameterSchemas[toolName] || {...}], for a tool name that is not a
    member of [Object.prototype]. *)
Definition generateParametersForTool (toolName : string) : JSON :=
  orElse (assoc toolName parameterSchemas) emptySchema.

Definition toolDefinition (tool : Tool App) : JSON :=
  JObj [("type", JStr "function");
        ("function",
         JObj [("name", JStr (name tool));
               ("description", JStr (description tool));
               ("parameters", generateParametersForTool (name tool))])].

Definition chatMessage (role content : string) : JSON :=
  JObj [("role", JStr role); ("content", JStr content)].

Definition newline : string := String (ascii_of_nat 10) EmptyString.

Definition systemPrompt (this : t) : string :=
  "You are a helpful AI assistant that can interact with the user's application through available tools."
  ++ newline ++ "            " ++ newline
  ++ "Available tools: "
  ++ join ", " (map (fun t => name t ++ " - " ++ description t) (tools this))
  ++ newline ++ newline
  ++ "When users ask for help, use the appropriate tools to assist them. Always prioritize the most relevant tool for their request.".

Definition completionsUrl : string := "https://api.openai.com/v1/chat/completions".

(** The [try] block of [getToolCallsFromOpenAI]. *)
Definition requestToolCalls (this : t) (prompt : string)
  : Async (list FetchRequest) (list ToolCall) :=
    (let toolDefinitions := map toolDefinition (tools this) in
     let messages := [chatMessage "system" (systemPrompt this); chatMessage "user" prompt] in
     response <- doFetch env
       (mkFetchRequest completionsUrl (apiKey this)
          (JObj [("model", JStr "gpt-3.5-turbo");
                 ("messages", JArr messages);
                 ("tools", JArr toolDefinitions);
                 ("tool_choice", JStr "auto");
                 ("temperature", JReal "0.7")]));;
     match response with
     | FetchRejected e => AsyncM.throw e
     | FetchResponse ok status statusText responseText responseJson =>
         (if negb ok then
            errorText <- AsyncM.lift responseText;;
            AsyncM.throw (JsError ("OpenAI API error: " ++ status ++ " " ++ statusText
                                   ++ " - " ++ errorText))
          else AsyncM.ret tt);;
         data <- AsyncM.lift responseJson;;
         AsyncM.lift (extractToolCalls env data)
     end)%async.

Definition getToolCallsFromOpenAI (this : t) (prompt : string)
  : Async (list FetchRequest) (list ToolCall) :=
  AsyncM.tryCatch
    (requestToolCalls this prompt)
    (fun error =>
       (* Fallback to keyword matching if API fails *)
       getToolCallsFromKeywords prompt).

Definition getToolCalls (this : t) (prompt : string)
  : Async (list FetchRequest) (list ToolCall) :=
  if keyConfigured (useRealLLM this) (apiKey this)
  then getToolCallsFromOpenAI this prompt
  else getToolCallsFromKeywords prompt.

Definition generateSimpleResponse (toolCalls : list ToolCall) : string :=
  if (length toolCalls =? 0)%nat then
    "I understand your request, but I don't have the right tools to help with that at the moment."
  else
    let toolNames := join ", " (map (fun call => joinText env (call_name call)) toolCalls) in
    "I've executed the following tools for you: " ++ toolNames
    ++ ". The results are displayed in your application above.".

Definition responsePrompt (originalPrompt : string) (toolCalls : list ToolCall) : string :=
  "The user asked: " ++ dquote ++ originalPrompt ++ dquote
  ++ newline ++ "            " ++ newline
  ++ "I executed these tools: "
  ++ join ", " (map (fun call => text env (call_name call) ++ "("
                                 ++ stringifyText env (call_args call) ++ ")") toolCalls)
  ++ newline ++ newline
  ++ "Please provide a helpful response explaining what was accomplished and any relevant insights from the results.".

(** The value returned is [data.choices[0].message.content], whatever
    it is, or the simple response. *)
Definition generateIntelligentResponse (this : t) (originalPrompt : string)
           (toolCalls : list ToolCall) : Async (list FetchRequest) JSValue :=
  if negb (keyConfigured (useRealLLM this) (apiKey this)) then
    AsyncM.ret (Some (JStr (generateSimpleResponse toolCalls)))
  else
    AsyncM.tryCatch
      (response <- doFetch env
         (mkFetchRequest completionsUrl (apiKey this)
            (JObj [("model", JStr "gpt-3.5-turbo");
                   ("messages",
                    JArr [chatMessage "system"
                            "You are a helpful assistant. Provide clear, concise responses about what actions were taken.";
                          chatMessage "user" (responsePrompt originalPrompt toolCalls)]);
                   ("temperature", JReal "0.7");
                   ("max_tokens", JNum 300)]));;
       match response with
       | FetchRejected e => AsyncM.throw e
       | FetchResponse ok _ _ _ responseJson =>
           if ok then
             data <- AsyncM.lift responseJson;;
             AsyncM.lift
               (andThen (getProp (Some data) "choices") (fun choices =>
                andThen (getFirst choices) (fun choice =>
                andThen (getProp choice "message") (fun msg =>
                getProp msg "content"))))
           else AsyncM.throw (JsError "Failed to generate response")
       end)%async
      (fun error => AsyncM.ret (Some (JStr (generateSimpleResponse toolCalls)))).
End WithApp.
End LLMClient.

(** ** [starter-kit/js/agent-client.js] *)
Module AgentClient.
Section WithApp.
Variable App : Type.
Variable env : Env.

(** The [llmClient] object as the agent uses it: the flag it reads and
    the two methods it calls.  The methods are async functions that can
    reach the network only. *)
Record LLM : Type := mkLLM {
  useRealLLM : bool;
  getToolCalls : string -> Async (list FetchRequest) (list ToolCall);
  generateIntelligentResponse : string -> list ToolCall -> Async (list FetchRequest) JSValue
}.

(** The object [new LLMClient(tools)] gives, in its current state. *)
Definition ofLLMClient (c : LLMClient.t App) : LLM :=
  mkLLM (LLMClient.useRealLLM c)
        (LLMClient.getToolCalls env c)
        (LLMClient.generateIntelligentResponse env c).

(** The fields of an [AgentClient] a run reads. *)
Record t : Type := mk {
  tools : list (Tool App);
  llmClient : LLM
}.

(** The state a run reads and writes: the flag of the agent object and
    the rest of the page. *)
Record State : Type := mkState {
  isProcessing : bool;
  world : World App
}.

Definition new (tools : list (Tool App)) : t :=
  mk tools (ofLLMClient (LLMClient.new tools)).

Definition setWorld (w : World App) (s : State) : State := mkState (isProcessing s) w.
Definition setProcessing (b : bool) (s : State) : State := mkState b (world s).

Definition awaitWorld {A} (m : Async (World App) A) : Gen State A :=
  GenM.await world setWorld m.

(** An entry [{ call, result }] of [executedTools]. *)
Record Executed : Type := mkExecuted {
  call : ToolCall;
  callResult : JSON
}.

Definition generateSimpleResponse (executedTools : list Executed) : string :=
  match executedTools with
  | [tool] =>
      "I've executed the " ++ text env (call_name (call tool))
      ++ " tool for you. The results are displayed in your application above."
  | _ =>
      let toolNames := join ", " (map (fun t => joinText env (call_name (call t))) executedTools) in
      "I've executed multiple tools for you: " ++ toolNames
      ++ ". The results are displayed in your application above."
  end.

Definition generateNoToolsResponse (originalPrompt : string) : string :=
  "I understand your request: " ++ dquote ++ originalPrompt ++ dquote
  ++ ", but I don't have the specific tools needed to help with that right now. Try asking me to show data, refresh information, analyze results, or generate reports.".

Definition errorResponse : string :=
  "I encountered an error while generating my response, but the requested actions may have completed successfully.".

(** [for (let i = 0; i < words.length; i++)]: one content event for
    each word, the first without the leading space. *)
Fixpoint streamWords (responseMessageId : string) (first : bool) (words : list string)
  : Gen State unit :=
  match words with
  | [] => GenM.ret tt
  | word :: rest =>
      (let chunk := (if first then EmptyString else " ") ++ word in
       GenM.yield (TextMessageContentEvent responseMessageId chunk);;
       streamWords responseMessageId false rest)%gen
  end.

Definition streamResponse (this : t) (originalPrompt : string)
           (executedTools : list Executed) (runId : string) : Gen State unit :=
  (let responseMessageId := responseMessageId env in
   GenM.yield (TextMessageStartEvent responseMessageId "assistant");;
   GenM.tryCatch
     (if (0 <? length executedTools)%nat then
        if useRealLLM (llmClient this) then
          response <- awaitWorld
            (onNet (generateIntelligentResponse (llmClient this) originalPrompt
                                                (map call executedTools)));;
          words <- GenM.await (fun s => s) (fun _ s => s) (AsyncM.lift (splitWords response));;
          streamWords responseMessageId true words
        else
          let response := generateSimpleResponse executedTools in
          GenM.yield (TextMessageContentEvent responseMessageId response)
      else
        let response := generateNoToolsResponse originalPrompt in
        GenM.yield (TextMessageContentEvent responseMessageId response))
     (fun responseError =>
        GenM.yield (TextMessageContentEvent responseMessageId errorResponse));;
   GenM.yield (TextMessageEndEvent responseMessageId))%gen.

(** [call.args && Object.keys(call.args).length > 0] *)
Definition hasArguments (args : JSValue) : bool :=
  match args with
  | Some j => truthyJSON j && (0 <? keysLength j)%nat
  | None => false
  end.

Definition failurePayload (toolError : Thrown) : JSON :=
  JObj [("error", JStr (message toolError)); ("success", JBool false)].

(** [for (const call of toolCalls)], the iteration for the request with
    index [i] and those after it; the value is [executedTools]. *)
Fixpoint toolLoop (this : t) (toolCalls : list ToolCall) (i : nat)
         (executedTools : list Executed) : Gen State (list Executed) :=
  match toolCalls with
  | [] => GenM.ret executedTools
  | call :: rest =>
      match findTool (tools this) (call_name call) with
      | Some tool =>
          (let toolCallId := toolCallId env i in
           let messageId := messageId env i in
           GenM.yield (ToolCallStartEvent toolCallId (text env (call_name call)) (Some messageId));;
           (if hasArguments (call_args call) then
              GenM.yield (ToolCallArgsEvent toolCallId (stringifyText env (call_args call)))
            else GenM.ret tt);;
           executedTools <-
             GenM.tryCatch
               (result <- awaitWorld (invoke tool (Some (orElse (call_args call) (JObj []))));;
                GenM.yield (ToolCallEndEvent toolCallId);;
                GenM.yield (ToolCallResultEvent messageId toolCallId (JSON_stringify env result));;
                GenM.ret (executedTools ++ [mkExecuted call result])%list)
               (fun toolError =>
                  GenM.yield (ToolCallEndEvent toolCallId);;
                  GenM.yield (ToolCallResultEvent messageId toolCallId
                                (JSON_stringify env (failurePayload toolError)));;
                  GenM.ret executedTools);;
           toolLoop this rest (S i) executedTools)%gen
      | None =>
          (* console.warn(`Tool not found: ${call.name}`) *)
          toolLoop this rest (S i) executedTools
      end
  end.

(** What the loop does, read off its text: the argument a tool receives,
    the payload of the result event after a return or a throw, the
    events of the iteration with index [i], and, for a list of requests
    run from the world [w], the events of each iteration, the world the
    loop leaves and the executions it makes. *)
Definition argument (call : ToolCall) : JSValue :=
  Some (orElse (call_args call) (JObj [])).

Definition payload (r : JSON + Thrown) : string :=
  match r with
  | inl result => JSON_stringify env result
  | inr toolError => JSON_stringify env (failurePayload toolError)
  end.

Definition block (call : ToolCall) (i : nat) (resultText : string) : list Event :=
  ToolCallStartEvent (toolCallId env i) (text env (call_name call)) (Some (messageId env i))
  :: (if hasArguments (call_args call)
      then [ToolCallArgsEvent (toolCallId env i) (stringifyText env (call_args call))]
      else [])
  ++ [ToolCallEndEvent (toolCallId env i);
      ToolCallResultEvent (messageId env i) (toolCallId env i) resultText].

Fixpoint loopBlocks (this : t) (toolCalls : list ToolCall) (i : nat) (w : World App)
  : list (list Event) :=
  match toolCalls with
  | [] => []
  | call :: rest =>
      match findTool (tools this) (call_name call) with
      | Some tool =>
          let (r, w') := invoke tool (argument call) w in
          block call i (payload r) :: loopBlocks this rest (S i) w'
      | None => [] :: loopBlocks this rest (S i) w
      end
  end.

Fixpoint loopWorld (this : t) (toolCalls : list ToolCall) (w : World App) : World App :=
  match toolCalls with
  | [] => w
  | call :: rest =>
      match findTool (tools this) (call_name call) with
      | Some tool => loopWorld this rest (snd (invoke tool (argument call) w))
      | None => loopWorld this rest w
      end
  end.

Definition executions (this : t) (toolCalls : list ToolCall) : list (string * JSValue) :=
  flat_map (fun call =>
              match findTool (tools this) (call_name call) with
              | Some tool => [(name tool, argument call)]
              | None => []
              end) toolCalls.

(** What is outside the reach of the resolver and of the response: the
    flag, the application, the log of executions. *)
Definition beyondNet (s : State) : bool * App * list (string * JSValue) :=
  (isProcessing s, app (world s), invoked (world s)).

Definition busyMessage : string := "Agent is already processing a request. Please wait.".

(** The events that delimit a run and report its failure. *)
Definition started : Event := RunStartedEvent (threadId env) (runId env).
Definition finished (status : string) : Event :=
  RunFinishedEvent (threadId env) (runId env) (Some status).
Definition failed (e : Thrown) : Event :=
  RunErrorEvent (threadId env) (runId env)
                (mkErrorInfo (message e) "PROCESSING_ERROR" (Some (Date_now env))).

(** [await this.llmClient.getToolCalls(prompt)] *)
Definition resolve (this : t) (prompt : string) : Gen State (list ToolCall) :=
  awaitWorld (onNet (getToolCalls (llmClient this) prompt)).

(** The [try] block of [processPrompt]. *)
Definition tryBlock (this : t) (prompt threadId runId : string) : Gen State unit :=
  (GenM.yield (RunStartedEvent threadId runId);;
   toolCalls <- resolve this prompt;;
   executedTools <- toolLoop this toolCalls 0 [];;
   streamResponse this prompt executedTools runId;;
   GenM.yield (RunFinishedEvent threadId runId (Some "completed")))%gen.

(** Its [catch] block. *)
Definition catchBlock (threadId runId : string) (error : Thrown) : Gen State unit :=
  (GenM.yield (RunErrorEvent threadId runId
                 (mkErrorInfo (message error) "PROCESSING_ERROR" (Some (Date_now env))));;
   GenM.yield (RunFinishedEvent threadId runId (Some "error")))%gen.

Definition processPrompt (this : t) (prompt : string) : Gen State unit :=
  (busy <- GenM.gets isProcessing;;
   if busy then
     GenM.yield (CustomEvent busyMessage)
   else
     GenM.modify (setProcessing true);;
     let threadId := threadId env in
     let runId := runId env in
     GenM.tryFinally
       (GenM.tryCatch (tryBlock this prompt threadId runId) (catchBlock threadId runId))
       (GenM.modify (setProcessing false)))%gen.

Definition isAgentBusy (s : State) : bool := isProcessing s.
End WithApp.
End AgentClient.

End StarterKit.

(** * The portfolio demo *)

(** ** [js/webmcp-provider.js]: the tool registry *)
Module WebMCPProvider.
Section WithApp.
Variable App : Type.

(** [this.tools], a [Map] from names to tools in insertion order. *)
Definition t : Type := list (Tool App).

Definition new : t := [].

(** [this.tools.set(name, {name, description, execute})]: a name that is
    present keeps its place and gets the new entry. *)
Fixpoint registerTool (tool : Tool App) (tools : t) : t :=
  match tools with
  | [] => [tool]
  | old :: rest =>
      if String.eqb (name old) (name tool) then tool :: rest
      else old :: registerTool tool rest
  end.

Definition getTools (tools : t) : list (Tool App) := tools.

(** [executeTool(name, args = {})] *)
Definition executeTool (tools : t) (n : string) (args : JSValue) : Async (World App) JSON :=
  match findTool tools (Some (JStr n)) with
  | None => AsyncM.throw (JsError ("Tool '" ++ n ++ "' not found"))
  | Some tool =>
      AsyncM.tryCatch
        (invoke tool (match args with None => Some (JObj []) | Some _ => args end))
        (fun error => AsyncM.throw (JsError ("Tool execution failed: " ++ message error)))
  end.
End WithApp.
End WebMCPProvider.

Module Demo.

(** ** The [LLMClient] of the demo ([js/webmcp-provider.js]) *)
Module LLMClient.

(** *** The regular expressions of the keyword rules *)

(** The longest run of digits at the head of a string, and the rest. *)
Fixpoint spanDigits (s : string) : string * string :=
  match s with
  | EmptyString => (EmptyString, EmptyString)
  | String c rest =>
      if isDigit c then let (run, after) := spanDigits rest in (String c run, after)
      else (EmptyString, s)
  end.

Fixpoint skipSpaces (s : string) : string :=
  match s with
  | EmptyString => EmptyString
  | String c rest => if isSpace c then skipSpaces rest else s
  end.

(** [(\d+)\s*(?:w1|w2|...)] matched at the head of [s], giving the
    captured digits.  Both quantifiers are greedy, and giving back a
    digit or a space cannot help: the character given back is then the
    next to match, and no word starts with a digit or a space. *)
Definition digitsThen (words : list string) (s : string) : option string :=
  let (run, after) := spanDigits s in
  match run with
  | EmptyString => None
  | _ => if existsb (fun w => String.prefix w (skipSpaces after)) words
         then Some run else None
  end.

(** [s.match(/(\d+)\s*years?/)]: the first position with a match. *)
Fixpoint matchYears (s : string) : option string :=
  match digitsThen ["year"] s with
  | Some digits => Some digits
  | None =>
      match s with
      | EmptyString => None
      | String _ rest => matchYears rest
      end
  end.

(** [\$?(\d+)\s*(?:per month|monthly)] at the head of [s]: with the
    dollar sign taken, then without it. *)
Definition monthlyAt (s : string) : option string :=
  match s with
  | String "$" rest =>
      match digitsThen ["per month"; "monthly"] rest with
      | Some digits => Some digits
      | None => digitsThen ["per month"; "monthly"] s
      end
  | _ => digitsThen ["per month"; "monthly"] s
  end.

Fixpoint matchMonthly (s : string) : option string :=
  match monthlyAt s with
  | Some digits => Some digits
  | None =>
      match s with
      | EmptyString => None
      | String _ rest => matchMonthly rest
      end
  end.

(** [parseInt(digits)] for a string of decimal digits. *)
Definition digitValue (c : ascii) : Z := Z.of_nat (nat_of_ascii c - 48).

Fixpoint parseIntAcc (s : string) (acc : Z) : Z :=
  match s with
  | EmptyString => acc
  | String c rest => parseIntAcc rest (10 * acc + digitValue c)
  end.

Definition parseInt (digits : string) : Z := parseIntAcc digits 0.

Fixpoint dropChars (n : nat) (s : string) : string :=
  match n, s with
  | O, _ => s
  | S n', String _ rest => dropChars n' rest
  | S _, EmptyString => EmptyString
  end.

(** [a.?b] at the head of [s]. *)
Definition gapAt (a b s : string) : bool :=
  String.prefix a s &&
  (let after := dropChars (String.length a) s in
   match after with
   | String c rest => (negb (isLineTerminator c) && String.prefix b rest) || String.prefix b after
   | EmptyString => String.prefix b after
   end).

(** [/a.?b/.test(s)] *)
Fixpoint gap (a b s : string) : bool :=
  gapAt a b s ||
  match s with
  | EmptyString => false
  | String _ rest => gap a b rest
  end.

(** The three [strategyPatterns], tested with the [i] flag: on ASCII
    the test of the pattern on the lower-cased string. *)
Definition aggressivePattern (prompt : string) : bool :=
  let s := toLowerCase prompt in
  includes s "aggressive" || includes s "growth" || includes s "risky" || gap "high" "risk" s.

Definition moderatePattern (prompt : string) : bool :=
  let s := toLowerCase prompt in
  includes s "moderate" || includes s "balanced" || gap "medium" "risk" s.

Definition conservativePattern (prompt : string) : bool :=
  let s := toLowerCase prompt in
  includes s "conservative" || includes s "safe" || gap "low" "risk" s || includes s "stable".

Definition strategyPatterns : list (string * (string -> bool)) :=
  [("aggressive", aggressivePattern);
   ("moderate", moderatePattern);
   ("conservative", conservativePattern)].

(** *** The keyword rules *)

Definition getPortfolioCall : ToolCall := mkToolCall (Some (JStr "getPortfolio")) None.

Definition rebalanceCall (strategy : string) : ToolCall :=
  mkToolCall (Some (JStr "rebalancePortfolio")) (Some (JObj [("strategy", JStr strategy)])).

Definition showRule (p : string) : bool :=
  includes p "show" && (includes p "portfolio" || includes p "allocation").
Definition rebalanceRule (p : string) : bool :=
  includes p "diversify" || includes p "rebalance".
Definition moreAggressiveRule (p : string) : bool :=
  includes p "make it more aggressive" || includes p "increase risk".
Definition moreConservativeRule (p : string) : bool :=
  includes p "make it conservative" || includes p "reduce risk".
Definition retirementRule (p : string) : bool :=
  includes p "retirement" && (includes p "projection" || includes p "plan" || includes p "future").
Definition analyzeRule (p : string) : bool :=
  (includes p "analyze" || includes p "review") && includes p "portfolio".
Definition switchRule (p : string) : bool :=
  includes p "set" || includes p "change" || includes p "switch".

Definition rebalanceStrategy (p : string) : string :=
  if includes p "aggressive" || includes p "risky" || includes p "growth" then "aggressive"
  else if includes p "conservative" || includes p "safe" || includes p "stable" then "conservative"
  else "moderate".

Definition retirementArgs (p : string) : JSON :=
  let yearsMatch := matchYears p in
  let monthlyMatch := matchMonthly p in
  JObj ((match yearsMatch with
         | Some digits => [("yearsToRetirement", JNum (parseInt digits))]
         | None => []
         end)
        ++ (match monthlyMatch with
            | Some digits => [("monthlyContribution", JNum (parseInt digits))]
            | None => []
            end))%list.

(** [for (const [strategy, pattern] of Object.entries(strategyPatterns))]
    with its [break]. *)
Fixpoint strategyLoop (patterns : list (string * (string -> bool)))
         (prompt lowerPrompt : string) (calls : list ToolCall) : list ToolCall :=
  match patterns with
  | [] => calls
  | (strategy, pattern) :: rest =>
      if pattern prompt && switchRule lowerPrompt
      then (calls ++ [rebalanceCall strategy])%list
      else strategyLoop rest prompt lowerPrompt calls
  end.

Definition keywordCalls (prompt : string) : list ToolCall :=
  let calls := [] in
  let lowerPrompt := toLowerCase prompt in
  let calls := if showRule lowerPrompt then (calls ++ [getPortfolioCall])%list else calls in
  let calls :=
    if rebalanceRule lowerPrompt then
      (calls ++ [getPortfolioCall] ++ [rebalanceCall (rebalanceStrategy lowerPrompt)])%list
    else calls in
  let calls :=
    if moreAggressiveRule lowerPrompt then (calls ++ [rebalanceCall "aggressive"])%list
    else calls in
  let calls :=
    if moreConservativeRule lowerPrompt then (calls ++ [rebalanceCall "conservative"])%list
    else calls in
  let calls :=
    if retirementRule lowerPrompt then
      (calls ++ [mkToolCall (Some (JStr "getRetirementProjection"))
                            (Some (retirementArgs lowerPrompt))])%list
    else calls in
  let calls := if analyzeRule lowerPrompt then (calls ++ [getPortfolioCall])%list else calls in
  strategyLoop strategyPatterns prompt lowerPrompt calls.

(** No condition of the rules holds of the prompt. *)
Definition noRuleMatches (prompt : string) : bool :=
  let lowerPrompt := toLowerCase prompt in
  negb (showRule lowerPrompt) && negb (rebalanceRule lowerPrompt)
  && negb (moreAggressiveRule lowerPrompt) && negb (moreConservativeRule lowerPrompt)
  && negb (retirementRule lowerPrompt) && negb (analyzeRule lowerPrompt)
  && negb (switchRule lowerPrompt
           && (aggressivePattern prompt || moderatePattern prompt
               || conservativePattern prompt)).

Section WithApp.
Variable App : Type.
Variable env : Env.

Record t : Type := mk {
  tools : list (Tool App);
  apiKey : option string;
  useRealLLM : bool
}.

Definition new (tools : list (Tool App)) : t := mk tools None false.

Definition setApiKey (this : t) (key : option string) : t := mk (tools this) key true.

Definition getToolCallsFromKeywords (prompt : string)
  : Async (list FetchRequest) (list ToolCall) :=
  AsyncM.ret (keywordCalls prompt).

Definition emptySchema : JSON :=
  JObj [("type", JStr "object"); ("properties", JObj []); ("required", JArr [])].

Definition parameterSchemas : list (string * JSON) :=
  [ ("getPortfolio", emptySchema);
    ("rebalancePortfolio",
     JObj [("type", JStr "object");
           ("properties",
            JObj [("strategy",
                   JObj [("type", JStr "string");
                         ("enum", JArr [JStr "conservative"; JStr "moderate"; JStr "aggressive"]);
                         ("description", JStr "The investment strategy to apply")])]);
           ("required", JArr [JStr "strategy"])]);
    ("getRetirementProjection",
     JObj [("type", JStr "object");
           ("properties",
            JObj [("yearsToRetirement",
                   JObj [("type", JStr "number");
                         ("description", JStr "Number of years until retirement")]);
                  ("monthlyContribution",
                   JObj [("type", JStr "number");
                         ("description", JStr "Monthly contribution amount in dollars")])]);
           ("required", JArr [])]) ].

Definition generateParametersForTool (toolName : string) : JSON :=
  orElse (assoc toolName parameterSchemas) emptySchema.

Definition toolDefinition (tool : Tool App) : JSON :=
  JObj [("type", JStr "function");
        ("function",
         JObj [("name", JStr (name tool));
               ("description", JStr (description tool));
               ("parameters", generateParametersForTool (name tool))])].

Definition newline : string := String (ascii_of_nat 10) EmptyString.

Definition systemContent (this : t) : string :=
  "You are a helpful financial advisor assistant. You have access to portfolio management tools. "
  ++ newline
  ++ "                    When users ask about their portfolio, use the available tools to help them."
  ++ newline
  ++ "                    Available tools: "
  ++ join ", " (map (fun t => name t ++ " - " ++ description t) (tools this)).

Definition completionsUrl : string := "https://api.openai.com/v1/chat/completions".

(** The [try] block of [getToolCallsFromOpenAI]. *)
Definition requestToolCalls (this : t) (prompt : string)
  : Async (list FetchRequest) (list ToolCall) :=
    (let toolDefinitions := map toolDefinition (tools this) in
     let messages :=
       [JObj [("role", JStr "system"); ("content", JStr (systemContent this))];
        JObj [("role", JStr "user"); ("content", JStr prompt)]] in
     response <- doFetch env
       (mkFetchRequest completionsUrl (apiKey this)
          (JObj [("model", JStr "gpt-3.5-turbo");
                 ("messages", JArr messages);
                 ("tools", JArr toolDefinitions);
                 ("tool_choice", JStr "auto");
                 ("temperature", JReal "0.7")]));;
     match response with
     | FetchRejected e => AsyncM.throw e
     | FetchResponse ok status statusText _ responseJson =>
         (if negb ok then
            AsyncM.throw (JsError ("OpenAI API error: " ++ status ++ " " ++ statusText))
          else AsyncM.ret tt);;
         data <- AsyncM.lift responseJson;;
         AsyncM.lift (extractToolCalls env data)
     end)%async.

Definition getToolCallsFromOpenAI (this : t) (prompt : string)
  : Async (list FetchRequest) (list ToolCall) :=
  AsyncM.tryCatch
    (requestToolCalls this prompt)
    (fun error =>
       (* Fallback to keyword matching if API fails *)
       getToolCallsFromKeywords prompt).

Definition getToolCalls (this : t) (prompt : string)
  : Async (list FetchRequest) (list ToolCall) :=
  if keyConfigured (useRealLLM this) (apiKey this)
  then getToolCallsFromOpenAI this prompt
  else getToolCallsFromKeywords prompt.
End WithApp.
End LLMClient.

(** ** The [AgentClient] of the demo *)
Module AgentClient.
Section WithApp.
Variable App : Type.
Variable env : Env.

(** The [llmClient] object as the agent uses it: the two fields it
    reads and the method it calls. *)
Record LLM : Type := mkLLM {
  useRealLLM : bool;
  apiKey : option string;
  getToolCalls : string -> Async (list FetchRequest) (list ToolCall)
}.

Definition ofLLMClient (c : LLMClient.t App) : LLM :=
  mkLLM (LLMClient.useRealLLM c) (LLMClient.apiKey c) (LLMClient.getToolCalls env c).

(** The fields of the demo [AgentClient]: it has no others. *)
Record t : Type := mk {
  tools : list (Tool App);
  llmClient : LLM
}.

Definition new (tools : list (Tool App)) : t :=
  mk tools (ofLLMClient (LLMClient.new tools)).

(** The agent object holds no state of its own that a run writes. *)
Definition State : Type := World App.

Definition awaitWorld {A} (m : Async (World App) A) : Gen State A :=
  GenM.await (fun s => s) (fun w _ => w) m.

Definition completedMessage : string := "I've completed your request successfully.".

(** An entry [{tool, args, result}] of [toolResults]; a property whose
    value is [undefined] is absent from the serialized object. *)
Definition toolResult (call : ToolCall) (result : JSON) : JSON :=
  JObj ((match call_name call with Some n => [("tool", n)] | None => [] end)
        ++ (match call_args call with Some a => [("args", a)] | None => [] end)
        ++ [("result", result)])%list.

(** The first loop of [generateIntelligentResponse]. *)
Fixpoint gatherResults (this : t) (toolCalls : list ToolCall) (toolResults : list JSON)
  : Async (World App) (list JSON) :=
  match toolCalls with
  | [] => AsyncM.ret toolResults
  | call :: rest =>
      match findTool (tools this) (call_name call) with
      | Some tool =>
          (result <- invoke tool (call_args call);;
           gatherResults this rest (toolResults ++ [toolResult call result])%list)%async
      | None => gatherResults this rest toolResults
      end
  end.

Definition generateIntelligentResponse (this : t) (originalPrompt : string)
           (toolCalls : list ToolCall) : Async (World App) JSValue :=
  AsyncM.tryCatch
    (toolResults <- gatherResults this toolCalls [];;
     let contextMessages :=
       [JObj [("role", JStr "system");
              ("content", JStr "You are a helpful financial advisor assistant. Provide clear, concise responses about portfolio actions. Be professional and informative.")];
        JObj [("role", JStr "user");
              ("content", JStr ("I asked: " ++ dquote ++ originalPrompt ++ dquote))];
        JObj [("role", JStr "assistant");
              ("content",
               JStr ("I executed these tools: " ++ JSON_stringify env (JArr toolResults)
                     ++ ". Please provide a natural, helpful response to the user about what was done."))]] in
     response <- onNet (doFetch env
       (mkFetchRequest LLMClient.completionsUrl (apiKey (llmClient this))
          (JObj [("model", JStr "gpt-3.5-turbo");
                 ("messages", JArr contextMessages);
                 ("max_tokens", JNum 150);
                 ("temperature", JReal "0.7")])));;
     match response with
     | FetchRejected e => AsyncM.throw e
     | FetchResponse ok status _ _ responseJson =>
         (if negb ok then AsyncM.throw (JsError ("OpenAI API error: " ++ status))
          else AsyncM.ret tt);;
         data <- AsyncM.lift responseJson;;
         choices <- AsyncM.lift (getProp (Some data) "choices");;
         AsyncM.ret
           (Some (orElse (getPropOpt (getPropOpt (getFirstOpt choices) "message") "content")
                         (JStr completedMessage)))
     end)%async
    (fun error => AsyncM.ret (Some (JStr completedMessage))).

Fixpoint streamWords (responseMessageId : string) (first : bool) (words : list string)
  : Gen State unit :=
  match words with
  | [] => GenM.ret tt
  | word :: rest =>
      (let chunk := (if first then EmptyString else " ") ++ word in
       GenM.yield (TextMessageContentEvent responseMessageId chunk);;
       streamWords responseMessageId false rest)%gen
  end.

(** [for (const call of toolCalls)], the iteration for the request with
    index [i] and those after it. *)
Fixpoint toolLoop (this : t) (toolCalls : list ToolCall) (i : nat) : Gen State unit :=
  match toolCalls with
  | [] => GenM.ret tt
  | call :: rest =>
      match findTool (tools this) (call_name call) with
      | Some tool =>
          (let toolCallId := toolCallId env i in
           let messageId := messageId env i in
           GenM.yield (ToolCallStartEvent toolCallId (text env (call_name call)) (Some messageId));;
           (if truthy (call_args call) then
              GenM.yield (ToolCallArgsEvent toolCallId (stringifyText env (call_args call)))
            else GenM.ret tt);;
           result <- awaitWorld (invoke tool (call_args call));;
           GenM.yield (ToolCallEndEvent toolCallId);;
           GenM.yield (ToolCallResultEvent messageId toolCallId (JSON_stringify env result));;
           toolLoop this rest (S i))%gen
      | None => toolLoop this rest (S i)
      end
  end.

Definition simpleResponse (toolCalls : list ToolCall) : string :=
  let toolNames := join ", " (map (fun call => joinText env (call_name call)) toolCalls) in
  "I've executed the following tools for you: " ++ toolNames
  ++ ". The results are displayed in your portfolio above.".

Definition noToolsResponse : string :=
  "I understand your request, but I don't have the specific tools needed to help with that right now.".

(** The events that delimit a run. *)
Definition started : Event := RunStartedEvent (threadId env) (runId env).
Definition finished (status : string) : Event :=
  RunFinishedEvent (threadId env) (runId env) (Some status).

(** [await this.llmClient.getToolCalls(prompt)] *)
Definition resolve (this : t) (prompt : string) : Gen State (list ToolCall) :=
  awaitWorld (onNet (getToolCalls (llmClient this) prompt)).

(** The [try] block of [processPrompt]. *)
Definition tryBlock (this : t) (prompt : string) : Gen State unit :=
  (toolCalls <- resolve this prompt;;
   toolLoop this toolCalls 0;;
   (if (0 <? length toolCalls)%nat then
      let responseMessageId := responseMessageId env in
      GenM.yield (TextMessageStartEvent responseMessageId "assistant");;
      (if useRealLLM (llmClient this) then
         response <- awaitWorld (generateIntelligentResponse this prompt toolCalls);;
         words <- awaitWorld (AsyncM.lift (splitWords response));;
         streamWords responseMessageId true words
       else
         GenM.yield (TextMessageContentEvent responseMessageId (simpleResponse toolCalls)));;
      GenM.yield (TextMessageEndEvent responseMessageId)
    else GenM.ret tt);;
   (if (length toolCalls =? 0)%nat then
      let messageId := noToolsMessageId env in
      GenM.yield (TextMessageStartEvent messageId "assistant");;
      GenM.yield (TextMessageContentEvent messageId noToolsResponse);;
      GenM.yield (TextMessageEndEvent messageId)
    else GenM.ret tt))%gen.

(** Its [catch] block. *)
Definition catchBlock (error : Thrown) : Gen State unit :=
  GenM.yield (PlainRunError (message error) "EXECUTION_ERROR").

Definition processPrompt (this : t) (prompt : string) : Gen State unit :=
  (let threadId := threadId env in
   let runId := runId env in
   GenM.yield (RunStartedEvent threadId runId);;
   GenM.tryCatch (tryBlock this prompt) catchBlock;;
   GenM.yield (RunFinishedEvent threadId runId (Some "completed")))%gen.
End WithApp.
End AgentClient.

End Demo.

(** ** [js/fidelity-app.js] *)
Module Fidelity.

Record Portfolio : Type := mkPortfolio {
  stocks : Z;
  bonds : Z;
  cash : Z
}.

Record HistoryEntry : Type := mkEntry {
  timestamp : string;
  action : string
}.

(** The fields of the application object that its tools read or write. *)
Record FidelityApp : Type := mkApp {
  portfolio : Portfolio;
  portfolioHistory : list HistoryEntry;
  retirementProjection : option JSON
}.

(** The arithmetic of the projection on JavaScript numbers, which are
    floats: [projectedGrowthRate] is
    [Math.round((stocks * 0.07 + bonds * 0.04 + cash * 0.02) * 100) / 100],
    [totalContributions] is [monthlyContribution * 12 * yearsToRetirement]
    and [projectedValue] is
    [Math.round(currentValue * Math.pow(1 + rate / 100, years) + contributions)].
    Their values are left to the environment. *)
Record Numbers : Type := mkNumbers {
  projectedGrowthRate : Portfolio -> JSON;
  totalContributions : JSON -> JSON -> JSON;
  projectedValue : Z -> Portfolio -> JSON -> JSON -> JSON
}.

(** The state the constructor sets up. *)
Definition new : FidelityApp := mkApp (mkPortfolio 50 30 20) [] None.

Definition calculateTotalValue (this : FidelityApp) : Z :=
  125000 + stocks (portfolio this) * 1000 + bonds (portfolio this) * 500.

Definition getRiskLevel (this : FidelityApp) : string :=
  if (70 <=? stocks (portfolio this))%Z then "Aggressive"
  else if (50 <=? stocks (portfolio this))%Z then "Moderate"
  else "Conservative".

Section WithEnv.
Variable env : Env.
Variable numbers : Numbers.

Definition addToHistory (this : FidelityApp) (action : string) : FidelityApp :=
  mkApp (portfolio this)
        (portfolioHistory this ++ [mkEntry (Date_toLocaleTimeString env) action])%list
        (retirementProjection this).

Definition allocation (p : Portfolio) : JSON :=
  JObj [("stocks", JNum (stocks p)); ("bonds", JNum (bonds p)); ("cash", JNum (cash p))].

(** A property whose value may be [undefined]. *)
Definition field (k : string) (v : JSValue) : list (string * JSON) :=
  match v with
  | Some j => [(k, j)]
  | None => []
  end.

Definition getPortfolio : Tool FidelityApp :=
  mkTool "getPortfolio" "Get the current portfolio allocation and performance metrics"
    (fun _ this =>
       (inl (JObj [("allocation", allocation (portfolio this));
                   ("totalValue", JNum (calculateTotalValue this));
                   ("riskLevel", JStr (getRiskLevel this));
                   ("lastUpdated", JStr (Date_toISOString env))]),
        this)).

(** The allocation a strategy value selects. *)
Definition allocationFor (strategy : JSValue) : Portfolio :=
  if isString strategy "aggressive" then mkPortfolio 70 20 10
  else if isString strategy "moderate" then mkPortfolio 60 30 10
  else mkPortfolio 40 40 20.

Definition rebalancePortfolio : Tool FidelityApp :=
  mkTool "rebalancePortfolio"
    "Rebalance the portfolio based on a given strategy (conservative, moderate, aggressive)"
    (fun args this =>
       let oldPortfolio := portfolio this in
       match getProp args "strategy" with
       | inr typeError => (inr typeError, this)
       | inl strategy =>
           let this := mkApp (allocationFor strategy) (portfolioHistory this)
                             (retirementProjection this) in
           let this := addToHistory this ("Rebalanced to " ++ text env strategy ++ " strategy") in
           (* this.renderWithAnimation('rebalance') *)
           (inl (JObj ([("oldAllocation", allocation oldPortfolio);
                        ("newAllocation", allocation (portfolio this))]
                       ++ field "strategy" strategy
                       ++ [("totalValue", JNum (calculateTotalValue this));
                           ("riskLevel", JStr (getRiskLevel this))])%list),
            this)
       end).

Definition getRetirementProjection : Tool FidelityApp :=
  mkTool "getRetirementProjection"
    "Get retirement savings projection based on current portfolio"
    (fun args this =>
       match getProp args "yearsToRetirement" with
       | inr typeError => (inr typeError, this)
       | inl years =>
           let yearsToRetirement := orElse years (JNum 20) in
           match getProp args "monthlyContribution" with
           | inr typeError => (inr typeError, this)
           | inl monthly =>
               let monthlyContribution := orElse monthly (JNum 500) in
               let currentValue := calculateTotalValue this in
               let contributionsValue :=
                 totalContributions numbers monthlyContribution yearsToRetirement in
               let projectionData :=
                 JObj [("currentValue", JNum currentValue);
                       ("projectedValue",
                        projectedValue numbers currentValue (portfolio this)
                                       yearsToRetirement monthlyContribution);
                       ("yearsToRetirement", yearsToRetirement);
                       ("monthlyContribution", monthlyContribution);
                       ("projectedGrowthRate", projectedGrowthRate numbers (portfolio this));
                       ("totalContributions", contributionsValue)] in
               let this := mkApp (portfolio this) (portfolioHistory this) (Some projectionData) in
               let this :=
                 addToHistory this ("Generated " ++ text env (Some yearsToRetirement)
                                    ++ "-year retirement projection") in
               (* this.renderWithAnimation('retirement') *)
               (inl projectionData, this)
           end
       end).

(** [registerWithWebMCP] on an empty registry, then [getTools]. *)
Definition registerWithWebMCP : WebMCPProvider.t FidelityApp :=
  WebMCPProvider.registerTool getRetirementProjection
    (WebMCPProvider.registerTool rebalancePortfolio
       (WebMCPProvider.registerTool getPortfolio (WebMCPProvider.new FidelityApp))).

Definition getTools : list (Tool FidelityApp) :=
  WebMCPProvider.getTools registerWithWebMCP.

(** The application after a sequence of tool executions, each given by
    the name of a tool and the argument passed to it; a name that is not
    registered executes nothing. *)
Fixpoint executeAll (steps : list (string * JSValue)) (this : FidelityApp) : FidelityApp :=
  match steps with
  | [] => this
  | (n, args) :: rest =>
      match findTool getTools (Some (JStr n)) with
      | Some tool => executeAll rest (snd (execute tool args this))
      | None => executeAll rest this
      end
  end.
End WithEnv.

(** The allocation adds up to the whole. *)
Definition balanced (p : Portfolio) : Prop := (stocks p + bonds p + cash p = 100)%Z.
End Fidelity.

(** * A concrete page for the examples *)

Module Page.

Definition backslash : string := String (ascii_of_nat 92) EmptyString.

Fixpoint escape (s : string) : string :=
  match s with
  | EmptyString => EmptyString
  | String c rest =>
      (if Ascii.eqb c (ascii_of_nat 34) then backslash ++ dquote
       else if Ascii.eqb c (ascii_of_nat 92) then backslash ++ backslash
       else if Ascii.eqb c (ascii_of_nat 10) then backslash ++ "n"
       else String c EmptyString) ++ escape rest
  end.

Definition quoted (s : string) : string := dquote ++ escape s ++ dquote.

Definition decimal (n : Z) : string := NilZero.string_of_int (Z.to_int n).

(** [JSON.stringify] on the values of the examples. *)
Fixpoint stringify (v : JSON) : string :=
  match v with
  | JNull => "null"
  | JBool true => "true"
  | JBool false => "false"
  | JNum n => decimal n
  | JReal r => r
  | JStr s => quoted s
  | JArr items => "[" ++ join "," (map stringify items) ++ "]"
  | JObj fields =>
      "{" ++ join "," (map (fun kv : string * JSON => let (k, x) := kv in quoted k ++ ":" ++ stringify x)
                       fields)
      ++ "}"
  end.

(** A parser that knows the two texts the examples need. *)
Definition parse (v : JSON) : JSON + Thrown :=
  match v with
  | JStr "{}" => inl (JObj [])
  | JStr "null" => inl JNull
  | _ => inr (SyntaxError "Unexpected token")
  end.

Definition toString (v : JSValue) : string :=
  match v with
  | None => "undefined"
  | Some (JStr s) => s
  | Some (JObj _) => "[object Object]"
  | Some j => stringify j
  end.

Definition index (i : nat) : string := NilZero.string_of_uint (Nat.to_uint i).

(** A page whose clock stands at one instant and whose network answers
    with [answer]. *)
Definition env (answer : FetchRequest -> FetchOutcome) : Env :=
  mkEnv stringify parse toString answer
        "thread_1700000000000" "run_1700000000000"
        (fun i => "tool_1700000000000_" ++ index i)
        (fun i => "msg_1700000000000_" ++ index i)
        "response_1700000000000" "msg_1700000000000"
        1700000000000 "2023-11-14T22:13:20.000Z" "10:13:20 PM".

(** The network is down. *)
Definition offline : FetchRequest -> FetchOutcome :=
  fun _ => FetchRejected (TypeError "Failed to fetch").

(** The projection arithmetic of the examples: the contributions are
    exact on integers; the two values that need floats are not computed
    and appear as the text [float]. *)
Definition numbers : Fidelity.Numbers :=
  Fidelity.mkNumbers
    (fun p => JReal "float")
    (fun monthly years =>
       match monthly, years with
       | JNum m, JNum y => JNum (m * 12 * y)
       | _, _ => JReal "float"
       end)
    (fun _ _ _ _ => JReal "float").

Definition emptyWorld {App} (a : App) : World App := mkWorld a [] [].

(** A small application for the examples of the starter kit: a counter,
    with a tool that reads it, a tool that increments it and a tool
    that always fails. *)
Definition getAppData : Tool Z :=
  mkTool "getAppData" "Retrieve current application data and status"
         (fun _ n => (inl (JObj [("count", JNum n)]), n)).

Definition refreshData : Tool Z :=
  mkTool "refreshData" "Refresh or reload the application data"
         (fun _ n => (inl (JObj [("success", JBool true)]), (n + 1)%Z)).

Definition analyzeData : Tool Z :=
  mkTool "analyzeData" "Analyze the current application data and provide insights"
         (fun _ n => (inr (JsError "analysis failed"), n)).

Definition generateReport : Tool Z :=
  mkTool "generateReport" "Generate a report based on current data and specified parameters"
         (fun _ n => (inl (JObj [("report", JNum n)]), n)).

Definition counterTools : list (Tool Z) :=
  [getAppData; refreshData; analyzeData; generateReport].

(** A tool registered under [n] that always fails. *)
Definition alwaysFails {App} (n : string) : Tool App :=
  mkTool n "A tool that always fails" (fun _ a => (inr (JsError "tool failed"), a)).

(** A resolver that throws. *)
Definition brokenResolver : string -> Async (list FetchRequest) (list ToolCall) :=
  fun _ => AsyncM.throw (JsError "resolver failed").

(** The pages of the examples: off line; the starter kit on the counter,
    idle; the demo on the portfolio application as its constructor
    leaves it. *)
Definition offlineEnv : Env := env offline.

Definition kit : StarterKit.AgentClient.t Z :=
  StarterKit.AgentClient.new offlineEnv counterTools.

Definition idle : StarterKit.AgentClient.State Z :=
  StarterKit.AgentClient.mkState false (emptyWorld 0%Z).

Definition fidelityTools : list (Tool Fidelity.FidelityApp) :=
  Fidelity.getTools offlineEnv numbers.

Definition demo : Demo.AgentClient.t Fidelity.FidelityApp :=
  Demo.AgentClient.new offlineEnv fidelityTools.

Definition portfolioWorld : World Fidelity.FidelityApp := emptyWorld Fidelity.new.

(** The demo with [getPortfolio] registered again, as a tool that always
    fails. *)
Definition failingPortfolioTools : list (Tool Fidelity.FidelityApp) :=
  WebMCPProvider.registerTool (alwaysFails "getPortfolio") fidelityTools.

Definition failingDemo : Demo.AgentClient.t Fidelity.FidelityApp :=
  Demo.AgentClient.new offlineEnv failingPortfolioTools.

(** The demo after [setApiKey('sk-test')]. *)
Definition keyedDemo : Demo.AgentClient.t Fidelity.FidelityApp :=
  Demo.AgentClient.mk fidelityTools
    (Demo.AgentClient.ofLLMClient offlineEnv
       (Demo.LLMClient.setApiKey (Demo.LLMClient.new fidelityTools) (Some "sk-test"))).

(** The two [LLMClient]s after [setApiKey('sk-test')]. *)
Definition keyedKitLLM : StarterKit.LLMClient.t Z :=
  StarterKit.LLMClient.setApiKey (StarterKit.LLMClient.new counterTools) (Some "sk-test").

Definition keyedDemoLLM : Demo.LLMClient.t Fidelity.FidelityApp :=
  Demo.LLMClient.setApiKey (Demo.LLMClient.new fidelityTools) (Some "sk-test").

(** The starter kit whose resolver throws. *)
Definition brokenKit : StarterKit.AgentClient.t Z :=
  StarterKit.AgentClient.mk counterTools
    (StarterKit.AgentClient.mkLLM false brokenResolver
       (fun _ _ => AsyncM.ret (Some (JStr EmptyString)))).
End Page.

(** * The rest of the two pages *)

(** ** [Map] objects with string keys, in insertion order *)

Section StringMap.
Variable V : Type.

(** [m.set(k, v)]: a key that is present keeps its place. *)
Fixpoint mapSet (k : string) (v : V) (m : list (string * V)) : list (string * V) :=
  match m with
  | [] => [(k, v)]
  | (k', v') :: rest =>
      if String.eqb k' k then (k, v) :: rest else (k', v') :: mapSet k v rest
  end.

(** [m.get(k)] *)
Fixpoint mapGet (k : string) (m : list (string * V)) : option V :=
  match m with
  | [] => None
  | (k', v) :: rest => if String.eqb k' k then Some v else mapGet k rest
  end.

(** [m.delete(k)]: whether the key was present, and the map without it. *)
Definition mapDelete (k : string) (m : list (string * V)) : bool * list (string * V) :=
  (match mapGet k m with Some _ => true | None => false end,
   filter (fun kv => negb (String.eqb (fst kv) k)) m).
End StringMap.

(** [s.trim()] on ASCII. *)
Fixpoint trimStart (s : string) : string :=
  match s with
  | EmptyString => EmptyString
  | String c rest => if isSpace c then trimStart rest else s
  end.

Fixpoint trimEnd (s : string) : string :=
  match s with
  | EmptyString => EmptyString
  | String c rest =>
      match trimEnd rest with
      | EmptyString => if isSpace c then EmptyString else String c EmptyString
      | kept => String c kept
      end
  end.

Definition trim (s : string) : string := trimEnd (trimStart s).

(** A string of ASCII characters: the strings on which [toLowerCase] and
    the patterns of this development are those of JavaScript. *)
Fixpoint isAscii (s : string) : bool :=
  match s with
  | EmptyString => true
  | String c rest => (nat_of_ascii c <? 128)%nat && isAscii rest
  end.

(** The deltas of the content events of a list of events, in order. *)
Definition deltas (evs : list Event) : list string :=
  flat_map (fun e => match e with
                     | TextMessageContentEvent _ delta => [delta]
                     | _ => []
                     end) evs.

(** An async function that sends at most [n] requests, each of which
    satisfies [P], and a generator that does; [log] reads the log of the
    requests off the state. *)
Definition AsyncSends {X A : Type} (log : X -> list FetchRequest) (P : FetchRequest -> Prop)
           (n : nat) (m : Async X A) : Prop :=
  forall x, exists new,
    log (snd (m x)) = (log x ++ new)%list /\ (length new <= n)%nat /\ Forall P new.

Definition Sends {S A : Type} (log : S -> list FetchRequest) (P : FetchRequest -> Prop)
           (n : nat) (m : Gen S A) : Prop :=
  forall s, exists new,
    log (final (m s)) = (log s ++ new)%list /\ (length new <= n)%nat /\ Forall P new.

(** A request to the completion service that carries the key [key]. *)
Definition toCompletions (key : option string) (req : FetchRequest) : Prop :=
  url req = "https://api.openai.com/v1/chat/completions" /\ bearer req = key.

(** ** [starter-kit/js/webmcp-provider.js]: the provider class

    The class of the starter kit; [registerTool], [getTools] and the
    three session methods have the same text in [js/webmcp-provider.js]
    (module [WebMCPProvider] holds its [executeTool]). *)
Module KitProvider.
Section WithApp.
Variable App : Type.
Variable env : Env.

(** The object [createSession] builds. *)
Record Session : Type := mkSession {
  id : string;
  config : JSON;
  createdAt : Z;
  session_tools : list (Tool App)
}.

(** The two [Map]s of the provider. *)
Record t : Type := mk {
  tools : list (Tool App);
  sessions : list (string * Session)
}.

Definition new : t := mk [] [].

Definition registerTool (tool : Tool App) (this : t) : t :=
  mk (WebMCPProvider.registerTool tool (tools this)) (sessions this).

Definition getTools (this : t) : list (Tool App) := tools this.

(** [executeTool(name, args = {})] *)
Definition executeTool (this : t) (n : string) (args : JSValue) : Async (World App) JSON :=
  match findTool (tools this) (Some (JStr n)) with
  | None =>
      AsyncM.throw (JsError ("WebMCP: Tool '" ++ n ++ "' not found. Available tools: "
                             ++ join ", " (map (@name App) (tools this))))
  | Some tool =>
      AsyncM.tryCatch
        (invoke tool (match args with None => Some (JObj []) | Some _ => args end))
        (fun error => AsyncM.throw (JsError ("WebMCP tool execution failed: " ++ message error)))
  end.

(** [createSession(sessionId, config = {})]: the session and the provider
    that holds it. *)
Definition createSession (sessionId : string) (config : JSValue) (this : t) : Session * t :=
  let session :=
    mkSession sessionId (match config with None => JObj [] | Some c => c end)
              (Date_now env) (getTools this) in
  (session, mk (tools this) (mapSet sessionId session (sessions this))).

Definition getSession (sessionId : string) (this : t) : option Session :=
  mapGet sessionId (sessions this).

Definition destroySession (sessionId : string) (this : t) : bool * t :=
  let (found, rest) := mapDelete sessionId (sessions this) in
  (found, mk (tools this) rest).

(** [toolDefinitions.forEach(tool => this.registerTool(...))] *)
Definition registerTools (toolDefinitions : list (Tool App)) (this : t) : t :=
  fold_left (fun provider tool => registerTool tool provider) toolDefinitions this.

(** [this.tools.get(name)] *)
Definition getTool (n : string) (this : t) : option (Tool App) :=
  findTool (tools this) (Some (JStr n)).

(** [this.tools.delete(name)] *)
Definition removeTool (n : string) (this : t) : bool * t :=
  (existsb (fun tool => String.eqb (name tool) n) (tools this),
   mk (filter (fun tool => negb (String.eqb (name tool) n)) (tools this)) (sessions this)).

Definition clearTools (this : t) : t := mk [] (sessions this).

(** A call of one of the methods that change the provider, and the
    provider after a sequence of such calls. *)
Inductive Call : Type :=
| RegisterTool (tool : Tool App)
| RegisterTools (toolDefinitions : list (Tool App))
| RemoveTool (n : string)
| ClearTools
| CreateSession (sessionId : string) (config : JSValue)
| DestroySession (sessionId : string).

Definition perform (c : Call) (this : t) : t :=
  match c with
  | RegisterTool tool => registerTool tool this
  | RegisterTools toolDefinitions => registerTools toolDefinitions this
  | RemoveTool n => snd (removeTool n this)
  | ClearTools => clearTools this
  | CreateSession sessionId config => snd (createSession sessionId config this)
  | DestroySession sessionId => snd (destroySession sessionId this)
  end.

Definition performAll (calls : list Call) (this : t) : t :=
  fold_left (fun provider c => perform c provider) calls this.

(** No two tools of the registry share a name and no two sessions share
    an id. *)
Definition unique (this : t) : Prop :=
  NoDup (map (@name App) (tools this)) /\ NoDup (map fst (sessions this)).
End WithApp.
End KitProvider.

(** ** [starter-kit/js/agent-client.js]: [executeDirectTool] *)
Module DirectTool.
Section WithApp.
Variable App : Type.
Variable env : Env.

(** The identifiers a direct run draws: ['direct_' + Date.now()],
    ['run_' + Date.now()], ['direct_tool_' + Date.now()],
    ['direct_msg_' + Date.now()], ['direct_response_' + Date.now()]. *)
Record Ids : Type := mkIds {
  direct_threadId : string;
  direct_runId : string;
  direct_toolCallId : string;
  direct_messageId : string;
  direct_responseMessageId : string
}.

Definition notFoundMessage (toolName : string) : string :=
  "Tool " ++ dquote ++ toolName ++ dquote ++ " not found".

(** The [try] block. *)
Definition tryBlock (ids : Ids) (tool : Tool App) (toolName : string) (args : JSValue)
  : Gen (StarterKit.AgentClient.State App) unit :=
  (let toolCallId := direct_toolCallId ids in
   let messageId := direct_messageId ids in
   GenM.yield (ToolCallStartEvent toolCallId toolName (Some messageId));;
   (if StarterKit.AgentClient.hasArguments args then
      GenM.yield (ToolCallArgsEvent toolCallId (stringifyText env args))
    else GenM.ret tt);;
   result <- StarterKit.AgentClient.awaitWorld (invoke tool args);;
   GenM.yield (ToolCallEndEvent toolCallId);;
   GenM.yield (ToolCallResultEvent messageId toolCallId (JSON_stringify env result));;
   let responseMessageId := direct_responseMessageId ids in
   GenM.yield (TextMessageStartEvent responseMessageId "assistant");;
   GenM.yield (TextMessageContentEvent responseMessageId ("Successfully executed " ++ toolName));;
   GenM.yield (TextMessageEndEvent responseMessageId))%gen.

Definition catchBlock (ids : Ids) (error : Thrown)
  : Gen (StarterKit.AgentClient.State App) unit :=
  GenM.yield (RunErrorEvent (direct_threadId ids) (direct_runId ids)
                            (mkErrorInfo (message error) "DIRECT_TOOL_ERROR" None)).

(** [executeDirectTool(toolName, args = {})] *)
Definition executeDirectTool (ids : Ids) (this : StarterKit.AgentClient.t App)
           (toolName : string) (args : JSValue)
  : Gen (StarterKit.AgentClient.State App) unit :=
  (let args := match args with None => Some (JObj []) | Some _ => args end in
   let threadId := direct_threadId ids in
   let runId := direct_runId ids in
   GenM.yield (RunStartedEvent threadId runId);;
   match findTool (StarterKit.AgentClient.tools this) (Some (JStr toolName)) with
   | None =>
       GenM.yield (CustomEvent (notFoundMessage toolName));;
       GenM.yield (RunFinishedEvent threadId runId (Some "error"))
   | Some tool =>
       GenM.tryCatch (tryBlock ids tool toolName args) (catchBlock ids);;
       GenM.yield (RunFinishedEvent threadId runId (Some "completed"))
   end)%gen.

End WithApp.
End DirectTool.

(** The text that [streamResponse] of the starter kit streams, read off
    its branches: without an executed tool the no-tools response; in
    keyword mode the simple response; otherwise the response of
    [generateIntelligentResponse] when it is a string, and the error
    response when that call throws or gives a value that has no
    [split]. *)
Definition kitResponseText {App : Type} (env : Env) (this : StarterKit.AgentClient.t App)
           (originalPrompt : string) (executedTools : list (StarterKit.AgentClient.Executed))
           (w : World App) : string :=
  if (0 <? length executedTools)%nat then
    if StarterKit.AgentClient.useRealLLM (StarterKit.AgentClient.llmClient this) then
      match fst (onNet (StarterKit.AgentClient.generateIntelligentResponse
                          (StarterKit.AgentClient.llmClient this) originalPrompt
                          (map (@StarterKit.AgentClient.call) executedTools)) w) with
      | inl (Some (JStr response)) => response
      | _ => StarterKit.AgentClient.errorResponse
      end
    else StarterKit.AgentClient.generateSimpleResponse env executedTools
  else StarterKit.AgentClient.generateNoToolsResponse originalPrompt.

(** ** [starter-kit/js/main.js]: the two panels and the input handler *)
Module KitUI.

(** The chat panel: [this.messages]. *)
Module ChatUI.
Record Message : Type := mkMessage {
  type : string;
  content : string;
  timestamp : Z
}.

Definition t : Type := list Message.

Definition new : t := [].

Definition addUserMessage (env : Env) (message : string) (this : t) : t :=
  (this ++ [mkMessage "user" message (Date_now env)])%list.

Definition addAgentMessage (env : Env) (message : string) (this : t) : t :=
  (this ++ [mkMessage "agent" message (Date_now env)])%list.

Definition clear (this : t) : t := [].
End ChatUI.

(** The panel of the events: the fields [events], [currentMessage] (its
    [id]) and [messageBuffer]. *)
Module AgentUI.
Record t : Type := mk {
  events : list Event;
  currentMessage : option string;
  messageBuffer : string
}.

Definition new : t := mk [] None EmptyString.

(** [this.currentMessage && this.currentMessage.id === event.messageId] *)
Definition isCurrent (this : t) (messageId : string) : bool :=
  match currentMessage this with
  | Some current => String.eqb current messageId
  | None => false
  end.

(** [renderEvent(event)], on the panel and on the object [X] that the
    callback [onMessageComplete] acts on. *)
Definition renderEvent {X : Type} (onMessageComplete : option (string -> X -> X))
           (event : Event) (this : t) (x : X) : t * X :=
  let (this, x) :=
    match event with
    | TextMessageStartEvent messageId _ =>
        (mk (events this) (Some messageId) EmptyString, x)
    | TextMessageContentEvent messageId delta =>
        if isCurrent this messageId
        then (mk (events this) (currentMessage this) (messageBuffer this ++ delta), x)
        else (this, x)
    | TextMessageEndEvent messageId =>
        if isCurrent this messageId
        then (mk (events this) None (messageBuffer this),
              match onMessageComplete with
              | Some callback => callback (messageBuffer this) x
              | None => x
              end)
        else (this, x)
    | _ => (this, x)
    end in
  (mk (events this ++ [event])%list (currentMessage this) (messageBuffer this), x).

Definition clear (this : t) : t := mk [] None EmptyString.

Definition getEventHistory (this : t) : list Event := events this.

(** [for await (const event of eventStream) agentUI.renderEvent(event)] *)
Fixpoint renderAll {X : Type} (onMessageComplete : option (string -> X -> X))
         (evs : list Event) (this : t) (x : X) : t * X :=
  match evs with
  | [] => (this, x)
  | event :: rest =>
      let (this, x) := renderEvent onMessageComplete event this x in
      renderAll onMessageComplete rest this x
  end.
End AgentUI.

Section WithApp.
Variable App : Type.
Variable env : Env.

(** What the handler of the input reads and writes: the text of the
    input field, the alerts shown, the two panels and the state of the
    agent. *)
Record Page : Type := mkPage {
  userInput : string;
  alerts : list string;
  chatUI : ChatUI.t;
  agentUI : AgentUI.t;
  agent : StarterKit.AgentClient.State App
}.

Definition busyAlert : string :=
  "Agent is currently processing. Please wait for the current request to complete.".

(** The mark that opens the message of the [catch] block, as its three
    bytes. *)
Definition crossMark : string :=
  String (ascii_of_nat 226) (String (ascii_of_nat 157) (String (ascii_of_nat 140) EmptyString)).

(** The callback the page passes to [AgentUI]. *)
Definition onMessageComplete : option (string -> ChatUI.t -> ChatUI.t) :=
  Some (ChatUI.addAgentMessage env).

(** [handleUserInput()], run to its end with no other handler in
    between. *)
Definition handleUserInput (agentClient : StarterKit.AgentClient.t App) (page : Page) : Page :=
  let prompt := trim (userInput page) in
  if String.eqb prompt EmptyString then page
  else if StarterKit.AgentClient.isAgentBusy (agent page) then
    mkPage (userInput page) (alerts page ++ [busyAlert])%list (chatUI page) (agentUI page)
           (agent page)
  else
    let chat := ChatUI.addUserMessage env prompt (chatUI page) in
    let panel := AgentUI.clear (agentUI page) in
    let eventStream := StarterKit.AgentClient.processPrompt env agentClient prompt (agent page) in
    let (panel, chat) := AgentUI.renderAll onMessageComplete (events eventStream) panel chat in
    match result eventStream with
    | inl _ => mkPage EmptyString (alerts page) chat panel (final eventStream)
    | inr error =>
        let (panel, chat) :=
          AgentUI.renderEvent onMessageComplete
            (CustomEvent (crossMark ++ " Error: " ++ message error)) panel chat in
        mkPage EmptyString (alerts page)
               (ChatUI.addAgentMessage env ("I encountered an error: " ++ message error) chat)
               panel (final eventStream)
    end.
End WithApp.
End KitUI.

(** ** The panels and the input handler of the demo *)
Module DemoUI.

(** The chat panel: [this.messageHistory]. *)
Module ChatUI.
Record Message : Type := mkMessage {
  type : string;
  content : string;
  timestamp : Z
}.

Definition t : Type := list Message.

Definition new : t := [].

Definition addUserMessage (env : Env) (message : string) (this : t) : t :=
  (this ++ [mkMessage "user" message (Date_now env)])%list.

Definition addAgentMessage (env : Env) (message : string) (this : t) : t :=
  (this ++ [mkMessage "agent" message (Date_now env)])%list.

Definition clear (this : t) : t := [].

Definition getHistory (this : t) : list Message := this.
End ChatUI.

(** The panel of the events: its two [Map]s, from message ids to the
    text received and from tool-call ids to [{name, args}]. *)
Module AgentUI.
Record t : Type := mk {
  activeMessages : list (string * string);
  activeToolCalls : list (string * (string * string))
}.

Definition new : t := mk [] [].

(** [renderEvent(event)], on the panel and on the object [X] that the
    callback [onMessageComplete] acts on. *)
Definition renderEvent {X : Type} (onMessageComplete : option (string -> X -> X))
           (event : Event) (this : t) (x : X) : t * X :=
  match event with
  | TextMessageStartEvent messageId _ =>
      (mk (mapSet messageId EmptyString (activeMessages this)) (activeToolCalls this), x)
  | TextMessageContentEvent messageId delta =>
      let currentContent :=
        match mapGet messageId (activeMessages this) with
        | Some received => received
        | None => EmptyString
        end in
      let newContent := currentContent ++ delta in
      (mk (mapSet messageId newContent (activeMessages this)) (activeToolCalls this), x)
  | TextMessageEndEvent messageId =>
      let finalContent := mapGet messageId (activeMessages this) in
      let x :=
        match onMessageComplete, finalContent with
        | Some callback, Some received =>
            if String.eqb received EmptyString then x else callback received x
        | _, _ => x
        end in
      (mk (snd (mapDelete messageId (activeMessages this))) (activeToolCalls this), x)
  | ToolCallStartEvent toolCallId toolCallName _ =>
      (mk (activeMessages this)
          (mapSet toolCallId (toolCallName, EmptyString) (activeToolCalls this)), x)
  | ToolCallArgsEvent toolCallId delta =>
      match mapGet toolCallId (activeToolCalls this) with
      | Some (toolName, received) =>
          (mk (activeMessages this)
              (mapSet toolCallId (toolName, received ++ delta) (activeToolCalls this)), x)
      | None => (this, x)
      end
  | ToolCallResultEvent _ toolCallId _ =>
      (mk (activeMessages this) (snd (mapDelete toolCallId (activeToolCalls this))), x)
  | _ => (this, x)
  end.

Definition clear (this : t) : t := mk [] [].

(** [for await (const event of events) agentUI.renderEvent(event)] *)
Fixpoint renderAll {X : Type} (onMessageComplete : option (string -> X -> X))
         (evs : list Event) (this : t) (x : X) : t * X :=
  match evs with
  | [] => (this, x)
  | event :: rest =>
      let (this, x) := renderEvent onMessageComplete event this x in
      renderAll onMessageComplete rest this x
  end.
End AgentUI.

Section WithApp.
Variable App : Type.
Variable env : Env.

Record Page : Type := mkPage {
  userInput : string;
  chatUI : ChatUI.t;
  agentUI : AgentUI.t;
  world : World App
}.

Definition onMessageComplete : option (string -> ChatUI.t -> ChatUI.t) :=
  Some (ChatUI.addAgentMessage env).

(** The function [processPrompt(prompt)] of the page, run to its end
    with no other handler in between. *)
Definition processPrompt (agentClient : Demo.AgentClient.t App) (prompt : string)
           (page : Page) : Page :=
  if negb (String.eqb (trim prompt) EmptyString) then
    let chat := ChatUI.addUserMessage env prompt (chatUI page) in
    let panel := AgentUI.clear (agentUI page) in
    let run := Demo.AgentClient.processPrompt env agentClient prompt (world page) in
    let (panel, chat) := AgentUI.renderAll onMessageComplete (events run) panel chat in
    match result run with
    | inl _ => mkPage EmptyString chat panel (final run)
    | inr _ => mkPage (userInput page) chat panel (final run)
    end
  else page.
End WithApp.
End DemoUI.

(** ** [starter-kit/js/agent-client.js]: the application [YourApp] *)
Module YourApp.

(** [this.appState]; [lastAnalysis] and [lastReport] are absent until an
    action sets them. *)
Record AppState : Type := mkState {
  data : list JSON;
  currentView : string;
  lastUpdate : option string;
  lastAnalysis : option JSON;
  lastReport : option JSON
}.

Definition new : AppState := mkState [] "default" None None None.

Definition sampleData : list JSON :=
  [JObj [("name", JStr "Sample Item 1"); ("value", JStr "Sample Value 1")];
   JObj [("name", JStr "Sample Item 2"); ("value", JStr "Sample Value 2")]].

Section WithEnv.
Variable env : Env.

Definition itemCount (this : AppState) : JSON := JNum (Z.of_nat (length (data this))).

Definition getStatusMessage (this : AppState) : string :=
  if (length (data this) =? 0)%nat then "Waiting for data"
  else "Ready (" ++ text env (Some (itemCount this)) ++ " items loaded)".

(** [performAction(actionType, args = {})]: the value returned and the
    application it leaves. *)
Definition performAction (actionType : string) (this : AppState) : JSON * AppState :=
  let now := Date_toISOString env in
  let this :=
    if String.eqb actionType "refresh" then
      mkState sampleData (currentView this) (lastUpdate this) (lastAnalysis this)
              (lastReport this)
    else if String.eqb actionType "analyze" then
      mkState (data this) (currentView this) (lastUpdate this)
              (Some (JObj [("timestamp", JStr now);
                           ("result", JStr "Analysis completed successfully")]))
              (lastReport this)
    else if String.eqb actionType "report" then
      mkState (data this) (currentView this) (lastUpdate this) (lastAnalysis this)
              (Some (JObj [("id", JStr ("RPT_" ++ text env (Some (JNum (Date_now env)))));
                           ("timestamp", JStr now);
                           ("title", JStr "Generated Report")]))
    else this in
  let this := mkState (data this) (currentView this) (Some now) (lastAnalysis this)
                      (lastReport this) in
  (JObj [("success", JBool true); ("action", JStr actionType); ("timestamp", JStr now)], this).

(** A property whose value may be [undefined]. *)
Definition field (k : string) (v : JSValue) : list (string * JSON) :=
  match v with
  | Some j => [(k, j)]
  | None => []
  end.

Definition getAppData : Tool AppState :=
  mkTool "getAppData" "Retrieve current application data and status"
    (fun _ this =>
       (inl (JObj [("data", JArr (data this));
                   ("status", JStr (getStatusMessage this));
                   ("lastUpdate", match lastUpdate this with Some u => JStr u | None => JNull end);
                   ("currentView", JStr (currentView this));
                   ("metadata", JObj [("itemCount", itemCount this);
                                      ("timestamp", JNum (Date_now env))])]),
        this)).

Definition refreshData : Tool AppState :=
  mkTool "refreshData" "Refresh or reload the application data"
    (fun args this =>
       (* this.renderWithAnimation('fetch') *)
       let (result, this) := performAction "refresh" this in
       (inl (JObj [("success", JBool true);
                   ("message", JStr "Data refreshed successfully");
                   ("newDataCount", itemCount this);
                   ("result", result)]),
        this)).

Definition analyzeData : Tool AppState :=
  mkTool "analyzeData" "Analyze the current application data and provide insights"
    (fun args this =>
       (* this.renderWithAnimation('analyze') *)
       let (result, this) := performAction "analyze" this in
       (inl (JObj ([("success", JBool true);
                    ("analysis", orElse (lastAnalysis this) (JStr "No analysis available"));
                    ("insights", JArr [JStr "Analysis insight 1"; JStr "Analysis insight 2";
                                       JStr "Analysis insight 3"])]
                   ++ field "parameters" args
                   ++ [("result", result)])%list),
        this)).

Definition generateReport : Tool AppState :=
  mkTool "generateReport" "Generate a report based on current data and specified parameters"
    (fun args this =>
       (* this.renderWithAnimation('report') *)
       let (result, this) := performAction "report" this in
       (inl (JObj ([("success", JBool true);
                    ("report", orElse (lastReport this) (JStr "No report generated"));
                    ("downloadUrl", JStr "#")]
                   ++ field "parameters" args
                   ++ [("result", result)])%list),
        this)).

(** [registerWithWebMCP()] on the provider [WebMCP], then [getTools()]. *)
Definition registerWithWebMCP (webMCP : KitProvider.t AppState) : KitProvider.t AppState :=
  KitProvider.registerTool generateReport
    (KitProvider.registerTool analyzeData
       (KitProvider.registerTool refreshData
          (KitProvider.registerTool getAppData webMCP))).

Definition getTools : list (Tool AppState) :=
  KitProvider.getTools (registerWithWebMCP (KitProvider.new AppState)).
End WithEnv.
End YourApp.

(** ** The requests of the keyword rules of the demo *)



(** The values of [strategy] that the schema of [rebalancePortfolio]
    lists. *)
Definition strategies : list string := ["conservative"; "moderate"; "aggressive"].

(** A property of the argument of [getRetirementProjection] as the rules
    build it: one of the two counts, a number that is not negative. *)
Definition isCount (kv : string * JSON) : Prop :=
  (fst kv = "yearsToRetirement" \/ fst kv = "monthlyContribution")
  /\ exists n, snd kv = JNum n /\ (0 <= n)%Z.


(** The request names a tool of the list, under the name of the request,
    and the tool returns on the argument it is passed for the request in
    every state of the application.  The demo passes [call.args], the
    starter kit [call.args || {}]. *)
Definition acceptedWith {App : Type} (passed : ToolCall -> JSValue) (tools : list (Tool App))
           (c : ToolCall) : Prop :=
  exists tool,
    findTool tools (call_name c) = Some tool
    /\ call_name c = Some (JStr (name tool))
    /\ forall a, exists r, fst (execute tool (passed c) a) = inl r.

Definition accepted {App : Type} (tools : list (Tool App)) (c : ToolCall) : Prop :=
  acceptedWith call_args tools c.

(** ** The answers of the completion service *)

(** An entry of [tool_calls] that requests the function [nm] with the
    argument text [arguments], an entry of another type, and the body of
    a completion that carries the entries [toolCalls]. *)
Definition functionCall (nm arguments : string) : JSON :=
  JObj [("type", JStr "function");
        ("function", JObj [("name", JStr nm); ("arguments", JStr arguments)])].

Definition completion (toolCalls : list JSON) : JSON :=
  JObj [("choices",
         JArr [JObj [("message",
                      JObj [("role", JStr "assistant");
                            ("content", JNull);
                            ("tool_calls", JArr toolCalls)])]])].

(** ** More pages for the examples *)
Module Samples.

(** The starter kit on [YourApp], as the page sets it up. *)
Definition yourTools : list (Tool YourApp.AppState) := YourApp.getTools Page.offlineEnv.

Definition yourKit : StarterKit.AgentClient.t YourApp.AppState :=
  StarterKit.AgentClient.new Page.offlineEnv yourTools.

Definition yourIdle : StarterKit.AgentClient.State YourApp.AppState :=
  StarterKit.AgentClient.mkState false (Page.emptyWorld YourApp.new).
End Samples.

(** * Facts about generators *)

Local Open Scope list_scope.

Section GenFacts.
Context {S : Type}.

Lemma events_bind {A B} (m : Gen S A) (f : A -> Gen S B) (s : S) :
  events (GenM.bind m f s) =
  events (m s) ++ match result (m s) with
                  | inl a => events (f a (final (m s)))
                  | inr _ => []
                  end.
Proof.
  unfold GenM.bind, events. destruct (result (m s)); simpl.
  - apply map_app.
  - now rewrite app_nil_r.
Qed.

Lemma result_bind {A B} (m : Gen S A) (f : A -> Gen S B) (s : S) :
  result (GenM.bind m f s) =
  match result (m s) with
  | inl a => result (f a (final (m s)))
  | inr e => inr e
  end.
Proof. unfold GenM.bind. now destruct (result (m s)). Qed.

Lemma final_bind {A B} (m : Gen S A) (f : A -> Gen S B) (s : S) :
  final (GenM.bind m f s) =
  match result (m s) with
  | inl a => final (f a (final (m s)))
  | inr e => final (m s)
  end.
Proof. unfold GenM.bind. now destruct (result (m s)). Qed.

Lemma events_tryCatch {A} (m : Gen S A) (h : Thrown -> Gen S A) (s : S) :
  events (GenM.tryCatch m h s) =
  events (m s) ++ match result (m s) with
                  | inl _ => []
                  | inr e => events (h e (final (m s)))
                  end.
Proof.
  unfold GenM.tryCatch, events. destruct (result (m s)); simpl.
  - now rewrite app_nil_r.
  - apply map_app.
Qed.

Lemma result_tryCatch {A} (m : Gen S A) (h : Thrown -> Gen S A) (s : S) :
  result (GenM.tryCatch m h s) =
  match result (m s) with
  | inl a => inl a
  | inr e => result (h e (final (m s)))
  end.
Proof. unfold GenM.tryCatch. destruct (result (m s)) eqn:E; simpl; auto. Qed.

Lemma final_tryCatch {A} (m : Gen S A) (h : Thrown -> Gen S A) (s : S) :
  final (GenM.tryCatch m h s) =
  match result (m s) with
  | inl a => final (m s)
  | inr e => final (h e (final (m s)))
  end.
Proof. unfold GenM.tryCatch. now destruct (result (m s)). Qed.

Lemma events_tryFinally {A} (m : Gen S A) (fin : Gen S unit) (s : S) :
  events (GenM.tryFinally m fin s) = events (m s) ++ events (fin (final (m s))).
Proof. unfold GenM.tryFinally, events; simpl; apply map_app. Qed.

Section Avoiding.
Variable p : Event -> bool.

Lemma avoids_ret {A} (a : A) : Avoids p (GenM.ret (S := S) a).
Proof. intros s; constructor. Qed.

Lemma avoids_yield (e : Event) : p e = false -> Avoids p (GenM.yield (S := S) e).
Proof. intros H s; unfold events; simpl; auto. Qed.

Lemma avoids_await {X A} (get : S -> X) (set : X -> S -> S) (m : Async X A) :
  Avoids p (GenM.await get set m).
Proof. intros s; unfold GenM.await, events. destruct (m (get s)); constructor. Qed.

Lemma avoids_bind {A B} (m : Gen S A) (f : A -> Gen S B) :
  Avoids p m -> (forall a, Avoids p (f a)) -> Avoids p (GenM.bind m f).
Proof.
  intros Hm Hf s. rewrite events_bind. apply Forall_app; split; [apply Hm|].
  destruct (result (m s)); [apply Hf | constructor].
Qed.

Lemma avoids_tryCatch {A} (m : Gen S A) (h : Thrown -> Gen S A) :
  Avoids p m -> (forall e, Avoids p (h e)) -> Avoids p (GenM.tryCatch m h).
Proof.
  intros Hm Hh s. rewrite events_tryCatch. apply Forall_app; split; [apply Hm|].
  destruct (result (m s)); [constructor | apply Hh].
Qed.

Lemma avoids_if {A} (b : bool) (m1 m2 : Gen S A) :
  Avoids p m1 -> Avoids p m2 -> Avoids p (if b then m1 else m2).
Proof. now destruct b. Qed.
End Avoiding.

Section Keeping.
Context {X : Type}.
Variable f : S -> X.

Lemma keeps_ret {A} (a : A) : Keeps f (GenM.ret (S := S) a).
Proof. intros s; split; [reflexivity | constructor]. Qed.

Lemma keeps_yield (e : Event) : Keeps f (GenM.yield (S := S) e).
Proof. intros s; split; [reflexivity | repeat constructor]. Qed.

Lemma keeps_await {Y A} (get : S -> Y) (set : Y -> S -> S) (m : Async Y A) :
  (forall s, f (set (snd (m (get s))) s) = f s) -> Keeps f (GenM.await get set m).
Proof.
  intros H s. unfold GenM.await. specialize (H s).
  destruct (m (get s)) as [r y]; split; [exact H | constructor].
Qed.

Lemma keeps_bind {A B} (m : Gen S A) (g : A -> Gen S B) :
  Keeps f m -> (forall a, Keeps f (g a)) -> Keeps f (GenM.bind m g).
Proof.
  intros Hm Hg s. destruct (Hm s) as [Hf Ht]. unfold GenM.bind.
  destruct (result (m s)) as [a|e]; cbn [final trace]; [|now split].
  destruct (Hg a (final (m s))) as [Hf' Ht']. split; [congruence|].
  apply Forall_app; split; [exact Ht|].
  eapply Forall_impl; [|exact Ht']. cbn; intros; congruence.
Qed.

Lemma keeps_tryCatch {A} (m : Gen S A) (h : Thrown -> Gen S A) :
  Keeps f m -> (forall e, Keeps f (h e)) -> Keeps f (GenM.tryCatch m h).
Proof.
  intros Hm Hh s. destruct (Hm s) as [Hf Ht]. unfold GenM.tryCatch.
  destruct (result (m s)) as [a|e]; cbn [final trace]; [now split|].
  destruct (Hh e (final (m s))) as [Hf' Ht']. split; [congruence|].
  apply Forall_app; split; [exact Ht|].
  eapply Forall_impl; [|exact Ht']. cbn; intros; congruence.
Qed.

Lemma keeps_if {A} (b : bool) (m1 m2 : Gen S A) :
  Keeps f m1 -> Keeps f m2 -> Keeps f (if b then m1 else m2).
Proof. now destruct b. Qed.
End Keeping.

Lemma returns_ret {A} (a : A) : Returns (GenM.ret (S := S) a).
Proof. intros s; now exists a. Qed.

Lemma returns_yield (e : Event) : Returns (GenM.yield (S := S) e).
Proof. intros s; now exists tt. Qed.

Lemma returns_bind {A B} (m : Gen S A) (f : A -> Gen S B) :
  Returns m -> (forall a, Returns (f a)) -> Returns (GenM.bind m f).
Proof.
  intros Hm Hf s. rewrite result_bind. destruct (Hm s) as [a ->]. apply Hf.
Qed.

Lemma returns_tryCatch {A} (m : Gen S A) (h : Thrown -> Gen S A) :
  (forall e, Returns (h e)) -> Returns (GenM.tryCatch m h).
Proof.
  intros Hh s. rewrite result_tryCatch. destruct (result (m s)) as [a|e]; [now exists a | apply Hh].
Qed.

Lemma returns_if {A} (b : bool) (m1 m2 : Gen S A) :
  Returns m1 -> Returns m2 -> Returns (if b then m1 else m2).
Proof. now destruct b. Qed.

(** Counting in a list none of whose elements counts. *)
Lemma filter_quiet (p : Event -> bool) (l : list Event) :
  Forall (fun e => p e = false) l -> filter p l = [].
Proof.
  induction 1 as [|e l He _ IH]; simpl; [reflexivity|]. now rewrite He.
Qed.

Lemma quiet_not_started (l : list Event) :
  Forall (fun e => lifecycle e = false) l -> filter isRunStarted l = [].
Proof.
  intros H. apply filter_quiet. eapply Forall_impl; [|exact H].
  unfold lifecycle; intros e He. now apply orb_false_iff in He.
Qed.

Lemma quiet_not_finished (l : list Event) :
  Forall (fun e => lifecycle e = false) l -> filter isRunFinished l = [].
Proof.
  intros H. apply filter_quiet. eapply Forall_impl; [|exact H].
  unfold lifecycle; intros e He. now apply orb_false_iff in He.
Qed.
End GenFacts.

Create HintDb returns.
#[local] Hint Resolve returns_ret returns_yield returns_bind returns_tryCatch returns_if : returns.

(** * The starter kit: the shape of a run *)

Section StarterKitFacts.
Import StarterKit.AgentClient.
Context {App : Type}.
Variable env : Env.
Variable this : StarterKit.AgentClient.t App.

Section Avoiding.
Variable p : Event -> bool.

Lemma avoids_streamWords (id : string) (words : list string) (first : bool) :
  (forall e, isText e = true -> p e = false) ->
  Avoids p (streamWords (App := App) id first words).
Proof.
  intros Hp. revert first; induction words as [|w rest IH]; intros first; simpl.
  - apply avoids_ret.
  - apply avoids_bind; [apply avoids_yield; auto | intros _; apply IH].
Qed.

Lemma avoids_streamResponse (prompt : string) (executed : list Executed) (rid : string) :
  (forall e, isText e = true -> p e = false) ->
  Avoids p (streamResponse env this prompt executed rid).
Proof.
  intros Hp. unfold streamResponse, awaitWorld.
  repeat (first [ apply avoids_bind | apply avoids_tryCatch | apply avoids_if
                | apply avoids_await | apply avoids_streamWords; assumption
                | apply avoids_yield; apply Hp; reflexivity | intro ]).
Qed.

Lemma avoids_toolLoop (calls : list ToolCall) (i : nat) (executed : list Executed) :
  (forall e, isToolEvent e = true -> p e = false) ->
  Avoids p (toolLoop env this calls i executed).
Proof.
  intros Hp. revert i executed; induction calls as [|c rest IH]; intros i executed; simpl.
  - apply avoids_ret.
  - destruct (findTool (tools this) (call_name c)); [|apply IH].
    unfold awaitWorld.
    repeat (first [ apply IH | apply avoids_bind | apply avoids_tryCatch | apply avoids_if
                  | apply avoids_await | apply avoids_ret
                  | apply avoids_yield; apply Hp; reflexivity | intro ]).
Qed.
End Avoiding.

Lemma text_not_lifecycle (e : Event) : isText e = true -> lifecycle e = false.
Proof. now destruct e. Qed.

Lemma tool_not_lifecycle (e : Event) : isToolEvent e = true -> lifecycle e = false.
Proof. now destruct e. Qed.

Lemma returns_streamWords (id : string) (words : list string) (first : bool) :
  Returns (streamWords (App := App) id first words).
Proof.
  revert first; induction words as [|w rest IH]; intros first; simpl; auto with returns.
Qed.

Lemma returns_streamResponse (prompt : string) (executed : list (Executed)) (rid : string) :
  Returns (streamResponse env this prompt executed rid).
Proof.
  unfold streamResponse.
  apply returns_bind; [apply returns_yield|intros _].
  apply returns_bind; [|intros _; apply returns_yield].
  apply returns_tryCatch. intros e; apply returns_yield.
Qed.

Lemma returns_toolLoop (calls : list ToolCall) (i : nat) (executed : list Executed) :
  Returns (toolLoop env this calls i executed).
Proof.
  revert i executed; induction calls as [|c rest IH]; intros i executed; simpl.
  - apply returns_ret.
  - destruct (findTool (tools this) (call_name c)); [|apply IH].
    apply returns_bind; [apply returns_yield|intros _].
    apply returns_bind; [apply returns_if; auto with returns|intros _].
    apply returns_bind; [|intros ex; apply IH].
    apply returns_tryCatch; intros e. auto with returns.
Qed.

Section Run.
Variable prompt : string.

Local Abbreviation started := (started env).
Local Abbreviation finished := (finished env).
Local Abbreviation failed := (failed env).
Local Abbreviation tryBlock := (tryBlock env this prompt (threadId env) (runId env)).
Local Abbreviation catchBlock := (catchBlock env (threadId env) (runId env)).
Local Abbreviation resolve := (resolve this prompt).

Lemma processPrompt_accepted (s : State App) :
  isProcessing s = false ->
  processPrompt env this prompt s =
  let o := GenM.tryCatch tryBlock catchBlock (setProcessing true s) in
  mkOut (trace o) (result o) (setProcessing false (final o)).
Proof.
  intros Hidle. unfold processPrompt.
  unfold GenM.bind at 1. cbn [GenM.gets result final trace]. rewrite Hidle.
  unfold GenM.bind at 1. cbn [GenM.modify result final trace].
  unfold GenM.tryFinally. cbn [GenM.modify result final trace app].
  rewrite app_nil_r. reflexivity.
Qed.

Lemma resolve_silent (s : State App) : trace (resolve s) = [].
Proof.
  unfold StarterKit.AgentClient.resolve, awaitWorld, GenM.await. now destruct (onNet _ _).
Qed.

(** The [try] block when the resolver throws. *)
Lemma tryBlock_resolver_throws (s : State App) (e : Thrown) :
  result (resolve s) = inr e ->
  events (tryBlock s) = [started] /\ result (tryBlock s) = inr e.
Proof.
  intros Hthrow. unfold StarterKit.AgentClient.tryBlock. split.
  - rewrite events_bind. cbn [GenM.yield result final events trace map fst].
    rewrite events_bind. unfold events at 1. rewrite resolve_silent, Hthrow. reflexivity.
  - rewrite result_bind. cbn [GenM.yield result final].
    rewrite result_bind. now rewrite Hthrow.
Qed.

(** The [try] block when the resolver returns. *)
Lemma tryBlock_resolved (s : State App) (toolCalls : list ToolCall) :
  result (resolve s) = inl toolCalls ->
  exists executedTools,
    let loop := toolLoop env this toolCalls 0 [] (final (resolve s)) in
    let response := streamResponse env this prompt executedTools (runId env) (final loop) in
    result loop = inl executedTools /\
    events (tryBlock s) = started :: events loop ++ events response ++ [finished "completed"] /\
    result (tryBlock s) = inl tt /\
    final (tryBlock s) = final response.
Proof.
  intros Hok.
  destruct (returns_toolLoop toolCalls 0 [] (final (resolve s))) as [ex Hex].
  destruct (returns_streamResponse prompt ex (runId env)
              (final (toolLoop env this toolCalls 0 [] (final (resolve s))))) as [[] Hsr].
  exists ex. cbn zeta. split; [exact Hex|]. unfold StarterKit.AgentClient.tryBlock.
  split; [|split].
  - rewrite events_bind. cbn [GenM.yield result final events trace map fst].
    rewrite events_bind. unfold events at 1. rewrite resolve_silent, Hok.
    rewrite events_bind, Hex, events_bind, Hsr. reflexivity.
  - rewrite result_bind. cbn [GenM.yield result final].
    rewrite result_bind, Hok, result_bind, Hex, result_bind, Hsr. reflexivity.
  - rewrite final_bind. cbn [GenM.yield result final].
    rewrite final_bind, Hok, final_bind, Hex, final_bind, Hsr. reflexivity.
Qed.
End Run.

(** Every accepted call gives one start event, events that do not
    delimit a run, and one finish event. *)
Lemma processPrompt_shape (prompt : string) (s : State App) :
  isProcessing s = false ->
  exists mid status,
    events (processPrompt env this prompt s) = started env :: mid ++ [finished env status]
    /\ Forall (fun e => lifecycle e = false) mid
    /\ (status = "completed" \/ status = "error").
Proof.
  intros Hidle. rewrite (processPrompt_accepted prompt s Hidle). cbn zeta.
  change (events (mkOut ?t ?r ?f)) with (map fst t).
  change (map fst (trace ?o)) with (events o).
  rewrite events_tryCatch.
  destruct (result (resolve this prompt (setProcessing true s))) as [toolCalls|e] eqn:Hres.
  - destruct (tryBlock_resolved prompt _ Hres) as (ex & _ & Hev & Hr & _).
    cbn zeta in Hev. rewrite Hev, Hr, app_nil_r.
    eexists; exists "completed". split; [|split; [|now left]].
    + rewrite app_assoc. reflexivity.
    + apply Forall_app; split;
        [apply avoids_toolLoop, tool_not_lifecycle
        | apply avoids_streamResponse, text_not_lifecycle].
  - destruct (tryBlock_resolver_throws prompt _ Hres) as [Hev Hr].
    rewrite Hev, Hr. exists [failed env e], "error". split; [reflexivity|].
    split; [|now right]. repeat constructor.
Qed.

(** A second call while the flag is set: one informational event, and
    the state is the one it found. *)
Lemma processPrompt_busy (prompt : string) (s : State App) :
  isProcessing s = true ->
  processPrompt env this prompt s = mkOut [(CustomEvent busyMessage, s)] (inl tt) s.
Proof.
  intros Hbusy. unfold processPrompt, GenM.bind at 1.
  cbn [GenM.gets result final trace]. now rewrite Hbusy.
Qed.
End StarterKitFacts.

(** A list made of one start event, events that do not delimit a run and
    one finish event has exactly one of each, the finish event last. *)
Lemma delimited_once (a b : Event) (mid : list Event) :
  isRunStarted a = true -> isRunFinished a = false ->
  isRunFinished b = true -> isRunStarted b = false ->
  Forall (fun e => lifecycle e = false) mid ->
  let evs := a :: mid ++ [b] in
  filter isRunStarted evs = [a] /\ filter isRunFinished evs = [b] /\ last evs a = b.
Proof.
  intros Ha Ha' Hb Hb' Hmid evs. subst evs. cbn [filter]. rewrite Ha, Ha', !filter_app.
  rewrite (quiet_not_started Hmid), (quiet_not_finished Hmid). cbn [filter app].
  rewrite Hb, Hb'. repeat split.
  change (a :: mid ++ [b]) with ((a :: mid) ++ [b]). apply last_last.
Qed.

Section StarterKitLoop.
Import StarterKit.AgentClient.
Context {App : Type}.
Variable env : Env.
Variable this : StarterKit.AgentClient.t App.

Lemma bind_returned {S A B} (m : Gen S A) (f : A -> Gen S B) (s : S) (a : A) :
  result (m s) = inl a ->
  GenM.bind m f s =
  mkOut (trace (m s) ++ trace (f a (final (m s))))
        (result (f a (final (m s)))) (final (f a (final (m s)))).
Proof. intros H. unfold GenM.bind. now rewrite H. Qed.

Lemma awaitWorld_run {A} (m : Async (World App) A) (s : State App) :
  awaitWorld m s = mkOut [] (fst (m (world s))) (setWorld (snd (m (world s))) s).
Proof. unfold awaitWorld, GenM.await. now destruct (m (world s)). Qed.

(** The [try] statement inside the loop: whether the tool returns or
    throws, the end event and the result event with the payload of the
    outcome, in the state the tool leaves. *)
Lemma tool_attempt (tool : Tool App) (call : ToolCall) (i : nat)
      (executed : list Executed) (s : State App) :
  let attempt :=
    GenM.tryCatch
      (result <- awaitWorld (invoke tool (argument call));;
       GenM.yield (ToolCallEndEvent (toolCallId env i));;
       GenM.yield (ToolCallResultEvent (messageId env i) (toolCallId env i)
                                       (JSON_stringify env result));;
       GenM.ret (executed ++ [mkExecuted call result]))%gen
      (fun toolError =>
         GenM.yield (ToolCallEndEvent (toolCallId env i));;
         GenM.yield (ToolCallResultEvent (messageId env i) (toolCallId env i)
                       (JSON_stringify env (failurePayload toolError)));;
         GenM.ret executed)%gen in
  let r := fst (invoke tool (argument call) (world s)) in
  let s' := setWorld (snd (invoke tool (argument call) (world s))) s in
  events (attempt s)
  = [ToolCallEndEvent (toolCallId env i);
     ToolCallResultEvent (messageId env i) (toolCallId env i) (payload env r)]
  /\ (exists executed', result (attempt s) = inl executed')
  /\ final (attempt s) = s'.
Proof.
  cbn zeta.
  rewrite events_tryCatch, result_tryCatch, final_tryCatch.
  rewrite events_bind, result_bind, final_bind, !awaitWorld_run.
  cbn [trace result final events map app].
  destruct (fst (invoke tool (argument call) (world s))) as [v|e].
  - repeat split. now eexists.
  - repeat split. now eexists.
Qed.

(** The loop emits the blocks of its iterations, in order, leaves the
    flag alone and leaves the world that executing the registered
    requests one after the other gives. *)
Lemma toolLoop_run (calls : list ToolCall) :
  forall (i : nat) (executed : list Executed) (s : State App),
    events (toolLoop env this calls i executed s) = concat (loopBlocks env this calls i (world s))
    /\ world (final (toolLoop env this calls i executed s)) = loopWorld this calls (world s)
    /\ isProcessing (final (toolLoop env this calls i executed s)) = isProcessing s.
Proof.
  induction calls as [|c rest IH]; intros i executed s.
  - repeat split.
  - cbn [toolLoop loopBlocks loopWorld].
    destruct (findTool (tools this) (call_name c)) as [tool|]; [|apply IH].
    destruct (tool_attempt tool c i executed s) as (Hev & [ex' Hres] & Hfin).
    cbn zeta in Hev, Hres, Hfin. cbn beta zeta.
    rewrite (bind_returned _ _ _ (a := tt)) by reflexivity.
    cbn [GenM.yield trace final].
    rewrite (bind_returned _ _ _ (a := tt)) by now destruct (hasArguments (call_args c)).
    replace (final ((if hasArguments (call_args c)
                     then GenM.yield (ToolCallArgsEvent (toolCallId env i)
                                                        (stringifyText env (call_args c)))
                     else GenM.ret tt) s)) with s
      by now destruct (hasArguments (call_args c)).
    rewrite (bind_returned _ _ _ Hres), Hfin.
    destruct (invoke tool (argument c) (world s)) as [r w'] eqn:Hinv. cbn [fst snd] in *.
    destruct (IH (S i) ex' (setWorld w' s)) as (IHev & IHw & IHp).
    unfold events in *. cbn [trace final]. rewrite !map_app, IHev, IHw, IHp, Hev.
    cbn [concat world setWorld isProcessing map fst app].
    unfold block. 
    destruct (hasArguments (call_args c)); cbn [GenM.yield GenM.ret trace map fst app];
      repeat split.
Qed.
End StarterKitLoop.

Section StarterKitState.
Import StarterKit.AgentClient.
Context {App : Type}.
Variable env : Env.
Variable this : StarterKit.AgentClient.t App.

Ltac keep :=
  repeat (first [ apply keeps_bind | apply keeps_tryCatch | apply keeps_if
                | apply keeps_yield | apply keeps_ret
                | match goal with |- forall _, _ => intro end ]).

(** A call that reaches the network only leaves the application and the
    log of executions as they are. *)
Lemma onNet_frame {A} (m : Async (list FetchRequest) A) (w : World App) :
  app (snd (onNet m w)) = app w /\ invoked (snd (onNet m w)) = invoked w.
Proof. unfold onNet, AsyncM.zoom. now destruct (m (fetched w)). Qed.

Lemma keeps_awaitNet {A} (m : Async (list FetchRequest) A) :
  Keeps (@beyondNet App) (awaitWorld (onNet m)).
Proof.
  apply keeps_await. intros s. unfold beyondNet; cbn.
  now destruct (onNet_frame m (world s)) as [-> ->].
Qed.

Lemma keeps_resolve (prompt : string) : Keeps (@beyondNet App) (resolve this prompt).
Proof. apply keeps_awaitNet. Qed.

Lemma keeps_streamWords (id : string) (words : list string) (first : bool) :
  Keeps (@beyondNet App) (streamWords (App := App) id first words).
Proof. revert first; induction words; intros first; simpl; keep. apply IHwords. Qed.

Lemma keeps_streamResponse (prompt : string) (executed : list Executed) (rid : string) :
  Keeps (@beyondNet App) (streamResponse env this prompt executed rid).
Proof.
  unfold streamResponse. keep.
  - apply keeps_awaitNet.
  - apply keeps_await. reflexivity.
  - apply keeps_streamWords.
Qed.

Lemma keeps_flag_toolLoop (calls : list ToolCall) (i : nat) (executed : list Executed) :
  Keeps (@isProcessing App) (toolLoop env this calls i executed).
Proof.
  revert i executed; induction calls as [|c rest IH]; intros i executed; simpl.
  - apply keeps_ret.
  - destruct (findTool (tools this) (call_name c)); [|apply IH].
    keep; try apply IH. apply keeps_await. reflexivity.
Qed.

Lemma keeps_flag_of_beyondNet {A} (m : Gen (State App) A) :
  Keeps (@beyondNet App) m -> Keeps (@isProcessing App) m.
Proof.
  intros H s. destruct (H s) as [Hf Ht]. split.
  - unfold beyondNet in Hf. congruence.
  - eapply Forall_impl; [|exact Ht]. unfold beyondNet; cbn; intros; congruence.
Qed.

Lemma keeps_flag_tryBlock (prompt : string) :
  Keeps (@isProcessing App) (tryBlock env this prompt (threadId env) (runId env)).
Proof.
  unfold tryBlock.
  apply keeps_bind; [apply keeps_yield | intros _].
  apply keeps_bind; [apply keeps_flag_of_beyondNet, keeps_resolve | intros toolCalls].
  apply keeps_bind; [apply keeps_flag_toolLoop | intros executed].
  apply keeps_bind; [apply keeps_flag_of_beyondNet, keeps_streamResponse | intros _].
  apply keeps_yield.
Qed.

Lemma keeps_flag_catchBlock (e : Thrown) :
  Keeps (@isProcessing App) (catchBlock env (threadId env) (runId env) e).
Proof. unfold catchBlock. keep. Qed.

(** While an accepted call is suspended at a [yield] the flag is set,
    and when the generator has run to its end the flag is cleared. *)
Lemma processPrompt_flag (prompt : string) (s : State App) :
  isProcessing s = false ->
  Forall (fun x => isProcessing (snd x) = true) (trace (processPrompt env this prompt s))
  /\ isProcessing (final (processPrompt env this prompt s)) = false.
Proof.
  intros Hidle. rewrite (processPrompt_accepted env this prompt s Hidle).
  cbn zeta; cbn [trace final]. split; [|reflexivity].
  assert (Hk : Keeps (@isProcessing App)
                     (GenM.tryCatch (tryBlock env this prompt (threadId env) (runId env))
                                    (catchBlock env (threadId env) (runId env))))
    by (apply keeps_tryCatch; [apply keeps_flag_tryBlock | apply keeps_flag_catchBlock]).
  destruct (Hk (setProcessing true s)) as [_ Ht]. exact Ht.
Qed.

(** The executions of a loop are those of its registered requests, one
    each, in order. *)
Lemma loopWorld_invoked (calls : list ToolCall) (w : World App) :
  invoked (loopWorld this calls w) = invoked w ++ executions this calls.
Proof.
  revert w; induction calls as [|c rest IH]; intros w; cbn [loopWorld executions flat_map].
  - now rewrite app_nil_r.
  - fold (executions this rest).
    destruct (findTool (tools this) (call_name c)) as [tool|]; [|apply IH].
    rewrite IH. unfold invoke. destruct (execute tool (argument c) (app w)); cbn.
    now rewrite <- app_assoc.
Qed.
End StarterKitState.

Section StarterKitRuns.
Import StarterKit.AgentClient.
Context {App : Type}.
Variable env : Env.
Variable this : StarterKit.AgentClient.t App.

Lemma filter_block_same (c : ToolCall) (i : nat) (p : string) :
  filter (carriesToolCallId (toolCallId env i)) (block env c i p) = block env c i p.
Proof.
  unfold block. destruct (hasArguments (call_args c)); cbn; now rewrite !String.eqb_refl.
Qed.

Lemma filter_block_other (c : ToolCall) (i k : nat) (p : string) :
  toolCallId env i <> toolCallId env k ->
  filter (carriesToolCallId (toolCallId env k)) (block env c i p) = [].
Proof.
  intros Hne. apply String.eqb_neq in Hne.
  unfold block. destruct (hasArguments (call_args c)); cbn; now rewrite !Hne.
Qed.

(** No event of the loop carries an id that none of its iterations
    draws. *)
Lemma loop_filter_none (calls : list ToolCall) (k : nat) :
  forall (i : nat) (w : World App),
    (forall j, i <= j < i + length calls -> toolCallId env j <> toolCallId env k) ->
    filter (carriesToolCallId (toolCallId env k)) (concat (loopBlocks env this calls i w)) = [].
Proof.
  induction calls as [|c rest IH]; intros i w Hids; cbn [loopBlocks concat]; [reflexivity|].
  assert (Hrest : forall w', filter (carriesToolCallId (toolCallId env k))
                                    (concat (loopBlocks env this rest (S i) w')) = []).
  { intros w'. apply IH. intros j Hj. apply Hids. cbn [length]. lia. }
  destruct (findTool (tools this) (call_name c)) as [tool|].
  - destruct (invoke tool (argument c) w) as [r w']. cbn [concat].
    rewrite filter_app, Hrest, filter_block_other; [reflexivity|].
    apply Hids. cbn [length]. lia.
  - cbn [concat app]. apply Hrest.
Qed.

(** The events that carry the id of the iteration [k] are the block of
    that iteration, when no other iteration draws the same id. *)
Lemma loop_filter (calls : list ToolCall) (k : nat) :
  forall (i : nat) (w : World App),
    i <= k < i + length calls ->
    (forall j, i <= j < i + length calls -> j <> k -> toolCallId env j <> toolCallId env k) ->
    filter (carriesToolCallId (toolCallId env k)) (concat (loopBlocks env this calls i w))
    = nth (k - i) (loopBlocks env this calls i w) [].
Proof.
  induction calls as [|c rest IH]; intros i w Hk Hids; cbn [length] in Hk; [lia|].
  cbn [loopBlocks].
  destruct (Nat.eq_dec k i) as [->|Hki].
  - rewrite Nat.sub_diag.
    assert (Hrest : forall w', filter (carriesToolCallId (toolCallId env i))
                                      (concat (loopBlocks env this rest (S i) w')) = []).
    { intros w'. apply loop_filter_none. intros j Hj. apply Hids; cbn [length]; lia. }
    destruct (findTool (tools this) (call_name c)) as [tool|].
    + destruct (invoke tool (argument c) w) as [r w']. cbn [concat nth].
      now rewrite filter_app, Hrest, filter_block_same, app_nil_r.
    + cbn [concat nth app]. apply Hrest.
  - replace (k - i) with (S (k - S i)) by lia.
    assert (Hrest : forall w', filter (carriesToolCallId (toolCallId env k))
                                      (concat (loopBlocks env this rest (S i) w'))
                               = nth (k - S i) (loopBlocks env this rest (S i) w') []).
    { intros w'. apply IH; [lia|]. intros j Hj. apply Hids; cbn [length]; lia. }
    destruct (findTool (tools this) (call_name c)) as [tool|].
    + destruct (invoke tool (argument c) w) as [r w']. cbn [concat nth].
      rewrite filter_app, Hrest, filter_block_other; [reflexivity|].
      apply Hids; [cbn [length]; lia | congruence].
    + cbn [concat nth app]. apply Hrest.
Qed.

(** The block of a registered request: the four events, with the
    payload of the outcome of its tool. *)
Lemma loopBlocks_nth (calls : list ToolCall) (k : nat) (call : ToolCall) (tool : Tool App) :
  nth_error calls k = Some call ->
  findTool (tools this) (call_name call) = Some tool ->
  forall (i : nat) (w : World App),
  exists r, nth k (loopBlocks env this calls i w) [] = block env call (i + k) (payload env r).
Proof.
  revert k; induction calls as [|c rest IH]; intros k Hnth Hfind i w.
  - now destruct k.
  - destruct k as [|k]; cbn [nth_error] in Hnth; cbn [loopBlocks].
    + injection Hnth as ->. rewrite Hfind.
      destruct (invoke tool (argument call) w) as [r w']. exists r.
      now rewrite Nat.add_0_r.
    + assert (Hrest : forall w', exists r,
                 nth k (loopBlocks env this rest (S i) w') [] =
                 block env call (i + S k) (payload env r)).
      { intros w'. destruct (IH k Hnth Hfind (S i) w') as [r Hr]. exists r.
        rewrite Hr. f_equal. lia. }
      destruct (findTool (tools this) (call_name c)) as [tool'|].
      * destruct (invoke tool' (argument c) w) as [r w']. cbn [nth]. apply Hrest.
      * cbn [nth]. apply Hrest.
Qed.

(** An accepted call whose resolver returns: the start event, the blocks
    of the requests in order, the text message, and the finish event
    with status [completed]; the executions are those of the registered
    requests, one each. *)
Lemma processPrompt_completed (prompt : string) (s : State App) (toolCalls : list ToolCall) :
  isProcessing s = false ->
  result (resolve this prompt (setProcessing true s)) = inl toolCalls ->
  exists response,
    events (processPrompt env this prompt s)
    = started env
      :: concat (loopBlocks env this toolCalls 0 (world (final (resolve this prompt (setProcessing true s)))))
      ++ response ++ [finished env "completed"]
    /\ Forall (fun e => isText e = true) response
    /\ invoked (world (final (processPrompt env this prompt s)))
       = invoked (world s) ++ executions this toolCalls.
Proof.
  intros Hidle Hres. rewrite (processPrompt_accepted env this prompt s Hidle). cbn zeta.
  change (events (mkOut ?t ?r ?f)) with (map fst t).
  change (map fst (trace ?o)) with (events o).
  cbn [final]. rewrite events_tryCatch, final_tryCatch.
  destruct (tryBlock_resolved env this prompt _ Hres) as (ex & Hex & Hev & Hr & Hfin).
  cbn zeta in Hev, Hfin. rewrite Hev, Hr, Hfin, app_nil_r.
  set (s1 := final (resolve this prompt (setProcessing true s))) in *.
  destruct (toolLoop_run env this toolCalls 0 [] s1) as (Hloop & Hworld & _).
  set (s2 := final (toolLoop env this toolCalls 0 [] s1)) in *.
  exists (events (streamResponse env this prompt ex (runId env) s2)).
  rewrite Hloop. split; [reflexivity|]. split.
  - pose proof (avoids_streamResponse env this (fun e => negb (isText e)) prompt ex (runId env)) as H.
    eapply Forall_impl; [|apply H].
    + cbn. intros e He. now apply negb_false_iff in He.
    + intros e He. now rewrite He.
  - cbn [world setProcessing].
    destruct (keeps_streamResponse env this prompt ex (runId env) s2) as [Hk _].
    destruct (keeps_resolve this prompt (setProcessing true s)) as [Hk0 _].
    fold s1 in Hk0. unfold beyondNet in Hk, Hk0.
    assert (H2 : invoked (world (final (streamResponse env this prompt ex (runId env) s2)))
                 = invoked (world s2)) by congruence.
    assert (H1 : invoked (world s1) = invoked (world s)) by (cbn in Hk0; congruence).
    rewrite H2. subst s2. rewrite Hworld, loopWorld_invoked. now rewrite H1.
Qed.

(** The events that carry the id of a registered request are its start
    event, its arguments event when the argument object is not empty,
    its end event and its result event, in this order. *)
Lemma processPrompt_tool_call (prompt : string) (s : State App) (toolCalls : list ToolCall)
      (k : nat) (call : ToolCall) (tool : Tool App) :
  isProcessing s = false ->
  result (resolve this prompt (setProcessing true s)) = inl toolCalls ->
  nth_error toolCalls k = Some call ->
  findTool (tools this) (call_name call) = Some tool ->
  (forall j, j < length toolCalls -> j <> k -> toolCallId env j <> toolCallId env k) ->
  exists r,
    filter (carriesToolCallId (toolCallId env k)) (events (processPrompt env this prompt s))
    = block env call k (payload env r).
Proof.
  intros Hidle Hres Hnth Hfind Hids.
  destruct (processPrompt_completed prompt s Hidle Hres) as (response & Hev & Htext & _).
  set (w := world (final (resolve this prompt (setProcessing true s)))) in *.
  destruct (loopBlocks_nth toolCalls k Hnth Hfind 0 w) as [r Hr]. exists r.
  rewrite Hev. cbn [filter carriesToolCallId started].
  rewrite !filter_app. cbn [filter carriesToolCallId finished].
  assert (Hk : k < length toolCalls) by (apply nth_error_Some; congruence).
  rewrite loop_filter; [|lia|intros j Hj; apply Hids; lia].
  rewrite Nat.sub_0_r, Hr.
  rewrite (filter_quiet (carriesToolCallId (toolCallId env k)) (l := response)), app_nil_r;
    [reflexivity|].
  eapply Forall_impl; [|exact Htext]. intros e He. now destruct e.
Qed.
End StarterKitRuns.

(** * The demo: the shape of a run *)

Section DemoFacts.
Import Demo.AgentClient.
Context {App : Type}.
Variable env : Env.
Variable this : Demo.AgentClient.t App.

Section Avoiding.
Variable p : Event -> bool.
Hypothesis text_avoided : forall e, isText e = true -> p e = false.
Hypothesis tool_avoided : forall e, isToolEvent e = true -> p e = false.

Lemma demo_avoids_streamWords (id : string) (words : list string) (first : bool) :
  Avoids p (streamWords (App := App) id first words).
Proof.
  revert first; induction words as [|w rest IH]; intros first; simpl.
  - apply avoids_ret.
  - apply avoids_bind; [apply avoids_yield; auto | intros _; apply IH].
Qed.

Lemma demo_avoids_toolLoop (calls : list ToolCall) (i : nat) :
  Avoids p (toolLoop env this calls i).
Proof.
  revert i; induction calls as [|c rest IH]; intros i; simpl.
  - apply avoids_ret.
  - destruct (findTool (tools this) (call_name c)); [|apply IH].
    unfold awaitWorld.
    repeat (first [ apply IH | apply avoids_bind | apply avoids_if
                  | apply avoids_await | apply avoids_ret
                  | apply avoids_yield; apply tool_avoided; reflexivity | intro ]).
Qed.

Lemma demo_avoids_tryBlock (prompt : string) : Avoids p (tryBlock env this prompt).
Proof.
  unfold tryBlock, resolve, awaitWorld.
  repeat (first [ apply demo_avoids_toolLoop | apply demo_avoids_streamWords
                | apply avoids_bind | apply avoids_if
                | apply avoids_await | apply avoids_ret
                | apply avoids_yield; apply text_avoided; reflexivity | intro ]).
Qed.
End Avoiding.

(** Every call gives one start event, events that do not delimit a run,
    and the finish event with status [completed]. *)
Lemma demo_processPrompt_shape (prompt : string) (w : World App) :
  exists mid,
    events (processPrompt env this prompt w) = started env :: mid ++ [finished env "completed"]
    /\ Forall (fun e => lifecycle e = false) mid.
Proof.
  unfold processPrompt. cbn zeta.
  rewrite events_bind. cbn [GenM.yield result final events trace map fst app].
  rewrite events_bind, result_tryCatch, events_tryCatch.
  exists (events (tryBlock env this prompt w)
          ++ match result (tryBlock env this prompt w) with
             | inl _ => []
             | inr e => events (catchBlock e (final (tryBlock env this prompt w)))
             end).
  split.
  - destruct (result (tryBlock env this prompt w)); reflexivity.
  - apply Forall_app; split.
    + apply demo_avoids_tryBlock; intros e He; now destruct e.
    + destruct (result (tryBlock env this prompt w)); repeat constructor.
Qed.
End DemoFacts.

(** * The properties of the specification *)

(** C1.  A run of [processPrompt], in the starter kit (a call that is
    accepted, i.e. made while no run is in progress) and in the demo,
    emits exactly one run-started event and exactly one run-finished
    event, and the run-finished event is the last event, whatever the
    resolver and the tools do (return or throw). *)
Theorem run_delimited_once
        (KitApp DemoApp : Type) (env : Env)
        (kit : StarterKit.AgentClient.t KitApp) (demo : Demo.AgentClient.t DemoApp)
        (prompt : string) (s : StarterKit.AgentClient.State KitApp) (w : World DemoApp) :
  StarterKit.AgentClient.isProcessing s = false ->
  (exists status,
      let evs := events (StarterKit.AgentClient.processPrompt env kit prompt s) in
      filter isRunStarted evs = [StarterKit.AgentClient.started env]
      /\ filter isRunFinished evs = [StarterKit.AgentClient.finished env status]
      /\ last evs (StarterKit.AgentClient.started env) = StarterKit.AgentClient.finished env status
      /\ (status = "completed" \/ status = "error"))
  /\ (let evs := events (Demo.AgentClient.processPrompt env demo prompt w) in
      filter isRunStarted evs = [Demo.AgentClient.started env]
      /\ filter isRunFinished evs = [Demo.AgentClient.finished env "completed"]
      /\ last evs (Demo.AgentClient.started env) = Demo.AgentClient.finished env "completed").
Proof.
  intros Hidle. split.
  - destruct (processPrompt_shape env kit prompt s Hidle) as (mid & status & Hev & Hmid & Hst).
    exists status. cbn zeta. rewrite Hev.
    destruct (@delimited_once (StarterKit.AgentClient.started env)
                (StarterKit.AgentClient.finished env status) mid) as (H1 & H2 & H3); auto.
  - destruct (demo_processPrompt_shape env demo prompt w) as (mid & Hev & Hmid).
    cbn zeta. rewrite Hev.
    now apply (@delimited_once (Demo.AgentClient.started env)
                 (Demo.AgentClient.finished env "completed") mid).
Qed.

(** C1 on the example page: the counter application of the starter kit
    and the portfolio demo, off line, on the prompt "show my portfolio". *)
Lemma run_delimited_once_witness :
  StarterKit.AgentClient.isProcessing Page.idle = false
  /\ ((exists status,
         let evs := events (StarterKit.AgentClient.processPrompt
                              Page.offlineEnv Page.kit "show my portfolio" Page.idle) in
         filter isRunStarted evs = [StarterKit.AgentClient.started Page.offlineEnv]
         /\ filter isRunFinished evs = [StarterKit.AgentClient.finished Page.offlineEnv status]
         /\ last evs (StarterKit.AgentClient.started Page.offlineEnv)
            = StarterKit.AgentClient.finished Page.offlineEnv status
         /\ (status = "completed" \/ status = "error"))
      /\ (let evs := events (Demo.AgentClient.processPrompt
                             Page.offlineEnv Page.demo "show my portfolio" Page.portfolioWorld) in
          filter isRunStarted evs = [Demo.AgentClient.started Page.offlineEnv]
          /\ filter isRunFinished evs = [Demo.AgentClient.finished Page.offlineEnv "completed"]
          /\ last evs (Demo.AgentClient.started Page.offlineEnv)
             = Demo.AgentClient.finished Page.offlineEnv "completed")).
Proof.
  split; [reflexivity|].
  exact (@run_delimited_once _ _ Page.offlineEnv Page.kit Page.demo "show my portfolio"
           Page.idle Page.portfolioWorld eq_refl).
Defined.

(** ** The error paths *)

Section StarterKitErrors.
Import StarterKit.AgentClient.
Context {App : Type}.
Variable env : Env.
Variable this : StarterKit.AgentClient.t App.

(** An accepted call whose resolver throws: the start event, the error
    event with the message of the error and the code [PROCESSING_ERROR],
    and the finish event with status [error]. *)
Lemma processPrompt_resolver_throws (prompt : string) (s : State App) (e : Thrown) :
  isProcessing s = false ->
  result (resolve this prompt (setProcessing true s)) = inr e ->
  events (processPrompt env this prompt s)
  = [started env; failed env e; finished env "error"].
Proof.
  intros Hidle Hres. rewrite (processPrompt_accepted env this prompt s Hidle). cbn zeta.
  change (events (mkOut ?t ?r ?f)) with (map fst t).
  change (map fst (trace ?o)) with (events o).
  rewrite events_tryCatch.
  destruct (tryBlock_resolver_throws env this prompt _ Hres) as [Hev Hr].
  now rewrite Hev, Hr.
Qed.

(** The iteration of a request whose tool throws: the block ends with the
    failure payload, and the loop goes on with the requests after it. *)
Lemma loopBlocks_failure (tool : Tool App) (call : ToolCall) (rest : list ToolCall)
      (i : nat) (w : World App) (e : Thrown) :
  findTool (tools this) (call_name call) = Some tool ->
  fst (invoke tool (argument call) w) = inr e ->
  loopBlocks env this (call :: rest) i w
  = block env call i
          (JSON_stringify env (JObj [("error", JStr (message e)); ("success", JBool false)]))
    :: loopBlocks env this rest (S i) (snd (invoke tool (argument call) w)).
Proof.
  intros Hfind Hthrow. cbn [loopBlocks]. rewrite Hfind.
  destruct (invoke tool (argument call) w) as [r w']. cbn [fst snd] in *. now subst r.
Qed.

(** While an accepted call is suspended, a second call is answered by the
    busy message alone and leaves the state as it is. *)
Lemma processPrompt_rejects_while_running (prompt other : string) (s : State App) :
  isProcessing s = false ->
  Forall (fun x => processPrompt env this other (snd x)
                   = mkOut [(CustomEvent busyMessage, snd x)] (inl tt) (snd x))
         (trace (processPrompt env this prompt s)).
Proof.
  intros Hidle. destruct (processPrompt_flag env this prompt s Hidle) as [Hflag _].
  eapply Forall_impl; [|exact Hflag]. intros x Hx. now apply processPrompt_busy.
Qed.
End StarterKitErrors.

(** The starter kit on the example page: a resolver that throws ends the
    run with the error event and status [error]; a tool that throws
    ([analyzeData]) gets its end and result events, the request after it
    is executed, and the run completes. *)
Example kit_resolver_throws :
  events (StarterKit.AgentClient.processPrompt Page.offlineEnv Page.brokenKit
                                               "show my data" Page.idle)
  = [StarterKit.AgentClient.started Page.offlineEnv;
     StarterKit.AgentClient.failed Page.offlineEnv (JsError "resolver failed");
     StarterKit.AgentClient.finished Page.offlineEnv "error"].
Proof.
  apply (@processPrompt_resolver_throws _ Page.offlineEnv Page.brokenKit "show my data"
           Page.idle (JsError "resolver failed")); reflexivity.
Qed.

Example kit_tool_failure_contained :
  let run := StarterKit.AgentClient.processPrompt
               Page.offlineEnv Page.kit "analyze the data and create a report" Page.idle in
  events run
  = StarterKit.AgentClient.started Page.offlineEnv
    :: StarterKit.AgentClient.block Page.offlineEnv (StarterKit.LLMClient.noArgs "analyzeData") 0
         (JSON_stringify Page.offlineEnv
            (JObj [("error", JStr "analysis failed"); ("success", JBool false)]))
    ++ StarterKit.AgentClient.block Page.offlineEnv (StarterKit.LLMClient.noArgs "generateReport") 1
         (JSON_stringify Page.offlineEnv (JObj [("report", JNum 0)]))
    ++ [TextMessageStartEvent (responseMessageId Page.offlineEnv) "assistant";
        TextMessageContentEvent (responseMessageId Page.offlineEnv)
          "I've executed the generateReport tool for you. The results are displayed in your application above.";
        TextMessageEndEvent (responseMessageId Page.offlineEnv);
        StarterKit.AgentClient.finished Page.offlineEnv "completed"]
  /\ invoked (StarterKit.AgentClient.world (final run))
     = [("analyzeData", Some (JObj [])); ("generateReport", Some (JObj []))].
Proof. cbn zeta. split; vm_compute; reflexivity. Qed.

Section DemoErrors.
Import Demo.AgentClient.
Context {App : Type}.
Variable env : Env.
Variable this : Demo.AgentClient.t App.

(** A run of the demo whose [try] block throws: the error event, then the
    finish event with status [completed]. *)
Lemma demo_error_run (prompt : string) (w : World App) (e : Thrown) :
  result (tryBlock env this prompt w) = inr e ->
  events (processPrompt env this prompt w)
  = started env :: events (tryBlock env this prompt w)
    ++ [PlainRunError (message e) "EXECUTION_ERROR"; finished env "completed"].
Proof.
  intros Hthrow. unfold processPrompt. cbn zeta.
  rewrite events_bind. cbn [GenM.yield result final events trace map fst app].
  rewrite events_bind, result_tryCatch, events_tryCatch, Hthrow.
  cbn [catchBlock GenM.yield result final events trace map fst app].
  now rewrite <- app_assoc.
Qed.
End DemoErrors.

(** C2.  The starter kit does what the claim says (see
    [processPrompt_resolver_throws]); the demo does not: after an error
    that reaches the [catch] of [processPrompt] it reports the error and
    then finishes the run with status [completed].  Here the tool
    registered as [getPortfolio] always fails and the prompt is
    "show my portfolio". *)
Theorem demo_error_finishes_completed :
  events (Demo.AgentClient.processPrompt Page.offlineEnv Page.failingDemo
                                          "show my portfolio" Page.portfolioWorld)
  = [RunStartedEvent (threadId Page.offlineEnv) (runId Page.offlineEnv);
     ToolCallStartEvent (toolCallId Page.offlineEnv 0) "getPortfolio"
                        (Some (messageId Page.offlineEnv 0));
     PlainRunError "tool failed" "EXECUTION_ERROR";
     RunFinishedEvent (threadId Page.offlineEnv) (runId Page.offlineEnv) (Some "completed")].
Proof. vm_compute. reflexivity. Qed.

(** C3.  The starter kit emits, for every registered request, the start
    event, the arguments event exactly when the argument object is not
    empty, the end event and the result event (see
    [processPrompt_tool_call]); the demo does not: on "my retirement plan"
    the resolved request has the empty argument object and an arguments
    event is emitted for it, and when the tool throws (the failing
    [getPortfolio], on "show my portfolio") only the start event is
    emitted. *)
Theorem demo_tool_call_sequence_broken :
  Demo.LLMClient.keywordCalls "my retirement plan"
  = [mkToolCall (Some (JStr "getRetirementProjection")) (Some (JObj []))]
  /\ keysLength (JObj []) = 0
  /\ (exists resultText,
         filter (carriesToolCallId (toolCallId Page.offlineEnv 0))
                (events (Demo.AgentClient.processPrompt Page.offlineEnv Page.demo
                           "my retirement plan" Page.portfolioWorld))
         = [ToolCallStartEvent (toolCallId Page.offlineEnv 0) "getRetirementProjection"
                               (Some (messageId Page.offlineEnv 0));
            ToolCallArgsEvent (toolCallId Page.offlineEnv 0)
                              (JSON_stringify Page.offlineEnv (JObj []));
            ToolCallEndEvent (toolCallId Page.offlineEnv 0);
            ToolCallResultEvent (messageId Page.offlineEnv 0) (toolCallId Page.offlineEnv 0)
                                resultText])
  /\ filter (carriesToolCallId (toolCallId Page.offlineEnv 0))
            (events (Demo.AgentClient.processPrompt Page.offlineEnv Page.failingDemo
                       "show my portfolio" Page.portfolioWorld))
     = [ToolCallStartEvent (toolCallId Page.offlineEnv 0) "getPortfolio"
                           (Some (messageId Page.offlineEnv 0))].
Proof.
  split; [vm_compute; reflexivity|]. split; [reflexivity|].
  split; [eexists; vm_compute; reflexivity | vm_compute; reflexivity].
Qed.

(** C4.  The starter kit contains the failure of a tool (see
    [loopBlocks_failure] and [processPrompt_completed]); the demo does
    not: with the failing [getPortfolio], "rebalance to aggressive"
    resolves to two requests, the first tool throws, no end or result
    event follows, the second request is never executed and the portfolio
    stays as it was. *)
Theorem demo_tool_failure_aborts_loop :
  let run := Demo.AgentClient.processPrompt Page.offlineEnv Page.failingDemo
                                             "rebalance to aggressive" Page.portfolioWorld in
  Demo.LLMClient.keywordCalls "rebalance to aggressive"
  = [Demo.LLMClient.getPortfolioCall; Demo.LLMClient.rebalanceCall "aggressive"]
  /\ events run
     = [RunStartedEvent (threadId Page.offlineEnv) (runId Page.offlineEnv);
        ToolCallStartEvent (toolCallId Page.offlineEnv 0) "getPortfolio"
                           (Some (messageId Page.offlineEnv 0));
        PlainRunError "tool failed" "EXECUTION_ERROR";
        RunFinishedEvent (threadId Page.offlineEnv) (runId Page.offlineEnv) (Some "completed")]
  /\ invoked (final run) = [("getPortfolio", None)]
  /\ Fidelity.portfolio (app (final run)) = Fidelity.mkPortfolio 50 30 20.
Proof. cbn zeta. repeat split; vm_compute; reflexivity. Qed.

(** C5.  The starter kit executes every registered request once (see
    [processPrompt_completed]); the demo with a key configured does not:
    [generateIntelligentResponse] executes the tools of the resolved
    requests a second time.  Here the network is down, so the requests
    come from the keyword rules; "rebalance to aggressive" gives two
    requests and four executions, and the rebalancing is recorded twice in
    the history of the application. *)
Theorem demo_executes_tools_twice :
  let run := Demo.AgentClient.processPrompt Page.offlineEnv Page.keyedDemo
                                             "rebalance to aggressive" Page.portfolioWorld in
  fst (Demo.AgentClient.getToolCalls (Demo.AgentClient.llmClient Page.keyedDemo)
                                     "rebalance to aggressive" [])
  = inl [Demo.LLMClient.getPortfolioCall; Demo.LLMClient.rebalanceCall "aggressive"]
  /\ invoked (final run)
     = [("getPortfolio", None);
        ("rebalancePortfolio", Some (JObj [("strategy", JStr "aggressive")]));
        ("getPortfolio", None);
        ("rebalancePortfolio", Some (JObj [("strategy", JStr "aggressive")]))]
  /\ map Fidelity.action (Fidelity.portfolioHistory (app (final run)))
     = ["Rebalanced to aggressive strategy"; "Rebalanced to aggressive strategy"].
Proof. cbn zeta. repeat split; vm_compute; reflexivity. Qed.

(** C6.  The starter kit rejects a call made while a run is in progress
    (see [processPrompt_busy] and [processPrompt_rejects_while_running]);
    the demo agent has no flag and does not: called in the state in which
    a first run is suspended at its second event, it starts a second run,
    executes a tool and changes the portfolio. *)
Theorem demo_accepts_second_run :
  let first := Demo.AgentClient.processPrompt Page.offlineEnv Page.demo
                                               "rebalance to aggressive" Page.portfolioWorld in
  let suspended := snd (nth 1 (trace first) (CustomEvent EmptyString, Page.portfolioWorld)) in
  let second := Demo.AgentClient.processPrompt Page.offlineEnv Page.demo
                                                "make it conservative" suspended in
  map eventType (events second)
  = [RUN_STARTED; TOOL_CALL_START; TOOL_CALL_ARGS; TOOL_CALL_END; TOOL_CALL_RESULT;
     TEXT_MESSAGE_START; TEXT_MESSAGE_CONTENT; TEXT_MESSAGE_END; RUN_FINISHED]
  /\ Fidelity.portfolio (app suspended) = Fidelity.mkPortfolio 50 30 20
  /\ Fidelity.portfolio (app (final second)) = Fidelity.mkPortfolio 40 40 20.
Proof. cbn zeta. repeat split; vm_compute; reflexivity. Qed.

(** ** The resolvers *)

Section Resolvers.
Context {App : Type}.
Variable env : Env.

(** The keyword strategies return the list of their rules, whatever the
    log of the network holds, and leave that log as it is. *)
Lemma kit_keywords_run (prompt : string) (log : list FetchRequest) :
  StarterKit.LLMClient.getToolCallsFromKeywords prompt log
  = (inl (StarterKit.LLMClient.keywordCalls prompt), log).
Proof. reflexivity. Qed.

Lemma demo_keywords_run (prompt : string) (log : list FetchRequest) :
  Demo.LLMClient.getToolCallsFromKeywords prompt log
  = (inl (Demo.LLMClient.keywordCalls prompt), log).
Proof. reflexivity. Qed.

(** With a key configured and a remote call that fails, the list is the
    one of the keyword rules. *)
Lemma kit_fallback (c : StarterKit.LLMClient.t App) (prompt : string) (log : list FetchRequest) :
  (forall req, remoteFails (fetch env req) = true) ->
  keyConfigured (StarterKit.LLMClient.useRealLLM c) (StarterKit.LLMClient.apiKey c) = true ->
  fst (StarterKit.LLMClient.getToolCalls env c prompt log)
  = inl (StarterKit.LLMClient.keywordCalls prompt).
Proof.
  intros Hfail Hkey. unfold StarterKit.LLMClient.getToolCalls. rewrite Hkey.
  unfold StarterKit.LLMClient.getToolCallsFromOpenAI, StarterKit.LLMClient.requestToolCalls,
    AsyncM.tryCatch, AsyncM.bind, doFetch.
  match goal with
  | |- context [fetch env ?r] =>
      specialize (Hfail r); destruct (fetch env r) as [e | ok st stt txt js]
  end.
  - reflexivity.
  - cbn [remoteFails] in Hfail. destruct ok; cbn [negb orb] in Hfail.
    + destruct js as [data|e]; [discriminate | reflexivity].
    + destruct txt as [body|e]; reflexivity.
Qed.

Lemma demo_fallback (c : Demo.LLMClient.t App) (prompt : string) (log : list FetchRequest) :
  (forall req, remoteFails (fetch env req) = true) ->
  keyConfigured (Demo.LLMClient.useRealLLM c) (Demo.LLMClient.apiKey c) = true ->
  fst (Demo.LLMClient.getToolCalls env c prompt log)
  = inl (Demo.LLMClient.keywordCalls prompt).
Proof.
  intros Hfail Hkey. unfold Demo.LLMClient.getToolCalls. rewrite Hkey.
  unfold Demo.LLMClient.getToolCallsFromOpenAI, Demo.LLMClient.requestToolCalls,
    AsyncM.tryCatch, AsyncM.bind, doFetch.
  match goal with
  | |- context [fetch env ?r] =>
      specialize (Hfail r); destruct (fetch env r) as [e | ok st stt txt js]
  end.
  - reflexivity.
  - cbn [remoteFails] in Hfail. destruct ok; cbn [negb orb] in Hfail.
    + destruct js as [data|e]; [discriminate | reflexivity].
    + reflexivity.
Qed.

(** Whatever is thrown inside the [try] block of the remote strategy,
    the list is the one of the keyword rules. *)
Lemma kit_any_error_falls_back (c : StarterKit.LLMClient.t App) (prompt : string)
      (log : list FetchRequest) (e : Thrown) :
  keyConfigured (StarterKit.LLMClient.useRealLLM c) (StarterKit.LLMClient.apiKey c) = true ->
  fst (StarterKit.LLMClient.requestToolCalls env c prompt log) = inr e ->
  fst (StarterKit.LLMClient.getToolCalls env c prompt log)
  = inl (StarterKit.LLMClient.keywordCalls prompt).
Proof.
  intros Hkey Hthrow. unfold StarterKit.LLMClient.getToolCalls. rewrite Hkey.
  unfold StarterKit.LLMClient.getToolCallsFromOpenAI, AsyncM.tryCatch.
  destruct (StarterKit.LLMClient.requestToolCalls env c prompt log) as [[calls|e'] log'];
    [discriminate | reflexivity].
Qed.

Lemma demo_any_error_falls_back (c : Demo.LLMClient.t App) (prompt : string)
      (log : list FetchRequest) (e : Thrown) :
  keyConfigured (Demo.LLMClient.useRealLLM c) (Demo.LLMClient.apiKey c) = true ->
  fst (Demo.LLMClient.requestToolCalls env c prompt log) = inr e ->
  fst (Demo.LLMClient.getToolCalls env c prompt log)
  = inl (Demo.LLMClient.keywordCalls prompt).
Proof.
  intros Hkey Hthrow. unfold Demo.LLMClient.getToolCalls. rewrite Hkey.
  unfold Demo.LLMClient.getToolCallsFromOpenAI, AsyncM.tryCatch.
  destruct (Demo.LLMClient.requestToolCalls env c prompt log) as [[calls|e'] log'];
    [discriminate | reflexivity].
Qed.

(** Whatever the remote service does, [getToolCalls] returns a list: an
    error of the remote call never reaches its caller. *)
Lemma kit_getToolCalls_returns (c : StarterKit.LLMClient.t App) (prompt : string)
      (log : list FetchRequest) :
  exists calls, fst (StarterKit.LLMClient.getToolCalls env c prompt log) = inl calls.
Proof.
  unfold StarterKit.LLMClient.getToolCalls.
  destruct (keyConfigured _ _); [|now eexists].
  unfold StarterKit.LLMClient.getToolCallsFromOpenAI, AsyncM.tryCatch.
  match goal with |- context [match ?m log with _ => _ end] => destruct (m log) as [[calls|e] log'] end;
    now eexists.
Qed.

Lemma demo_getToolCalls_returns (c : Demo.LLMClient.t App) (prompt : string)
      (log : list FetchRequest) :
  exists calls, fst (Demo.LLMClient.getToolCalls env c prompt log) = inl calls.
Proof.
  unfold Demo.LLMClient.getToolCalls.
  destruct (keyConfigured _ _); [|now eexists].
  unfold Demo.LLMClient.getToolCallsFromOpenAI, AsyncM.tryCatch.
  match goal with |- context [match ?m log with _ => _ end] => destruct (m log) as [[calls|e] log'] end;
    now eexists.
Qed.
End Resolvers.

(** C7.  With the remote strategy configured (a key is set) and a remote
    completion call that fails - the request is rejected, the status is
    not a success, or the body is not JSON - [getToolCalls] returns the
    list that [getToolCallsFromKeywords] returns on the same prompt, and
    returns it normally: nothing is thrown to the orchestrator.  This
    holds for the [LLMClient] of the starter kit and for the one of the
    demo. *)
Theorem remote_failure_falls_back_to_keywords
        (KitApp DemoApp : Type) (env : Env)
        (kit : StarterKit.LLMClient.t KitApp) (demo : Demo.LLMClient.t DemoApp)
        (prompt : string) (log : list FetchRequest) :
  (forall req, remoteFails (fetch env req) = true) ->
  keyConfigured (StarterKit.LLMClient.useRealLLM kit) (StarterKit.LLMClient.apiKey kit) = true ->
  keyConfigured (Demo.LLMClient.useRealLLM demo) (Demo.LLMClient.apiKey demo) = true ->
  (fst (StarterKit.LLMClient.getToolCalls env kit prompt log)
   = fst (StarterKit.LLMClient.getToolCallsFromKeywords prompt log)
   /\ exists calls, fst (StarterKit.LLMClient.getToolCalls env kit prompt log) = inl calls)
  /\ (fst (Demo.LLMClient.getToolCalls env demo prompt log)
      = fst (Demo.LLMClient.getToolCallsFromKeywords prompt log)
      /\ exists calls, fst (Demo.LLMClient.getToolCalls env demo prompt log) = inl calls).
Proof.
  intros Hfail Hkit Hdemo. split; split.
  - now rewrite kit_fallback, kit_keywords_run.
  - apply kit_getToolCalls_returns.
  - now rewrite demo_fallback, demo_keywords_run.
  - apply demo_getToolCalls_returns.
Qed.

(** C7 on the example page, off line, with the key [sk-test]. *)
Lemma remote_failure_falls_back_to_keywords_witness :
  (forall req, remoteFails (fetch Page.offlineEnv req) = true)
  /\ keyConfigured (StarterKit.LLMClient.useRealLLM Page.keyedKitLLM)
                   (StarterKit.LLMClient.apiKey Page.keyedKitLLM) = true
  /\ keyConfigured (Demo.LLMClient.useRealLLM Page.keyedDemoLLM)
                   (Demo.LLMClient.apiKey Page.keyedDemoLLM) = true
  /\ ((fst (StarterKit.LLMClient.getToolCalls Page.offlineEnv Page.keyedKitLLM
                                              "show my portfolio" [])
       = fst (StarterKit.LLMClient.getToolCallsFromKeywords "show my portfolio" [])
       /\ exists calls, fst (StarterKit.LLMClient.getToolCalls Page.offlineEnv Page.keyedKitLLM
                                                               "show my portfolio" [])
                        = inl calls)
      /\ (fst (Demo.LLMClient.getToolCalls Page.offlineEnv Page.keyedDemoLLM
                                           "show my portfolio" [])
          = fst (Demo.LLMClient.getToolCallsFromKeywords "show my portfolio" [])
          /\ exists calls, fst (Demo.LLMClient.getToolCalls Page.offlineEnv Page.keyedDemoLLM
                                                            "show my portfolio" [])
                           = inl calls)).
Proof.
  split; [intros req; reflexivity|]. split; [reflexivity|]. split; [reflexivity|].
  exact (@remote_failure_falls_back_to_keywords _ _ Page.offlineEnv Page.keyedKitLLM
           Page.keyedDemoLLM "show my portfolio" [] (fun req => eq_refl) eq_refl eq_refl).
Defined.

(** The keyword rules of the demo on some prompts: the extraction of the
    numbers, the strategy patterns under the [i] flag. *)
Example demo_keywords_retirement :
  Demo.LLMClient.keywordCalls "Retirement plan for the next 25 years with $800 monthly"
  = [mkToolCall (Some (JStr "getRetirementProjection"))
                (Some (JObj [("yearsToRetirement", JNum 25); ("monthlyContribution", JNum 800)]))].
Proof. vm_compute. reflexivity. Qed.

Example demo_keywords_switch :
  Demo.LLMClient.keywordCalls "Switch to High-Risk please"
  = [Demo.LLMClient.rebalanceCall "aggressive"].
Proof. vm_compute. reflexivity. Qed.

Example demo_keywords_rebalance_safe :
  Demo.LLMClient.keywordCalls "please rebalance, keep it safe"
  = [Demo.LLMClient.getPortfolioCall; Demo.LLMClient.rebalanceCall "conservative"].
Proof. vm_compute. reflexivity. Qed.

(** A remote answer with one function call whose arguments are the text
    of the empty object. *)
Example remote_answer_is_parsed :
  let answer := fun _ : FetchRequest =>
    FetchResponse true "200" "OK" (inr (JsError "body used"))
      (inl (JObj [("choices",
                   JArr [JObj [("message",
                                JObj [("tool_calls",
                                       JArr [JObj [("type", JStr "function");
                                                   ("function",
                                                    JObj [("name", JStr "getPortfolio");
                                                          ("arguments", JStr "{}")])]])])]])])) in
  fst (Demo.LLMClient.getToolCalls (Page.env answer) Page.keyedDemoLLM "what do I own?" [])
  = inl [mkToolCall (Some (JStr "getPortfolio")) (Some (JObj []))].
Proof. vm_compute. reflexivity. Qed.

(** A remote answer that is a well-formed completion without tool calls
    (the model replied with text) is no failure: the list is empty and the
    keyword rules are not consulted. *)
Lemma text_only_answer_gives_no_calls
      (App : Type) (env : Env) (c : Demo.LLMClient.t App) (prompt : string)
      (log : list FetchRequest) (st stt : string) (txt : string + Thrown) (content : string) :
  keyConfigured (Demo.LLMClient.useRealLLM c) (Demo.LLMClient.apiKey c) = true ->
  (forall req, fetch env req
               = FetchResponse true st stt txt
                   (inl (JObj [("choices",
                                JArr [JObj [("message",
                                             JObj [("role", JStr "assistant");
                                                   ("content", JStr content)])]])]))) ->
  fst (Demo.LLMClient.getToolCalls env c prompt log) = inl [].
Proof.
  intros Hkey Hanswer. unfold Demo.LLMClient.getToolCalls. rewrite Hkey.
  unfold Demo.LLMClient.getToolCallsFromOpenAI, Demo.LLMClient.requestToolCalls,
    AsyncM.tryCatch, AsyncM.bind, doFetch.
  rewrite Hanswer. reflexivity.
Qed.

(** C8.  The keyword strategy of the starter kit and the one of the demo
    are total functions of the prompt: [getToolCallsFromKeywords] returns
    normally the list [keywordCalls prompt], sends nothing over the
    network (the log of requests is as before), returns the same list on
    a second invocation in any other state of the page, and returns the
    empty list when no rule matches. *)
Theorem keyword_strategy_total_and_deterministic
        (prompt : string) (log log' : list FetchRequest) :
  (StarterKit.LLMClient.getToolCallsFromKeywords prompt log
   = (inl (StarterKit.LLMClient.keywordCalls prompt), log)
   /\ Demo.LLMClient.getToolCallsFromKeywords prompt log
      = (inl (Demo.LLMClient.keywordCalls prompt), log))
  /\ (fst (StarterKit.LLMClient.getToolCallsFromKeywords prompt log)
      = fst (StarterKit.LLMClient.getToolCallsFromKeywords prompt log')
      /\ fst (Demo.LLMClient.getToolCallsFromKeywords prompt log)
         = fst (Demo.LLMClient.getToolCallsFromKeywords prompt log'))
  /\ (StarterKit.LLMClient.noRuleMatches prompt = true ->
      StarterKit.LLMClient.keywordCalls prompt = [])
  /\ (Demo.LLMClient.noRuleMatches prompt = true ->
      Demo.LLMClient.keywordCalls prompt = []).
Proof.
  split; [split; reflexivity|]. split; [split; reflexivity|]. split.
  - unfold StarterKit.LLMClient.noRuleMatches, StarterKit.LLMClient.keywordCalls,
      StarterKit.LLMClient.push.
    cbn zeta. intros H. repeat (apply andb_true_iff in H; destruct H as [H ?]).
    repeat match goal with
           | Hn : negb ?b = true |- _ => apply negb_true_iff in Hn; rewrite Hn
           end.
    reflexivity.
  - unfold Demo.LLMClient.noRuleMatches, Demo.LLMClient.keywordCalls.
    cbn zeta. intros H. repeat (apply andb_true_iff in H; destruct H as [H ?]).
    repeat match goal with
           | Hn : negb ?b = true |- _ => apply negb_true_iff in Hn
           end.
    repeat match goal with
           | Hn : Demo.LLMClient.showRule _ = false |- _ => rewrite Hn; clear Hn
           | Hn : Demo.LLMClient.rebalanceRule _ = false |- _ => rewrite Hn; clear Hn
           | Hn : Demo.LLMClient.moreAggressiveRule _ = false |- _ => rewrite Hn; clear Hn
           | Hn : Demo.LLMClient.moreConservativeRule _ = false |- _ => rewrite Hn; clear Hn
           | Hn : Demo.LLMClient.retirementRule _ = false |- _ => rewrite Hn; clear Hn
           | Hn : Demo.LLMClient.analyzeRule _ = false |- _ => rewrite Hn; clear Hn
           end.
    cbn [Demo.LLMClient.strategyLoop Demo.LLMClient.strategyPatterns].
    match goal with Hn : _ && _ = false |- _ => rename Hn into Hs end.
    destruct (Demo.LLMClient.switchRule (toLowerCase prompt)).
    + cbn [andb] in Hs. apply orb_false_iff in Hs. destruct Hs as [Hs Hc].
      apply orb_false_iff in Hs. destruct Hs as [Ha Hm].
      now rewrite Ha, Hm, Hc.
    + now rewrite !andb_false_r.
Qed.

(** C8 at the prompt "hello", which matches no rule. *)
Lemma keyword_strategy_total_and_deterministic_witness :
  StarterKit.LLMClient.noRuleMatches "hello" = true
  /\ Demo.LLMClient.noRuleMatches "hello" = true
  /\ StarterKit.LLMClient.keywordCalls "hello" = []
  /\ Demo.LLMClient.keywordCalls "hello" = [].
Proof.
  split; [reflexivity|]. split; [reflexivity|].
  destruct (keyword_strategy_total_and_deterministic "hello" [] []) as (_ & _ & Hkit & Hdemo).
  split; [exact (Hkit eq_refl) | exact (Hdemo eq_refl)].
Defined.

(** With no key configured [getToolCalls] is the keyword strategy. *)
Lemma local_getToolCalls
      (KitApp DemoApp : Type) (env : Env)
      (kit : StarterKit.LLMClient.t KitApp) (demo : Demo.LLMClient.t DemoApp)
      (prompt : string) (log : list FetchRequest) :
  keyConfigured (StarterKit.LLMClient.useRealLLM kit) (StarterKit.LLMClient.apiKey kit) = false ->
  keyConfigured (Demo.LLMClient.useRealLLM demo) (Demo.LLMClient.apiKey demo) = false ->
  StarterKit.LLMClient.getToolCalls env kit prompt log
  = (inl (StarterKit.LLMClient.keywordCalls prompt), log)
  /\ Demo.LLMClient.getToolCalls env demo prompt log
     = (inl (Demo.LLMClient.keywordCalls prompt), log).
Proof.
  intros Hkit Hdemo.
  unfold StarterKit.LLMClient.getToolCalls, Demo.LLMClient.getToolCalls.
  now rewrite Hkit, Hdemo.
Qed.

(** C9, as the code has it.  In the demo under the local strategy, on any
    page and in any state of the portfolio application, the prompt
    "show my portfolio" resolves to exactly one request, [{name:
    "getPortfolio"}] with no [args] property; its tool returns, and the
    run emits the start event, the start, end and result events of the
    tool call (no arguments event) with the serialized result of
    [getPortfolio], one text message whose content names the tool, and
    the finish event with status [completed]. *)
Theorem show_my_portfolio_run
        (env : Env) (numbers : Fidelity.Numbers) (a : Fidelity.FidelityApp)
        (executions : list (string * JSValue)) (log : list FetchRequest) :
  let this := Demo.AgentClient.new env (Fidelity.getTools env numbers) in
  let run := Demo.AgentClient.processPrompt env this "show my portfolio"
                                            (mkWorld a executions log) in
  let content :=
    "I've executed the following tools for you: getPortfolio. The results are displayed in your portfolio above." in
  fst (Demo.AgentClient.getToolCalls (Demo.AgentClient.llmClient this) "show my portfolio" log)
  = inl [mkToolCall (Some (JStr "getPortfolio")) None]
  /\ fst (execute (Fidelity.getPortfolio env) None a)
     = inl (JObj [("allocation", Fidelity.allocation (Fidelity.portfolio a));
                  ("totalValue", JNum (Fidelity.calculateTotalValue a));
                  ("riskLevel", JStr (Fidelity.getRiskLevel a));
                  ("lastUpdated", JStr (Date_toISOString env))])
  /\ events run
     = [RunStartedEvent (threadId env) (runId env);
        ToolCallStartEvent (toolCallId env 0) "getPortfolio" (Some (messageId env 0));
        ToolCallEndEvent (toolCallId env 0);
        ToolCallResultEvent (messageId env 0) (toolCallId env 0)
          (JSON_stringify env
             (JObj [("allocation", Fidelity.allocation (Fidelity.portfolio a));
                    ("totalValue", JNum (Fidelity.calculateTotalValue a));
                    ("riskLevel", JStr (Fidelity.getRiskLevel a));
                    ("lastUpdated", JStr (Date_toISOString env))]));
        TextMessageStartEvent (responseMessageId env) "assistant";
        TextMessageContentEvent (responseMessageId env) content;
        TextMessageEndEvent (responseMessageId env);
        RunFinishedEvent (threadId env) (runId env) (Some "completed")]
  /\ includes content "getPortfolio" = true
  /\ result run = inl tt
  /\ app (final run) = a.
Proof.
  cbn zeta. repeat split; try reflexivity.
Qed.

(** C9 as stated fails: the request that "show my portfolio" resolves to
    is not [{name: "getPortfolio", args: {}}]. *)
Lemma show_my_portfolio_request_has_no_args :
  fst (Demo.AgentClient.getToolCalls (Demo.AgentClient.llmClient Page.demo)
                                     "show my portfolio" [])
  <> inl [mkToolCall (Some (JStr "getPortfolio")) (Some (JObj []))].
Proof. vm_compute. discriminate. Qed.

(** ** The portfolio application *)

Lemma isString_spec (v : JSValue) (lit : string) :
  isString v lit = true <-> v = Some (JStr lit).
Proof.
  unfold isString. destruct v as [[]|]; split; intros H; try discriminate.
  - apply String.eqb_eq in H. now subst.
  - injection H as ->. apply String.eqb_refl.
Qed.

Section FidelityFacts.
Variable env : Env.
Variable numbers : Fidelity.Numbers.

Lemma getTools_list :
  Fidelity.getTools env numbers
  = [Fidelity.getPortfolio env; Fidelity.rebalancePortfolio env;
     Fidelity.getRetirementProjection env numbers].
Proof. reflexivity. Qed.

Lemma getPortfolio_keeps_allocation (args : JSValue) (a : Fidelity.FidelityApp) :
  Fidelity.portfolio (snd (execute (Fidelity.getPortfolio env) args a)) = Fidelity.portfolio a.
Proof. reflexivity. Qed.

Lemma getRetirementProjection_keeps_allocation (args : JSValue) (a : Fidelity.FidelityApp) :
  Fidelity.portfolio (snd (execute (Fidelity.getRetirementProjection env numbers) args a))
  = Fidelity.portfolio a.
Proof.
  cbn [execute Fidelity.getRetirementProjection].
  destruct (getProp args "yearsToRetirement"); [|reflexivity].
  destruct (getProp args "monthlyContribution"); reflexivity.
Qed.

(** What [rebalancePortfolio] leaves: the allocation of the strategy, or,
    called with [null] or [undefined], the allocation it found. *)
Lemma rebalancePortfolio_allocation (args : JSValue) (a : Fidelity.FidelityApp) :
  Fidelity.portfolio (snd (execute (Fidelity.rebalancePortfolio env) args a))
  = match getProp args "strategy" with
    | inl strategy => Fidelity.allocationFor strategy
    | inr _ => Fidelity.portfolio a
    end.
Proof.
  cbn [execute Fidelity.rebalancePortfolio].
  destruct (getProp args "strategy"); reflexivity.
Qed.

Lemma allocationFor_cases (strategy : JSValue) :
  (strategy = Some (JStr "aggressive")
   /\ Fidelity.allocationFor strategy = Fidelity.mkPortfolio 70 20 10)
  \/ (strategy = Some (JStr "moderate")
      /\ Fidelity.allocationFor strategy = Fidelity.mkPortfolio 60 30 10)
  \/ (strategy <> Some (JStr "aggressive") /\ strategy <> Some (JStr "moderate")
      /\ Fidelity.allocationFor strategy = Fidelity.mkPortfolio 40 40 20).
Proof.
  unfold Fidelity.allocationFor.
  destruct (isString strategy "aggressive") eqn:Ha.
  - left. split; [now apply isString_spec | reflexivity].
  - destruct (isString strategy "moderate") eqn:Hm.
    + right; left. split; [now apply isString_spec | reflexivity].
    + right; right. repeat split.
      * intros H. apply isString_spec in H. congruence.
      * intros H. apply isString_spec in H. congruence.
Qed.

Lemma allocationFor_balanced (strategy : JSValue) :
  Fidelity.balanced (Fidelity.allocationFor strategy).
Proof.
  destruct (allocationFor_cases strategy) as [[_ ->]|[[_ ->]|(_ & _ & ->)]]; reflexivity.
Qed.

Lemma tool_keeps_balance (tool : Tool Fidelity.FidelityApp) (args : JSValue)
      (a : Fidelity.FidelityApp) :
  In tool (Fidelity.getTools env numbers) ->
  Fidelity.balanced (Fidelity.portfolio a) ->
  Fidelity.balanced (Fidelity.portfolio (snd (execute tool args a))).
Proof.
  rewrite getTools_list. intros [<-|[<-|[<-|[]]]] Hbal.
  - now rewrite getPortfolio_keeps_allocation.
  - rewrite rebalancePortfolio_allocation.
    destruct (getProp args "strategy"); [apply allocationFor_balanced | exact Hbal].
  - now rewrite getRetirementProjection_keeps_allocation.
Qed.

Lemma executeAll_keeps_balance (steps : list (string * JSValue)) :
  forall a, Fidelity.balanced (Fidelity.portfolio a) ->
            Fidelity.balanced (Fidelity.portfolio (Fidelity.executeAll env numbers steps a)).
Proof.
  induction steps as [|[n args] rest IH]; intros a Hbal; cbn [Fidelity.executeAll].
  - exact Hbal.
  - destruct (findTool (Fidelity.getTools env numbers) (Some (JStr n))) as [tool|] eqn:Hfind.
    + apply IH, tool_keeps_balance; [|exact Hbal].
      unfold findTool in Hfind. now apply find_some in Hfind.
    + now apply IH.
Qed.
End FidelityFacts.

(** C10.  The allocation of the demo application adds up to 100: it
    starts at 50/30/20; [getPortfolio] and [getRetirementProjection]
    leave it as it is for every argument; [rebalancePortfolio] with an
    argument object replaces it by 70/20/10 when [strategy] is
    ['aggressive'], by 60/30/10 when it is ['moderate'] and by 40/40/20 for
    every other value, a missing one included; so after any sequence of
    tool executions, with any arguments, the allocation adds up to 100. *)
Theorem allocation_adds_up_to_100 (env : Env) (numbers : Fidelity.Numbers) :
  Fidelity.portfolio Fidelity.new = Fidelity.mkPortfolio 50 30 20
  /\ (forall args a,
         Fidelity.portfolio (snd (execute (Fidelity.getPortfolio env) args a))
         = Fidelity.portfolio a)
  /\ (forall args a,
         Fidelity.portfolio (snd (execute (Fidelity.getRetirementProjection env numbers) args a))
         = Fidelity.portfolio a)
  /\ (forall fields a,
         let strategy := assoc "strategy" fields in
         let p := Fidelity.portfolio (snd (execute (Fidelity.rebalancePortfolio env)
                                                   (Some (JObj fields)) a)) in
         (strategy = Some (JStr "aggressive") /\ p = Fidelity.mkPortfolio 70 20 10)
         \/ (strategy = Some (JStr "moderate") /\ p = Fidelity.mkPortfolio 60 30 10)
         \/ (strategy <> Some (JStr "aggressive") /\ strategy <> Some (JStr "moderate")
             /\ p = Fidelity.mkPortfolio 40 40 20))
  /\ Fidelity.balanced (Fidelity.mkPortfolio 70 20 10)
  /\ Fidelity.balanced (Fidelity.mkPortfolio 60 30 10)
  /\ Fidelity.balanced (Fidelity.mkPortfolio 40 40 20)
  /\ (forall steps,
         Fidelity.balanced
           (Fidelity.portfolio (Fidelity.executeAll env numbers steps Fidelity.new))).
Proof.
  split; [reflexivity|].
  split; [apply getPortfolio_keeps_allocation|].
  split; [apply getRetirementProjection_keeps_allocation|].
  split.
  - intros fields a. cbn zeta. rewrite rebalancePortfolio_allocation.
    cbn [getProp]. apply allocationFor_cases.
  - repeat split. intros steps. now apply executeAll_keeps_balance.
Qed.

(** * More properties of the code *)

(** ** The tool registry and the sessions *)

Section MapFacts.
Context {V : Type}.

Lemma mapGet_mapSet (k k' : string) (v : V) (m : list (string * V)) :
  mapGet k' (mapSet k v m) = if String.eqb k k' then Some v else mapGet k' m.
Proof.
  induction m as [|[k0 v0] rest IH]; cbn [mapSet mapGet].
  - reflexivity.
  - destruct (String.eqb k0 k) eqn:E0; cbn [mapGet].
    + apply String.eqb_eq in E0. subst k0. now destruct (String.eqb k k').
    + rewrite IH. destruct (String.eqb k0 k') eqn:E1; [|reflexivity].
      apply String.eqb_eq in E1. subst k0. rewrite String.eqb_sym in E0. now rewrite E0.
Qed.

Lemma mapGet_filter (k k' : string) (m : list (string * V)) :
  mapGet k' (filter (fun kv => negb (String.eqb (fst kv) k)) m)
  = if String.eqb k k' then None else mapGet k' m.
Proof.
  induction m as [|[k0 v0] rest IH]; cbn [filter mapGet fst].
  - now destruct (String.eqb k k').
  - destruct (String.eqb k0 k) eqn:E0; cbn [negb mapGet].
    + apply String.eqb_eq in E0. subst k0. rewrite IH. now destruct (String.eqb k k').
    + rewrite IH. destruct (String.eqb k0 k') eqn:E1; [|reflexivity].
      apply String.eqb_eq in E1. subst k0. rewrite String.eqb_sym in E0. now rewrite E0.
Qed.

Lemma mapGet_absent (k : string) (m : list (string * V)) :
  mapGet k m = None -> ~ In k (map fst m).
Proof.
  induction m as [|[k0 v0] rest IH]; cbn [mapGet map fst In]; [tauto|].
  destruct (String.eqb k0 k) eqn:E0; [discriminate|].
  apply String.eqb_neq in E0. intros H [Hk|Hk]; [congruence | now apply IH].
Qed.

Lemma mapSet_keys (k : string) (v : V) (m : list (string * V)) :
  map fst (mapSet k v m)
  = match mapGet k m with
    | Some _ => map fst m
    | None => map fst m ++ [k]
    end.
Proof.
  induction m as [|[k0 v0] rest IH]; cbn [mapSet mapGet map fst app]; [reflexivity|].
  destruct (String.eqb k0 k) eqn:E0; cbn [map fst].
  - apply String.eqb_eq in E0. now subst.
  - rewrite IH. now destruct (mapGet k rest).
Qed.

Lemma mapSet_NoDup (k : string) (v : V) (m : list (string * V)) :
  NoDup (map fst m) -> NoDup (map fst (mapSet k v m)).
Proof.
  intros H. rewrite mapSet_keys. destruct (mapGet k m) eqn:E; [exact H|].
  apply NoDup_app; [exact H | repeat constructor; intros [] | ].
  intros x Hx [<-|[]]. now apply (mapGet_absent _ _ E).
Qed.

Lemma filter_absent (k : string) (m : list (string * V)) :
  mapGet k m = None -> filter (fun kv => negb (String.eqb (fst kv) k)) m = m.
Proof.
  induction m as [|[k0 v0] rest IH]; cbn [mapGet filter fst]; [reflexivity|].
  destruct (String.eqb k0 k); [discriminate|]. intros H. cbn [negb]. now rewrite IH.
Qed.
End MapFacts.

(** Deleting the entries under one key keeps the keys distinct. *)
Section Deleting.
Context {A : Type}.
Variable key : A -> string.
Variable k : string.

Lemma delete_keeps_keys (items : list A) (x : A) :
  In x (filter (fun item => negb (String.eqb (key item) k)) items) -> In (key x) (map key items).
Proof. intros H. apply filter_In in H as [H _]. now apply in_map. Qed.

Lemma delete_NoDup (items : list A) :
  NoDup (map key items) ->
  NoDup (map key (filter (fun item => negb (String.eqb (key item) k)) items)).
Proof.
  induction items as [|item items IH]; intros H; [constructor|].
  cbn [map] in H. apply NoDup_cons_iff in H as [Hfresh Hrest].
  cbn [filter]. destruct (String.eqb (key item) k); cbn [negb map]; [now apply IH|].
  apply NoDup_cons; [|now apply IH].
  intros Hin. apply in_map_iff in Hin as (x & Hx & Hin). rewrite <- Hx in Hfresh.
  apply Hfresh. now apply delete_keeps_keys.
Qed.
End Deleting.

Section RegistryFacts.
Context {App : Type}.
Variable env : Env.

Lemma findTool_name (tools : list (Tool App)) (n : string) :
  findTool tools (Some (JStr n)) = find (fun tool => String.eqb n (name tool)) tools.
Proof. reflexivity. Qed.

Lemma findTool_registerTool (tool : Tool App) (tools : list (Tool App)) (n : string) :
  findTool (WebMCPProvider.registerTool tool tools) (Some (JStr n))
  = if String.eqb n (name tool) then Some tool else findTool tools (Some (JStr n)).
Proof.
  rewrite !findTool_name.
  induction tools as [|old rest IH]; cbn [WebMCPProvider.registerTool find].
  - now destruct (String.eqb n (name tool)).
  - destruct (String.eqb (name old) (name tool)) eqn:E0; cbn [find].
    + apply String.eqb_eq in E0. rewrite E0. now destruct (String.eqb n (name tool)).
    + rewrite IH. destruct (String.eqb n (name old)) eqn:E1; [|reflexivity].
      apply String.eqb_eq in E1. subst n. now rewrite E0.
Qed.

Lemma findTool_filter (tools : list (Tool App)) (n m : string) :
  findTool (filter (fun tool => negb (String.eqb (name tool) m)) tools) (Some (JStr n))
  = if String.eqb n m then None else findTool tools (Some (JStr n)).
Proof.
  rewrite !findTool_name.
  induction tools as [|old rest IH]; cbn [filter find].
  - now destruct (String.eqb n m).
  - destruct (String.eqb (name old) m) eqn:E0; cbn [negb find].
    + apply String.eqb_eq in E0. subst m. rewrite IH.
      now destruct (String.eqb n (name old)).
    + rewrite IH. destruct (String.eqb n (name old)) eqn:E1; [|reflexivity].
      apply String.eqb_eq in E1. subst n. now rewrite E0.
Qed.

Lemma findTool_existsb (tools : list (Tool App)) (n : string) :
  existsb (fun tool => String.eqb (name tool) n) tools
  = match findTool tools (Some (JStr n)) with Some _ => true | None => false end.
Proof.
  rewrite findTool_name.
  induction tools as [|old rest IH]; cbn [existsb find]; [reflexivity|].
  rewrite (String.eqb_sym n). now destruct (String.eqb (name old) n).
Qed.

Lemma findTool_absent (tools : list (Tool App)) (n : string) :
  findTool tools (Some (JStr n)) = None -> ~ In n (map (@name App) tools).
Proof.
  rewrite findTool_name. intros H Hin. apply in_map_iff in Hin as (tool & <- & Hin).
  apply (find_none _ _ H) in Hin. now rewrite String.eqb_refl in Hin.
Qed.

Lemma registerTool_names (tool : Tool App) (tools : list (Tool App)) :
  map (@name App) (WebMCPProvider.registerTool tool tools)
  = match findTool tools (Some (JStr (name tool))) with
    | Some _ => map (@name App) tools
    | None => map (@name App) tools ++ [name tool]
    end.
Proof.
  rewrite findTool_name.
  induction tools as [|old rest IH]; cbn [WebMCPProvider.registerTool find map app]; [reflexivity|].
  rewrite (String.eqb_sym (name tool)).
  destruct (String.eqb (name old) (name tool)) eqn:E0; cbn [map].
  - apply String.eqb_eq in E0. now rewrite E0.
  - rewrite IH. now destruct (find _ rest).
Qed.

Lemma registerTool_appends (tool : Tool App) (tools : list (Tool App)) :
  findTool tools (Some (JStr (name tool))) = None ->
  WebMCPProvider.registerTool tool tools = tools ++ [tool]
  /\ filter (fun other => negb (String.eqb (name other) (name tool))) tools = tools.
Proof.
  rewrite findTool_name.
  induction tools as [|old rest IH]; cbn [WebMCPProvider.registerTool app find filter];
    [now split|].
  rewrite String.eqb_sym.
  destruct (String.eqb (name old) (name tool)); [discriminate|]. intros E.
  destruct (IH E) as [-> ->]. now split.
Qed.

Lemma registerTool_NoDup (tool : Tool App) (tools : list (Tool App)) :
  NoDup (map (@name App) tools) ->
  NoDup (map (@name App) (WebMCPProvider.registerTool tool tools)).
Proof.
  intros H. rewrite registerTool_names.
  destruct (findTool tools (Some (JStr (name tool)))) eqn:E; [exact H|].
  apply NoDup_app; [exact H | repeat constructor; intros [] | ].
  intros x Hx [<-|[]]. now apply (findTool_absent _ _ E).
Qed.

Lemma registerTools_unique (defs : list (Tool App)) :
  forall this, KitProvider.unique this -> KitProvider.unique (KitProvider.registerTools defs this).
Proof.
  unfold KitProvider.registerTools.
  induction defs as [|tool rest IH]; intros this H; cbn [fold_left]; [exact H|].
  apply IH. destruct H as [Ht Hs]. split; [now apply registerTool_NoDup | exact Hs].
Qed.

Lemma perform_unique (c : KitProvider.Call App) (this : KitProvider.t App) :
  KitProvider.unique this -> KitProvider.unique (KitProvider.perform env c this).
Proof.
  intros [Ht Hs]. destruct c; cbn [KitProvider.perform].
  - split; [now apply registerTool_NoDup | exact Hs].
  - now apply registerTools_unique.
  - split; [now apply (delete_NoDup (@name App)) | exact Hs].
  - split; [constructor | exact Hs].
  - split; [exact Ht | now apply mapSet_NoDup].
  - unfold KitProvider.destroySession, mapDelete. split; [exact Ht|].
    now apply (delete_NoDup fst).
Qed.
End RegistryFacts.

(** X1.  Whatever methods of the provider are called, in whatever order
    and with whatever arguments, starting from the provider its
    constructor gives: [getTools] never lists two tools with the same
    name, and no two sessions have the same id. *)
Theorem registry_names_stay_unique
        (App : Type) (env : Env) (calls : list (KitProvider.Call App)) :
  let provider := KitProvider.performAll env calls (KitProvider.new App) in
  NoDup (map (@name App) (KitProvider.getTools provider))
  /\ NoDup (map fst (KitProvider.sessions provider)).
Proof.
  cbn zeta. unfold KitProvider.performAll.
  assert (H : KitProvider.unique (KitProvider.new App)) by (split; constructor).
  revert H. generalize (KitProvider.new App).
  induction calls as [|c rest IH]; intros this H; cbn [fold_left]; [exact H|].
  apply IH. now apply perform_unique.
Qed.

(** X2.  Looking a tool up after a change of the registry: after
    [registerTool] the name of the tool gives the new entry and every
    other name gives what it gave before; after [removeTool] the name
    removed gives [undefined] and every other name gives what it gave
    before, and the value returned says whether the name was present;
    after [clearTools] every name gives [undefined]. *)
Theorem getTool_after_update
        (App : Type) (tool : Tool App) (this : KitProvider.t App) (n m : string) :
  KitProvider.getTool n (KitProvider.registerTool tool this)
  = (if String.eqb n (name tool) then Some tool else KitProvider.getTool n this)
  /\ KitProvider.getTool n (snd (KitProvider.removeTool m this))
     = (if String.eqb n m then None else KitProvider.getTool n this)
  /\ fst (KitProvider.removeTool m this)
     = (match KitProvider.getTool m this with Some _ => true | None => false end)
  /\ KitProvider.getTool n (KitProvider.clearTools this) = None.
Proof.
  unfold KitProvider.getTool, KitProvider.registerTool, KitProvider.removeTool.
  cbn [KitProvider.tools fst snd]. split; [apply findTool_registerTool|].
  split; [apply findTool_filter|]. split; [apply findTool_existsb | reflexivity].
Qed.

(** X3.  Registering a tool under a name that is present replaces the
    entry where it stands: the names [getTools] lists, and their order,
    are the same.  Registering under a name that is absent appends the
    tool, and removing it again gives back the provider as it was. *)
Theorem registerTool_in_place
        (App : Type) (tool : Tool App) (this : KitProvider.t App) :
  match KitProvider.getTool (name tool) this with
  | Some _ =>
      map (@name App) (KitProvider.getTools (KitProvider.registerTool tool this))
      = map (@name App) (KitProvider.getTools this)
  | None =>
      KitProvider.getTools (KitProvider.registerTool tool this)
      = KitProvider.getTools this ++ [tool]
      /\ KitProvider.removeTool (name tool) (KitProvider.registerTool tool this) = (true, this)
  end.
Proof.
  unfold KitProvider.getTool, KitProvider.getTools, KitProvider.registerTool,
    KitProvider.removeTool.
  destruct this as [tools sessions]. cbn [KitProvider.tools KitProvider.sessions] in *.
  pose proof (registerTool_names tool tools) as Hn.
  destruct (findTool tools (Some (JStr (name tool)))) eqn:E; [exact Hn|].
  destruct (registerTool_appends tool tools E) as [Happ Hfilter].
  split; [exact Happ|]. rewrite Happ. f_equal.
  - rewrite existsb_app. cbn [existsb]. rewrite String.eqb_refl. now rewrite orb_true_r.
  - f_equal. rewrite filter_app. cbn [filter]. rewrite String.eqb_refl. cbn [negb].
    now rewrite app_nil_r, Hfilter.
Qed.

(** X4.  [executeTool] of the two providers.  Under a name that is not
    registered it throws its not-found error (the one of the starter kit
    lists the names that are registered) and the page is as before:
    nothing was executed.  Under a registered name the tool is executed
    exactly once, with [{}] for a missing argument; what the tool returns
    is returned, and what it throws is replaced by an [Error] whose
    message is the message thrown behind a fixed prefix, while the
    changes the tool made before throwing are kept. *)
Theorem executeTool_outcomes
        (App : Type) (this : KitProvider.t App) (n : string) (args : JSValue) (w : World App) :
  let passed := match args with None => Some (JObj []) | Some _ => args end in
  let kit := KitProvider.executeTool this n args w in
  let demo := WebMCPProvider.executeTool (KitProvider.getTools this) n args w in
  match KitProvider.getTool n this with
  | None =>
      kit = (inr (JsError ("WebMCP: Tool '" ++ n ++ "' not found. Available tools: "
                           ++ join ", " (map (@name App) (KitProvider.getTools this)))%string),
             w)
      /\ demo = (inr (JsError ("Tool '" ++ n ++ "' not found")%string), w)
  | Some tool =>
      let w' := mkWorld (snd (execute tool passed (app w)))
                        (invoked w ++ [(name tool, passed)]) (fetched w) in
      match fst (execute tool passed (app w)) with
      | inl value => kit = (inl value, w') /\ demo = (inl value, w')
      | inr error =>
          kit = (inr (JsError ("WebMCP tool execution failed: " ++ message error)%string), w')
          /\ demo = (inr (JsError ("Tool execution failed: " ++ message error)%string), w')
      end
  end.
Proof.
  cbn zeta. unfold KitProvider.executeTool, WebMCPProvider.executeTool, KitProvider.getTool,
    KitProvider.getTools.
  destruct (findTool (KitProvider.tools this) (Some (JStr n))) as [tool|]; [|now split].
  unfold AsyncM.tryCatch, AsyncM.throw, invoke.
  destruct (execute tool _ (app w)) as [[value|error] a]; cbn [fst snd]; now split.
Qed.

(** X5.  Sessions.  [createSession] returns a session that [getSession]
    then finds under its id; the session holds the tools registered at
    that moment and keeps them when the registry changes afterwards; the
    registry itself is not changed.  [destroySession] of that id returns
    [true], after which the id gives [undefined] and every other id gives
    what it gave before the session was created.  [destroySession] of an
    id that has no session returns [false] and leaves the provider as it
    is. *)
Theorem session_round_trip
        (App : Type) (env : Env) (this : KitProvider.t App)
        (sessionId other : string) (config : JSValue) (tool : Tool App) :
  let session := fst (KitProvider.createSession env sessionId config this) in
  let held := snd (KitProvider.createSession env sessionId config this) in
  KitProvider.getSession sessionId held = Some session
  /\ KitProvider.id session = sessionId
  /\ KitProvider.session_tools session = KitProvider.getTools this
  /\ KitProvider.getTools held = KitProvider.getTools this
  /\ KitProvider.getSession sessionId (KitProvider.registerTool tool held) = Some session
  /\ fst (KitProvider.destroySession sessionId held) = true
  /\ KitProvider.getSession other (snd (KitProvider.destroySession sessionId held))
     = (if String.eqb sessionId other then None else KitProvider.getSession other this)
  /\ match KitProvider.getSession other this with
     | Some _ => fst (KitProvider.destroySession other this) = true
     | None => KitProvider.destroySession other this = (false, this)
     end.
Proof.
  cbn zeta. unfold KitProvider.getSession, KitProvider.createSession,
    KitProvider.destroySession, KitProvider.registerTool, mapDelete.
  cbn [fst snd KitProvider.sessions KitProvider.tools KitProvider.id KitProvider.session_tools
       KitProvider.getTools].
  rewrite !mapGet_mapSet, String.eqb_refl, mapGet_filter, mapGet_mapSet.
  repeat split.
  - now destruct (String.eqb sessionId other).
  - destruct (mapGet other (KitProvider.sessions this)) eqn:E; [reflexivity|].
    rewrite (filter_absent _ _ E). now destruct this.
Qed.

(** ** Direct runs *)

Section DirectFacts.
Import StarterKit.AgentClient.
Context {App : Type}.
Variable env : Env.
Variable ids : DirectTool.Ids.

(** The [try] block of a direct run: what it emits, how it completes and
    the state it leaves, after the outcome of the tool. *)
Lemma direct_tryBlock_run (tool : Tool App) (toolName : string) (args : JSValue)
      (s : State App) :
  let o := DirectTool.tryBlock env ids tool toolName args s in
  let r := fst (invoke tool args (world s)) in
  events o
  = ToolCallStartEvent (DirectTool.direct_toolCallId ids) toolName
                       (Some (DirectTool.direct_messageId ids))
    :: (if hasArguments args
        then [ToolCallArgsEvent (DirectTool.direct_toolCallId ids) (stringifyText env args)]
        else [])
    ++ match r with
       | inl value =>
           [ToolCallEndEvent (DirectTool.direct_toolCallId ids);
            ToolCallResultEvent (DirectTool.direct_messageId ids)
                                (DirectTool.direct_toolCallId ids) (JSON_stringify env value);
            TextMessageStartEvent (DirectTool.direct_responseMessageId ids) "assistant";
            TextMessageContentEvent (DirectTool.direct_responseMessageId ids)
                                    ("Successfully executed " ++ toolName)%string;
            TextMessageEndEvent (DirectTool.direct_responseMessageId ids)]
       | inr _ => []
       end
  /\ result o = match r with inl _ => inl tt | inr e => inr e end
  /\ final o = setWorld (snd (invoke tool args (world s))) s.
Proof.
  cbn zeta. unfold DirectTool.tryBlock.
  rewrite events_bind, result_bind, final_bind.
  cbn [GenM.yield trace result final events map fst].
  rewrite events_bind, result_bind, final_bind.
  assert (Hargs : forall (m : Gen (State App) unit),
             m = (if hasArguments args
                  then GenM.yield (ToolCallArgsEvent (DirectTool.direct_toolCallId ids)
                                                     (stringifyText env args))
                  else GenM.ret tt) ->
             events (m s) = (if hasArguments args
                             then [ToolCallArgsEvent (DirectTool.direct_toolCallId ids)
                                                     (stringifyText env args)]
                             else [])
             /\ result (m s) = inl tt /\ final (m s) = s).
  { intros m ->. now destruct (hasArguments args). }
  destruct (Hargs _ eq_refl) as (-> & -> & ->). clear Hargs.
  rewrite events_bind, result_bind, final_bind, !awaitWorld_run.
  cbn [trace result final events map app].
  destruct (fst (invoke tool args (world s))) as [value|e]; repeat split.
Qed.
End DirectFacts.

(** X6.  A direct run, [executeDirectTool(toolName, args)], in any state
    of the agent, busy or not.  It always completes, never touches the
    busy flag or the network, and emits the start event first and one
    finish event last.  Under a name that is not registered it emits one
    informational event, finishes with the status [error] and executes
    nothing.  Under a registered name it executes the tool exactly once,
    with [{}] for a missing argument, and finishes with the status
    [completed] whether the tool returns or throws: when it returns, the
    start event of the call, its arguments event if the argument object
    is not empty, its end and result events and one text message; when
    it throws, the start event of the call (and the arguments event) with
    no end or result event, then a run-error event with the code
    [DIRECT_TOOL_ERROR]. *)
Theorem executeDirectTool_run
        (App : Type) (env : Env) (ids : DirectTool.Ids)
        (this : StarterKit.AgentClient.t App) (toolName : string) (args : JSValue)
        (s : StarterKit.AgentClient.State App) :
  let passed := match args with None => Some (JObj []) | Some _ => args end in
  let run := DirectTool.executeDirectTool env ids this toolName args s in
  let w := StarterKit.AgentClient.world s in
  let threadId := DirectTool.direct_threadId ids in
  let runId := DirectTool.direct_runId ids in
  let toolCallId := DirectTool.direct_toolCallId ids in
  let messageId := DirectTool.direct_messageId ids in
  let responseMessageId := DirectTool.direct_responseMessageId ids in
  result run = inl tt
  /\ StarterKit.AgentClient.isProcessing (final run) = StarterKit.AgentClient.isProcessing s
  /\ fetched (StarterKit.AgentClient.world (final run)) = fetched w
  /\ match findTool (StarterKit.AgentClient.tools this) (Some (JStr toolName)) with
     | None =>
         events run
         = [RunStartedEvent threadId runId;
            CustomEvent (DirectTool.notFoundMessage toolName);
            RunFinishedEvent threadId runId (Some "error")]
         /\ final run = s
     | Some tool =>
         invoked (StarterKit.AgentClient.world (final run))
         = invoked w ++ [(name tool, passed)]
         /\ app (StarterKit.AgentClient.world (final run)) = snd (execute tool passed (app w))
         /\ events run
            = RunStartedEvent threadId runId
              :: ToolCallStartEvent toolCallId toolName (Some messageId)
              :: (if StarterKit.AgentClient.hasArguments passed
                  then [ToolCallArgsEvent toolCallId (stringifyText env passed)]
                  else [])
              ++ match fst (execute tool passed (app w)) with
                 | inl value =>
                     [ToolCallEndEvent toolCallId;
                      ToolCallResultEvent messageId toolCallId (JSON_stringify env value);
                      TextMessageStartEvent responseMessageId "assistant";
                      TextMessageContentEvent responseMessageId
                                              ("Successfully executed " ++ toolName)%string;
                      TextMessageEndEvent responseMessageId]
                 | inr error =>
                     [RunErrorEvent threadId runId
                                    (mkErrorInfo (message error) "DIRECT_TOOL_ERROR" None)]
                 end
              ++ [RunFinishedEvent threadId runId (Some "completed")]
     end.
Proof.
  cbn zeta. unfold DirectTool.executeDirectTool. cbn zeta.
  set (passed := match args with None => Some (JObj []) | Some _ => args end).
  rewrite events_bind, result_bind, final_bind.
  cbn [GenM.yield trace result final events map fst List.app].
  destruct (findTool (StarterKit.AgentClient.tools this) (Some (JStr toolName))) as [tool|].
  - rewrite events_bind, result_bind, final_bind.
    rewrite events_tryCatch, result_tryCatch, final_tryCatch.
    destruct (direct_tryBlock_run env ids tool toolName passed s) as (Hev & Hres & Hfin).
    cbn zeta in Hev, Hres, Hfin. rewrite Hev, Hres, Hfin. clear Hev Hres Hfin.
    unfold invoke. destruct (execute tool passed (app (StarterKit.AgentClient.world s)))
      as [[value|error] a]; cbn [fst snd];
      cbn [DirectTool.catchBlock GenM.yield trace result final events map fst app
           StarterKit.AgentClient.setWorld StarterKit.AgentClient.world
           StarterKit.AgentClient.isProcessing invoked fetched app List.app];
      repeat split; rewrite ?app_nil_r, <- ?app_assoc; reflexivity.
  - repeat split.
Qed.

(** ** Splitting and joining *)

Lemma append_empty_r (s : string) : (s ++ EmptyString)%string = s.
Proof. induction s as [|c rest IH]; cbn; [reflexivity | now rewrite IH]. Qed.

Lemma append_assoc (a b c : string) : ((a ++ b) ++ c)%string = (a ++ (b ++ c))%string.
Proof. induction a as [|x rest IH]; cbn; [reflexivity | now rewrite IH]. Qed.

Lemma join_cons (sep x : string) (items : list string) :
  items <> [] -> join sep (x :: items) = (x ++ sep ++ join sep items)%string.
Proof. destruct items; [congruence | reflexivity]. Qed.

Lemma join_empty_cons (x : string) (items : list string) :
  join EmptyString (x :: items) = (x ++ join EmptyString items)%string.
Proof.
  destruct items as [|y rest]; [cbn; now rewrite append_empty_r | reflexivity].
Qed.

Lemma join_empty_app (l1 l2 : list string) :
  join EmptyString (l1 ++ l2) = (join EmptyString l1 ++ join EmptyString l2)%string.
Proof.
  induction l1 as [|x rest IH]; [reflexivity|].
  change ((x :: rest) ++ l2) with (x :: (rest ++ l2)).
  now rewrite !join_empty_cons, IH, append_assoc.
Qed.

Lemma splitAcc_not_nil (sep : ascii) (s acc : string) : splitAcc sep s acc <> [].
Proof.
  revert acc; induction s as [|c rest IH]; intros acc; cbn [splitAcc]; [discriminate|].
  destruct (Ascii.eqb c sep); [discriminate | apply IH].
Qed.

(** [s.split(sep).join(sep)] is [s]. *)
Lemma join_splitAcc (sep : ascii) (s acc : string) :
  join (String sep EmptyString) (splitAcc sep s acc) = (acc ++ s)%string.
Proof.
  revert acc; induction s as [|c rest IH]; intros acc; cbn [splitAcc].
  - cbn. now rewrite append_empty_r.
  - destruct (Ascii.eqb c sep) eqn:E.
    + apply Ascii.eqb_eq in E. subst c.
      rewrite join_cons by apply splitAcc_not_nil. now rewrite IH.
    + rewrite IH, append_assoc. reflexivity.
Qed.

Lemma join_split (sep : ascii) (s : string) :
  join (String sep EmptyString) (split sep s) = s.
Proof. unfold split. now rewrite join_splitAcc. Qed.

Lemma deltas_app (l1 l2 : list Event) : deltas (l1 ++ l2) = deltas l1 ++ deltas l2.
Proof. unfold deltas. apply flat_map_app. Qed.

Lemma deltas_quiet (l : list Event) :
  Forall (fun e => isText e = false) l -> deltas l = [].
Proof.
  induction 1 as [|e rest He _ IH]; [reflexivity|].
  cbn [deltas flat_map]. fold (deltas rest). rewrite IH. now destruct e.
Qed.

Lemma deltas_contents (id : string) (ds : list string) :
  deltas (map (TextMessageContentEvent id) ds) = ds.
Proof. induction ds as [|d rest IH]; [reflexivity|]. cbn. f_equal. exact IH. Qed.

(** ** The panel of the events of the starter kit *)

Section KitPanel.
Import KitUI.
Context {X : Type}.
Variable callback : option (string -> X -> X).

Lemma kit_renderAll_app (l1 l2 : list Event) (panel : AgentUI.t) (x : X) :
  AgentUI.renderAll callback (l1 ++ l2) panel x
  = AgentUI.renderAll callback l2 (fst (AgentUI.renderAll callback l1 panel x))
                      (snd (AgentUI.renderAll callback l1 panel x)).
Proof.
  revert panel x; induction l1 as [|e rest IH]; intros panel x; [reflexivity|].
  cbn [List.app AgentUI.renderAll].
  destruct (AgentUI.renderEvent callback e panel x) as [panel' x']. apply IH.
Qed.

(** Events that belong to no text message are recorded and change
    nothing else. *)
Lemma kit_renderAll_quiet (l : list Event) :
  Forall (fun e => isText e = false) l ->
  forall (panel : AgentUI.t) (x : X),
    AgentUI.renderAll callback l panel x
    = (AgentUI.mk (AgentUI.events panel ++ l) (AgentUI.currentMessage panel)
                  (AgentUI.messageBuffer panel), x).
Proof.
  induction 1 as [|e rest He _ IH]; intros panel x.
  - cbn. rewrite app_nil_r. now destruct panel.
  - cbn [AgentUI.renderAll].
    assert (Hr : AgentUI.renderEvent callback e panel x
                 = (AgentUI.mk (AgentUI.events panel ++ [e]) (AgentUI.currentMessage panel)
                               (AgentUI.messageBuffer panel), x))
      by (destruct e; try discriminate He; reflexivity).
    rewrite Hr, IH. cbn [AgentUI.events AgentUI.currentMessage AgentUI.messageBuffer].
    now rewrite <- app_assoc.
Qed.

(** The content events of the current message are appended to the
    buffer. *)
Lemma kit_renderAll_contents (id : string) (ds : list string) :
  forall (panel : AgentUI.t) (x : X),
    AgentUI.currentMessage panel = Some id ->
    AgentUI.renderAll callback (map (TextMessageContentEvent id) ds) panel x
    = (AgentUI.mk (AgentUI.events panel ++ map (TextMessageContentEvent id) ds) (Some id)
                  (AgentUI.messageBuffer panel ++ join EmptyString ds)%string, x).
Proof.
  induction ds as [|d rest IH]; intros panel x Hcur.
  - cbn. rewrite app_nil_r, append_empty_r. destruct panel. cbn in Hcur. now subst.
  - cbn [map AgentUI.renderAll]. unfold AgentUI.renderEvent, AgentUI.isCurrent.
    rewrite Hcur, String.eqb_refl. cbn [AgentUI.events AgentUI.currentMessage
                                         AgentUI.messageBuffer].
    rewrite IH by reflexivity. cbn [AgentUI.events AgentUI.currentMessage AgentUI.messageBuffer].
    now rewrite <- app_assoc, join_empty_cons, append_assoc.
Qed.

(** A whole text message: the callback receives the concatenation of its
    deltas, once. *)
Lemma kit_renderAll_message (id role : string) (ds : list string) (panel : AgentUI.t) (x : X) :
  let message := TextMessageStartEvent id role
                 :: map (TextMessageContentEvent id) ds ++ [TextMessageEndEvent id] in
  AgentUI.renderAll callback message panel x
  = (AgentUI.mk (AgentUI.events panel ++ message) None (join EmptyString ds),
     match callback with
     | Some f => f (join EmptyString ds) x
     | None => x
     end).
Proof.
  cbn zeta. cbn [AgentUI.renderAll]. unfold AgentUI.renderEvent at 1.
  cbn [AgentUI.events AgentUI.currentMessage AgentUI.messageBuffer].
  rewrite kit_renderAll_app, kit_renderAll_contents by reflexivity.
  cbn [fst snd AgentUI.renderAll]. unfold AgentUI.renderEvent, AgentUI.isCurrent.
  cbn [AgentUI.currentMessage]. rewrite String.eqb_refl.
  cbn [AgentUI.events AgentUI.currentMessage AgentUI.messageBuffer].
  rewrite <- !app_assoc. reflexivity.
Qed.
End KitPanel.

(** ** The response of the starter kit and its way to the chat *)

Section KitResponse.
Import StarterKit.AgentClient.
Context {App : Type}.
Variable env : Env.
Variable this : StarterKit.AgentClient.t App.

(** The word loop emits content events only; their deltas put together
    are the words joined by single spaces. *)
Lemma streamWords_run (id : string) (words : list string) :
  forall (first : bool) (s : State App),
    let o := streamWords id first words s in
    events o = map (TextMessageContentEvent id) (deltas (events o))
    /\ join EmptyString (deltas (events o))
       = match words with
         | [] => EmptyString
         | _ => ((if first then EmptyString else " ") ++ join " " words)%string
         end
    /\ result o = inl tt
    /\ final o = s.
Proof.
  induction words as [|w rest IH]; intros first s; cbn zeta; cbn [streamWords].
  - repeat split.
  - destruct (IH false s) as (Hev & Hjoin & Hres & Hfin). cbn zeta in Hev, Hjoin, Hres, Hfin.
    rewrite events_bind, result_bind, final_bind.
    cbn [GenM.yield trace result final events map fst List.app].
    change (map fst (trace ?o)) with (events o).
    cbn [deltas flat_map List.app]. fold (deltas (events (streamWords id false rest s))).
    cbn [map]. rewrite <- Hev, Hres, Hfin. repeat split.
    rewrite join_empty_cons, Hjoin. destruct rest as [|r rs].
    + cbn [join]. now rewrite append_empty_r.
    + rewrite (join_cons " " w (items := r :: rs)) by discriminate.
      now rewrite !append_assoc.
Qed.

Lemma await_lift_run {A : Type} (r : A + Thrown) (s : State App) :
  GenM.await (fun s0 : State App => s0) (fun _ s0 => s0) (AsyncM.lift r) s = mkOut [] r s.
Proof. reflexivity. Qed.

(** [streamResponse] emits one text message: the start event, content
    events, the end event; the deltas put together are the text of
    [kitResponseText]. *)
Lemma streamResponse_run (prompt : string) (executed : list Executed) (rid : string)
      (s : State App) :
  let o := streamResponse env this prompt executed rid s in
  events o
  = TextMessageStartEvent (responseMessageId env) "assistant"
    :: map (TextMessageContentEvent (responseMessageId env)) (deltas (events o))
    ++ [TextMessageEndEvent (responseMessageId env)]
  /\ join EmptyString (deltas (events o)) = kitResponseText env this prompt executed (world s).
Proof.
  cbn zeta. unfold streamResponse. cbn zeta.
  set (id := responseMessageId env).
  set (body := if (0 <? length executed)%nat then _ else _).
  set (handler := fun responseError : Thrown =>
                    GenM.yield (S := State App) (TextMessageContentEvent id errorResponse)).
  assert (Hbody : exists ds,
             events (GenM.tryCatch body handler s) = map (TextMessageContentEvent id) ds
             /\ result (GenM.tryCatch body handler s) = inl tt
             /\ join EmptyString ds = kitResponseText env this prompt executed (world s)).
  { rewrite events_tryCatch, result_tryCatch. subst body handler. unfold kitResponseText.
    destruct (0 <? length executed)%nat;
      [destruct (useRealLLM (llmClient this))|];
      try (eexists [_]; repeat split; reflexivity).
    rewrite events_bind, result_bind, awaitWorld_run.
    cbn [trace result final events map List.app].
    destruct (fst (onNet _ (world s))) as [response|e];
      [|exists [errorResponse]; repeat split].
    rewrite events_bind, result_bind, !await_lift_run.
    cbn [trace result final events map List.app].
    destruct response as [[| | | |r| |]|];
      try (exists [errorResponse]; repeat split; fail).
    cbn [splitWords].
    match goal with
    | |- context [streamWords id true (split " " r) ?s'] =>
        destruct (streamWords_run id (split " " r) true s') as (Hev & Hjoin & Hres & _)
    end.
    cbn zeta in Hev, Hjoin, Hres. rewrite Hres.
    eexists. split; [rewrite app_nil_r; exact Hev|]. split; [reflexivity|].
    rewrite Hjoin. pose proof (splitAcc_not_nil " " r EmptyString) as Hne.
    fold (split " " r) in Hne. destruct (split " " r) eqn:E; [congruence|].
    rewrite <- E. apply (join_split " " r). }
  destruct Hbody as (ds & Hev & Hres & Hjoin).
  rewrite events_bind. cbn [GenM.yield trace result final events map fst List.app].
  change (map fst (trace ?o)) with (events o).
  rewrite events_bind, Hres, Hev.
  cbn [GenM.yield trace result final events map fst List.app].
  cbn [deltas flat_map]. fold (deltas (map (TextMessageContentEvent id) ds ++ [TextMessageEndEvent id])).
  rewrite deltas_app, deltas_contents. cbn [deltas flat_map List.app].
  rewrite app_nil_r. split; [reflexivity | exact Hjoin].
Qed.

(** A call of [processPrompt] returns, whatever the state it is made in:
    the generator never throws to its consumer. *)
Lemma processPrompt_returns (prompt : string) (s : State App) :
  result (processPrompt env this prompt s) = inl tt.
Proof.
  destruct (isProcessing s) eqn:Hflag.
  - now rewrite processPrompt_busy.
  - rewrite (processPrompt_accepted env this prompt s Hflag). cbn zeta. cbn [result].
    rewrite result_tryCatch.
    destruct (result (resolve this prompt (setProcessing true s))) as [toolCalls|e] eqn:Hres.
    + destruct (tryBlock_resolved env this prompt _ Hres) as (ex & _ & _ & Hr & _).
      now rewrite Hr.
    + destruct (tryBlock_resolver_throws env this prompt _ Hres) as [_ Hr].
      rewrite Hr. reflexivity.
Qed.

(** The events of an accepted call whose resolver returns, with the text
    message spelled out. *)
Lemma processPrompt_events (prompt : string) (s : State App) (toolCalls : list ToolCall) :
  isProcessing s = false ->
  result (resolve this prompt (setProcessing true s)) = inl toolCalls ->
  exists blocks ds,
    events (processPrompt env this prompt s)
    = started env
      :: blocks
      ++ (TextMessageStartEvent (responseMessageId env) "assistant"
          :: map (TextMessageContentEvent (responseMessageId env)) ds
          ++ [TextMessageEndEvent (responseMessageId env)])
      ++ [finished env "completed"]
    /\ Forall (fun e => isToolEvent e = true) blocks.
Proof.
  intros Hidle Hres. rewrite (processPrompt_accepted env this prompt s Hidle). cbn zeta.
  change (events (mkOut ?t ?r ?f)) with (map fst t).
  change (map fst (trace ?o)) with (events o).
  rewrite events_tryCatch.
  destruct (tryBlock_resolved env this prompt _ Hres) as (ex & Hex & Hev & Hr & _).
  cbn zeta in Hev. rewrite Hev, Hr, app_nil_r.
  set (s1 := final (resolve this prompt (setProcessing true s))) in *.
  set (s2 := final (toolLoop env this toolCalls 0 [] s1)) in *.
  destruct (streamResponse_run prompt ex (runId env) s2) as [Hsr _]. cbn zeta in Hsr.
  rewrite Hsr. eexists; eexists. split; [reflexivity|].
  pose proof (avoids_toolLoop env this (fun e => negb (isToolEvent e)) toolCalls 0 []) as H.
  eapply Forall_impl; [|apply H].
  - cbn. intros e He. now apply negb_false_iff in He.
  - intros e He. now rewrite He.
Qed.
End KitResponse.

(** X7.  The text message of the starter kit.  [streamResponse] emits the
    start event of a message, content events and its end event, all with
    the same message id, and the deltas put together are: without an
    executed tool the no-tools response; in keyword mode the simple
    response; in the remote mode the response of
    [generateIntelligentResponse] itself when it is a string - cutting it
    at the spaces and streaming the pieces loses nothing - and the error
    response when that call throws or gives a value that is not a
    string. *)
Theorem streamed_text_is_the_response
        (App : Type) (env : Env) (this : StarterKit.AgentClient.t App)
        (prompt : string) (executed : list StarterKit.AgentClient.Executed) (rid : string)
        (s : StarterKit.AgentClient.State App) :
  let evs := events (StarterKit.AgentClient.streamResponse env this prompt executed rid s) in
  let llm := StarterKit.AgentClient.llmClient this in
  evs = TextMessageStartEvent (responseMessageId env) "assistant"
        :: map (TextMessageContentEvent (responseMessageId env)) (deltas evs)
        ++ [TextMessageEndEvent (responseMessageId env)]
  /\ join EmptyString (deltas evs)
     = match executed with
       | [] => StarterKit.AgentClient.generateNoToolsResponse prompt
       | _ =>
           if StarterKit.AgentClient.useRealLLM llm then
             match fst (StarterKit.AgentClient.generateIntelligentResponse
                          llm prompt (map (@StarterKit.AgentClient.call) executed)
                          (fetched (StarterKit.AgentClient.world s))) with
             | inl (Some (JStr response)) => response
             | _ => StarterKit.AgentClient.errorResponse
             end
           else StarterKit.AgentClient.generateSimpleResponse env executed
       end.
Proof.
  cbn zeta. destruct (streamResponse_run env this prompt executed rid s) as [Hev Hjoin].
  cbn zeta in Hev, Hjoin. split; [exact Hev|]. rewrite Hjoin. unfold kitResponseText.
  destruct executed as [|ex rest]; [reflexivity|]. cbn [length Nat.ltb Nat.leb].
  destruct (StarterKit.AgentClient.useRealLLM (StarterKit.AgentClient.llmClient this));
    [|reflexivity].
  unfold onNet, AsyncM.zoom.
  destruct (StarterKit.AgentClient.generateIntelligentResponse _ _ _ _) as [r log].
  reflexivity.
Qed.

(** X8.  The handler of the input of the starter kit, run to its end.  A
    blank input changes nothing.  While the agent is busy the handler
    shows an alert and changes nothing else: no message is added and no
    run is started.  Otherwise the input is cleared, the run of
    [processPrompt] on the trimmed input takes place, the panel of the
    events holds the events of the run in order with no message left
    open, the agent is idle again, and the chat grows by the user message
    followed, when the resolver returned, by exactly one agent message:
    the deltas of the run put together; when the resolver threw, no agent
    message is added.  The [catch] block of the handler is never
    entered. *)
Theorem handleUserInput_outcome
        (App : Type) (env : Env) (agentClient : StarterKit.AgentClient.t App)
        (page : KitUI.Page App) :
  let prompt := trim (KitUI.userInput page) in
  let after := KitUI.handleUserInput env agentClient page in
  let run := StarterKit.AgentClient.processPrompt env agentClient prompt (KitUI.agent page) in
  if String.eqb prompt EmptyString then after = page
  else if StarterKit.AgentClient.isAgentBusy (KitUI.agent page) then
    after = KitUI.mkPage (KitUI.userInput page) (KitUI.alerts page ++ [KitUI.busyAlert])
                         (KitUI.chatUI page) (KitUI.agentUI page) (KitUI.agent page)
  else
    KitUI.userInput after = EmptyString
    /\ KitUI.alerts after = KitUI.alerts page
    /\ KitUI.agent after = final run
    /\ StarterKit.AgentClient.isAgentBusy (KitUI.agent after) = false
    /\ KitUI.AgentUI.getEventHistory (KitUI.agentUI after) = events run
    /\ KitUI.AgentUI.currentMessage (KitUI.agentUI after) = None
    /\ KitUI.chatUI after
       = KitUI.chatUI page
         ++ KitUI.ChatUI.mkMessage "user" prompt (Date_now env)
         :: match result (StarterKit.AgentClient.resolve agentClient prompt
                            (StarterKit.AgentClient.setProcessing true (KitUI.agent page))) with
            | inl _ => [KitUI.ChatUI.mkMessage "agent" (join EmptyString (deltas (events run)))
                                               (Date_now env)]
            | inr _ => []
            end.
Proof.
  cbn zeta. unfold KitUI.handleUserInput.
  destruct (String.eqb (trim (KitUI.userInput page)) EmptyString); [reflexivity|].
  unfold StarterKit.AgentClient.isAgentBusy.
  destruct (StarterKit.AgentClient.isProcessing (KitUI.agent page)) eqn:Hidle; [reflexivity|].
  set (prompt := trim (KitUI.userInput page)).
  rewrite (processPrompt_returns env agentClient prompt (KitUI.agent page)).
  destruct (processPrompt_flag env agentClient prompt (KitUI.agent page) Hidle) as [_ Hflag].
  set (chat := KitUI.ChatUI.addUserMessage env prompt (KitUI.chatUI page)).
  assert (Hrender :
    KitUI.AgentUI.renderAll (KitUI.onMessageComplete env)
      (events (StarterKit.AgentClient.processPrompt env agentClient prompt (KitUI.agent page)))
      (KitUI.AgentUI.clear (KitUI.agentUI page)) chat
    = (KitUI.AgentUI.mk
         (events (StarterKit.AgentClient.processPrompt env agentClient prompt (KitUI.agent page)))
         None
         (join EmptyString
            (deltas (events (StarterKit.AgentClient.processPrompt env agentClient prompt
                                                                  (KitUI.agent page))))),
       match result (StarterKit.AgentClient.resolve agentClient prompt
                       (StarterKit.AgentClient.setProcessing true (KitUI.agent page))) with
       | inl _ =>
           KitUI.ChatUI.addAgentMessage env
             (join EmptyString
                (deltas (events (StarterKit.AgentClient.processPrompt env agentClient prompt
                                                                      (KitUI.agent page)))))
             chat
       | inr _ => chat
       end)).
  { destruct (result (StarterKit.AgentClient.resolve agentClient prompt
                        (StarterKit.AgentClient.setProcessing true (KitUI.agent page))))
      as [toolCalls|e] eqn:Hres.
    - destruct (processPrompt_events env agentClient prompt (KitUI.agent page) Hidle Hres)
        as (blocks & ds & Hev & Hblocks).
      rewrite Hev.
      assert (Hquiet : Forall (fun e => isText e = false)
                              (StarterKit.AgentClient.started env :: blocks)).
      { constructor; [reflexivity|]. eapply Forall_impl; [|exact Hblocks].
        intros e He. now destruct e. }
      set (msg := TextMessageStartEvent (responseMessageId env) "assistant"
                  :: map (TextMessageContentEvent (responseMessageId env)) ds
                  ++ [TextMessageEndEvent (responseMessageId env)]).
      change (StarterKit.AgentClient.started env :: blocks ++ ?l)
        with ((StarterKit.AgentClient.started env :: blocks) ++ l).
      assert (Hd : deltas ((StarterKit.AgentClient.started env :: blocks)
                           ++ msg ++ [StarterKit.AgentClient.finished env "completed"]) = ds).
      { rewrite deltas_app, (deltas_quiet Hquiet), deltas_app. subst msg.
        change (TextMessageStartEvent ?i ?r :: ?l ++ ?l') with ([TextMessageStartEvent i r] ++ l ++ l').
        rewrite !deltas_app, deltas_contents. cbn [deltas flat_map List.app].
        now rewrite !app_nil_r. }
      rewrite Hd.
      rewrite kit_renderAll_app, (kit_renderAll_quiet _ Hquiet). cbn [fst snd]. subst msg.
      rewrite kit_renderAll_app.
      rewrite (kit_renderAll_message (KitUI.onMessageComplete env) (responseMessageId env)
                                     "assistant" ds).
      cbn [fst snd KitUI.AgentUI.renderAll KitUI.onMessageComplete].
      unfold KitUI.AgentUI.renderEvent.
      cbn [KitUI.AgentUI.clear KitUI.AgentUI.events KitUI.AgentUI.currentMessage
           KitUI.AgentUI.messageBuffer StarterKit.AgentClient.finished List.app].
      repeat (progress (rewrite <- ?app_assoc; cbn [List.app])). reflexivity.
    - rewrite (processPrompt_resolver_throws env agentClient prompt (KitUI.agent page) Hidle Hres).
      reflexivity. }
  rewrite Hrender.
  cbn [KitUI.userInput KitUI.alerts KitUI.agent KitUI.agentUI KitUI.chatUI
       KitUI.AgentUI.getEventHistory KitUI.AgentUI.events KitUI.AgentUI.currentMessage].
  repeat split; try assumption.
  subst chat. unfold KitUI.ChatUI.addUserMessage, KitUI.ChatUI.addAgentMessage.
  destruct (result (StarterKit.AgentClient.resolve agentClient prompt
                      (StarterKit.AgentClient.setProcessing true (KitUI.agent page))));
    rewrite <- ?app_assoc; reflexivity.
Qed.

(** ** What a run sends over the network *)

Section Sending.
Context {S : Type}.
Variable log : S -> list FetchRequest.
Variable P : FetchRequest -> Prop.

Lemma sends_nothing {A} (m : Gen S A) :
  (forall s, log (final (m s)) = log s) -> Sends log P 0 m.
Proof. intros H s. exists []. rewrite H, app_nil_r. repeat split; constructor. Qed.

Lemma sends_ret {A} (a : A) : Sends log P 0 (GenM.ret (S := S) a).
Proof. now apply sends_nothing. Qed.

Lemma sends_yield (e : Event) : Sends log P 0 (GenM.yield (S := S) e).
Proof. now apply sends_nothing. Qed.

Lemma sends_more {A} (n n' : nat) (m : Gen S A) :
  n <= n' -> Sends log P n m -> Sends log P n' m.
Proof.
  intros Hle H s. destruct (H s) as (new & Hlog & Hlen & HP).
  exists new. repeat split; [exact Hlog | lia | exact HP].
Qed.

Lemma sends_bind {A B} (n1 n2 : nat) (m : Gen S A) (f : A -> Gen S B) :
  Sends log P n1 m -> (forall a, Sends log P n2 (f a)) -> Sends log P (n1 + n2) (GenM.bind m f).
Proof.
  intros Hm Hf s. rewrite final_bind. destruct (Hm s) as (new1 & Hlog1 & Hlen1 & HP1).
  destruct (result (m s)) as [a|e].
  - destruct (Hf a (final (m s))) as (new2 & Hlog2 & Hlen2 & HP2).
    exists (new1 ++ new2). rewrite Hlog2, Hlog1, app_assoc, length_app.
    repeat split; [lia | now apply Forall_app].
  - exists new1. repeat split; [exact Hlog1 | lia | exact HP1].
Qed.

Lemma sends_tryCatch {A} (n1 n2 : nat) (m : Gen S A) (h : Thrown -> Gen S A) :
  Sends log P n1 m -> (forall e, Sends log P n2 (h e)) ->
  Sends log P (n1 + n2) (GenM.tryCatch m h).
Proof.
  intros Hm Hh s. rewrite final_tryCatch. destruct (Hm s) as (new1 & Hlog1 & Hlen1 & HP1).
  destruct (result (m s)) as [a|e].
  - exists new1. repeat split; [exact Hlog1 | lia | exact HP1].
  - destruct (Hh e (final (m s))) as (new2 & Hlog2 & Hlen2 & HP2).
    exists (new1 ++ new2). rewrite Hlog2, Hlog1, app_assoc, length_app.
    repeat split; [lia | now apply Forall_app].
Qed.

Lemma sends_tryFinally {A} (n1 n2 : nat) (m : Gen S A) (fin : Gen S unit) :
  Sends log P n1 m -> Sends log P n2 fin -> Sends log P (n1 + n2) (GenM.tryFinally m fin).
Proof.
  intros Hm Hf s. unfold GenM.tryFinally. cbn [final].
  destruct (Hm s) as (new1 & Hlog1 & Hlen1 & HP1).
  destruct (Hf (final (m s))) as (new2 & Hlog2 & Hlen2 & HP2).
  exists (new1 ++ new2). rewrite Hlog2, Hlog1, app_assoc, length_app.
  repeat split; [lia | now apply Forall_app].
Qed.

Lemma sends_if {A} (n : nat) (b : bool) (m1 m2 : Gen S A) :
  Sends log P n m1 -> Sends log P n m2 -> Sends log P n (if b then m1 else m2).
Proof. now destruct b. Qed.

(** [await m] for an async function on a component that holds the
    log. *)
Lemma sends_await {Y A} (logY : Y -> list FetchRequest) (get : S -> Y) (set : Y -> S -> S)
      (n : nat) (m : Async Y A) :
  (forall s, log s = logY (get s)) -> (forall y s, log (set y s) = logY y) ->
  AsyncSends logY P n m -> Sends log P n (GenM.await get set m).
Proof.
  intros Hget Hset H s. unfold GenM.await. destruct (H (get s)) as (new & Hlog & Hlen & HP).
  destruct (m (get s)) as [r y]. cbn [snd final] in *.
  exists new. rewrite Hset, Hget. now repeat split.
Qed.
End Sending.

Section AsyncSending.
Context {X : Type}.
Variable log : X -> list FetchRequest.
Variable P : FetchRequest -> Prop.

Lemma asyncSends_nothing {A} (m : Async X A) :
  (forall x, log (snd (m x)) = log x) -> AsyncSends log P 0 m.
Proof. intros H x. exists []. rewrite H, app_nil_r. repeat split; constructor. Qed.

Lemma asyncSends_ret {A} (a : A) : AsyncSends log P 0 (AsyncM.ret a).
Proof. now apply asyncSends_nothing. Qed.

Lemma asyncSends_lift {A} (r : A + Thrown) : AsyncSends log P 0 (AsyncM.lift r).
Proof. now apply asyncSends_nothing. Qed.

Lemma asyncSends_throw {A} (e : Thrown) : AsyncSends log P 0 (AsyncM.throw (A := A) e).
Proof. now apply asyncSends_nothing. Qed.

Lemma asyncSends_more {A} (n n' : nat) (m : Async X A) :
  n <= n' -> AsyncSends log P n m -> AsyncSends log P n' m.
Proof.
  intros Hle H x. destruct (H x) as (new & Hlog & Hlen & HP).
  exists new. repeat split; [exact Hlog | lia | exact HP].
Qed.

Lemma asyncSends_bind {A B} (n1 n2 : nat) (m : Async X A) (f : A -> Async X B) :
  AsyncSends log P n1 m -> (forall a, AsyncSends log P n2 (f a)) ->
  AsyncSends log P (n1 + n2) (AsyncM.bind m f).
Proof.
  intros Hm Hf x. unfold AsyncM.bind. destruct (Hm x) as (new1 & Hlog1 & Hlen1 & HP1).
  destruct (m x) as [[a|e] x1]; cbn [snd] in *.
  - destruct (Hf a x1) as (new2 & Hlog2 & Hlen2 & HP2).
    exists (new1 ++ new2). rewrite Hlog2, Hlog1, app_assoc, length_app.
    repeat split; [lia | now apply Forall_app].
  - exists new1. repeat split; [exact Hlog1 | lia | exact HP1].
Qed.

Lemma asyncSends_tryCatch {A} (n1 n2 : nat) (m : Async X A) (h : Thrown -> Async X A) :
  AsyncSends log P n1 m -> (forall e, AsyncSends log P n2 (h e)) ->
  AsyncSends log P (n1 + n2) (AsyncM.tryCatch m h).
Proof.
  intros Hm Hh x. unfold AsyncM.tryCatch. destruct (Hm x) as (new1 & Hlog1 & Hlen1 & HP1).
  destruct (m x) as [[a|e] x1]; cbn [snd] in *.
  - exists new1. repeat split; [exact Hlog1 | lia | exact HP1].
  - destruct (Hh e x1) as (new2 & Hlog2 & Hlen2 & HP2).
    exists (new1 ++ new2). rewrite Hlog2, Hlog1, app_assoc, length_app.
    repeat split; [lia | now apply Forall_app].
Qed.

Lemma asyncSends_if {A} (n : nat) (b : bool) (m1 m2 : Async X A) :
  AsyncSends log P n m1 -> AsyncSends log P n m2 -> AsyncSends log P n (if b then m1 else m2).
Proof. now destruct b. Qed.
End AsyncSending.

Section WorldSending.
Context {App : Type}.
Variable env : Env.
Variable P : FetchRequest -> Prop.

Lemma asyncSends_doFetch (req : FetchRequest) :
  P req -> AsyncSends (fun l => l) P 1 (doFetch env req).
Proof. intros H l. exists [req]. cbn. repeat split; [lia | now constructor]. Qed.

Lemma asyncSends_onNet {A} (n : nat) (m : Async (list FetchRequest) A) :
  AsyncSends (fun l => l) P n m -> AsyncSends (@fetched App) P n (onNet m).
Proof.
  intros H w. unfold onNet, AsyncM.zoom. destruct (H (fetched w)) as (new & Hlog & Hlen & HP).
  destruct (m (fetched w)) as [r l]. cbn [snd fetched] in *. exists new. now repeat split.
Qed.

Lemma asyncSends_invoke (tool : Tool App) (args : JSValue) :
  AsyncSends (@fetched App) P 0 (invoke tool args).
Proof.
  apply asyncSends_nothing. intros w. unfold invoke. now destruct (execute tool args (app w)).
Qed.
End WorldSending.

Ltac async_sends :=
  repeat first
    [ apply asyncSends_ret | apply asyncSends_lift | apply asyncSends_throw
    | apply asyncSends_if
    | match goal with |- forall _, _ => intro end ].

(** The number of requests a client with the given fields can send in
    one call. *)
Section ClientsSend.
Context {App : Type}.
Variable env : Env.

Lemma kit_getToolCalls_sends (c : StarterKit.LLMClient.t App) (prompt : string) :
  AsyncSends (fun l => l) (toCompletions (StarterKit.LLMClient.apiKey c))
             (if keyConfigured (StarterKit.LLMClient.useRealLLM c) (StarterKit.LLMClient.apiKey c)
              then 1 else 0)
             (StarterKit.LLMClient.getToolCalls env c prompt).
Proof.
  unfold StarterKit.LLMClient.getToolCalls.
  destruct (keyConfigured _ _); [|apply asyncSends_ret].
  unfold StarterKit.LLMClient.getToolCallsFromOpenAI.
  apply (asyncSends_tryCatch (n1 := 1) (n2 := 0)); [|intros e; apply asyncSends_ret].
  unfold StarterKit.LLMClient.requestToolCalls. cbn zeta.
  apply (asyncSends_bind (n1 := 1) (n2 := 0)); [apply asyncSends_doFetch; now split|].
  intros [e|ok st stt txt js]; [apply asyncSends_throw|].
  apply (asyncSends_bind (n1 := 0) (n2 := 0)).
  - destruct (negb ok); [|apply asyncSends_ret].
    apply (asyncSends_bind (n1 := 0) (n2 := 0)); async_sends.
  - intros _. apply (asyncSends_bind (n1 := 0) (n2 := 0)); async_sends.
Qed.

Lemma kit_generateIntelligentResponse_sends (c : StarterKit.LLMClient.t App) (prompt : string)
      (toolCalls : list ToolCall) :
  AsyncSends (fun l => l) (toCompletions (StarterKit.LLMClient.apiKey c))
             (if keyConfigured (StarterKit.LLMClient.useRealLLM c) (StarterKit.LLMClient.apiKey c)
              then 1 else 0)
             (StarterKit.LLMClient.generateIntelligentResponse env c prompt toolCalls).
Proof.
  unfold StarterKit.LLMClient.generateIntelligentResponse.
  destruct (keyConfigured _ _); cbn [negb]; [|apply asyncSends_ret].
  apply (asyncSends_tryCatch (n1 := 1) (n2 := 0)); [|intros e; apply asyncSends_ret].
  apply (asyncSends_bind (n1 := 1) (n2 := 0)); [apply asyncSends_doFetch; now split|].
  intros [e|ok st stt txt js]; [apply asyncSends_throw|].
  destruct ok; [|apply asyncSends_throw].
  apply (asyncSends_bind (n1 := 0) (n2 := 0)); async_sends.
Qed.

Lemma demo_getToolCalls_sends (c : Demo.LLMClient.t App) (prompt : string) :
  AsyncSends (fun l => l) (toCompletions (Demo.LLMClient.apiKey c))
             (if keyConfigured (Demo.LLMClient.useRealLLM c) (Demo.LLMClient.apiKey c)
              then 1 else 0)
             (Demo.LLMClient.getToolCalls env c prompt).
Proof.
  unfold Demo.LLMClient.getToolCalls.
  destruct (keyConfigured _ _); [|apply asyncSends_ret].
  unfold Demo.LLMClient.getToolCallsFromOpenAI.
  apply (asyncSends_tryCatch (n1 := 1) (n2 := 0)); [|intros e; apply asyncSends_ret].
  unfold Demo.LLMClient.requestToolCalls. cbn zeta.
  apply (asyncSends_bind (n1 := 1) (n2 := 0)); [apply asyncSends_doFetch; now split|].
  intros [e|ok st stt txt js]; [apply asyncSends_throw|].
  apply (asyncSends_bind (n1 := 0) (n2 := 0)).
  - destruct (negb ok); async_sends.
  - intros _. apply (asyncSends_bind (n1 := 0) (n2 := 0)); async_sends.
Qed.
End ClientsSend.

(** *** The starter kit *)

Section KitSends.
Import StarterKit.AgentClient.
Context {App : Type}.
Variable env : Env.
Variable this : StarterKit.AgentClient.t App.
Variable P : FetchRequest -> Prop.

Local Abbreviation log := (fun s : State App => fetched (world s)).

Lemma kit_sends_awaitWorld {A} (n : nat) (m : Async (World App) A) :
  AsyncSends (@fetched App) P n m -> Sends log P n (awaitWorld m).
Proof.
  intros H. unfold awaitWorld.
  apply sends_await with (logY := @fetched App); [reflexivity | reflexivity | exact H].
Qed.

Lemma kit_sends_streamWords (id : string) (words : list string) (first : bool) :
  Sends log P 0 (streamWords (App := App) id first words).
Proof.
  apply sends_nothing. intros s.
  destruct (streamWords_run (App := App) id words first s) as (_ & _ & _ & Hfin).
  cbn zeta in Hfin. now rewrite Hfin.
Qed.

Lemma kit_sends_toolLoop (calls : list ToolCall) (i : nat) (executed : list Executed) :
  Sends log P 0 (toolLoop env this calls i executed).
Proof.
  revert i executed; induction calls as [|c rest IH]; intros i executed; cbn [toolLoop].
  - apply sends_ret.
  - destruct (findTool (tools this) (call_name c)) as [tool|]; [|apply IH]. cbn zeta.
    apply (sends_bind (n1 := 0) (n2 := 0)); [apply sends_yield | intros _].
    apply (sends_bind (n1 := 0) (n2 := 0));
      [apply sends_if; [apply sends_yield | apply sends_ret] | intros _].
    apply (sends_bind (n1 := 0) (n2 := 0)); [|intros executed'; apply IH].
    apply (sends_tryCatch (n1 := 0) (n2 := 0)).
    + apply (sends_bind (n1 := 0) (n2 := 0));
        [apply kit_sends_awaitWorld, asyncSends_invoke | intros r].
      apply (sends_bind (n1 := 0) (n2 := 0)); [apply sends_yield | intros _].
      apply (sends_bind (n1 := 0) (n2 := 0)); [apply sends_yield | intros _; apply sends_ret].
    + intros e.
      apply (sends_bind (n1 := 0) (n2 := 0)); [apply sends_yield | intros _].
      apply (sends_bind (n1 := 0) (n2 := 0)); [apply sends_yield | intros _; apply sends_ret].
Qed.

Lemma kit_sends_streamResponse (n : nat) (prompt : string) (executed : list Executed)
      (rid : string) :
  (forall calls, AsyncSends (fun l => l) P n
                            (generateIntelligentResponse (llmClient this) prompt calls)) ->
  Sends log P n (streamResponse env this prompt executed rid).
Proof.
  intros Hgen. unfold streamResponse. cbn zeta.
  apply (sends_bind (n1 := 0) (n2 := n)); [apply sends_yield | intros _].
  apply (sends_more (n := n + 0)); [lia|].
  apply (sends_bind (n1 := n) (n2 := 0)); [|intros _; apply sends_yield].
  apply (sends_more (n := n + 0)); [lia|].
  apply (sends_tryCatch (n1 := n) (n2 := 0)); [|intros e; apply sends_yield].
  apply sends_if; [apply sends_if|]; try (apply (sends_more (n := 0)); [lia | apply sends_yield]).
  apply (sends_more (n := n + 0)); [lia|].
  apply (sends_bind (n1 := n) (n2 := 0));
    [apply kit_sends_awaitWorld, asyncSends_onNet, Hgen | intros response].
  apply (sends_bind (n1 := 0) (n2 := 0)); [|intros words; apply kit_sends_streamWords].
  apply sends_nothing. intros s. now rewrite await_lift_run.
Qed.

Lemma kit_sends_processPrompt (n : nat) (prompt : string) :
  AsyncSends (fun l => l) P n (getToolCalls (llmClient this) prompt) ->
  (forall calls, AsyncSends (fun l => l) P n
                            (generateIntelligentResponse (llmClient this) prompt calls)) ->
  Sends log P (n + n) (processPrompt env this prompt).
Proof.
  intros Hres Hgen. unfold processPrompt.
  apply (sends_bind (n1 := 0) (n2 := n + n)); [now apply sends_nothing | intros busy].
  destruct busy; [apply (sends_more (n := 0)); [lia | apply sends_yield]|].
  apply (sends_bind (n1 := 0) (n2 := n + n)); [now apply sends_nothing | intros _].
  apply (sends_more (n := n + n + 0)); [lia|].
  apply (sends_tryFinally (n1 := n + n) (n2 := 0)); [|now apply sends_nothing].
  apply (sends_more (n := n + n + 0)); [lia|].
  apply (sends_tryCatch (n1 := n + n) (n2 := 0)).
  - unfold tryBlock.
    apply (sends_bind (n1 := 0) (n2 := n + n)); [apply sends_yield | intros _].
    apply (sends_bind (n1 := n) (n2 := n));
      [apply kit_sends_awaitWorld, asyncSends_onNet, Hres | intros toolCalls].
    apply (sends_bind (n1 := 0) (n2 := n)); [apply kit_sends_toolLoop | intros executed].
    apply (sends_more (n := n + 0)); [lia|].
    apply (sends_bind (n1 := n) (n2 := 0));
      [now apply kit_sends_streamResponse | intros _; apply sends_yield].
  - intros e. unfold catchBlock.
    apply (sends_bind (n1 := 0) (n2 := 0)); [apply sends_yield | intros _; apply sends_yield].
Qed.
End KitSends.

(** X9.  What a call of [processPrompt] of the starter kit sends over the
    network, for an agent that holds an [LLMClient] with any fields, in
    any state of the page and for any behaviour of the tools and of the
    remote service: the requests it adds to those sent before are at most
    two, each goes to the completions address of the service and carries
    the configured key; and without a key configured - none set, the
    empty one, or the keyword mode - it sends nothing at all. *)
Theorem kit_run_network_use
        (App : Type) (env : Env) (c : StarterKit.LLMClient.t App) (tools : list (Tool App))
        (prompt : string) (s : StarterKit.AgentClient.State App) :
  let this := StarterKit.AgentClient.mk tools (StarterKit.AgentClient.ofLLMClient env c) in
  let run := StarterKit.AgentClient.processPrompt env this prompt s in
  exists new,
    fetched (StarterKit.AgentClient.world (final run))
    = fetched (StarterKit.AgentClient.world s) ++ new
    /\ length new <= (if keyConfigured (StarterKit.LLMClient.useRealLLM c)
                                       (StarterKit.LLMClient.apiKey c)
                      then 2 else 0)
    /\ Forall (fun req => url req = StarterKit.LLMClient.completionsUrl
                          /\ bearer req = StarterKit.LLMClient.apiKey c) new.
Proof.
  cbn zeta.
  set (n := if keyConfigured (StarterKit.LLMClient.useRealLLM c) (StarterKit.LLMClient.apiKey c)
            then 1 else 0).
  destruct (kit_sends_processPrompt env
              (StarterKit.AgentClient.mk tools (StarterKit.AgentClient.ofLLMClient env c))
              (P := toCompletions (StarterKit.LLMClient.apiKey c)) (n := n) prompt
              (kit_getToolCalls_sends env c prompt)
              (kit_generateIntelligentResponse_sends env c prompt) s)
    as (new & Hlog & Hlen & HP).
  exists new. split; [exact Hlog|]. split; [|exact HP].
  subst n. destruct (keyConfigured _ _); lia.
Qed.

(** *** The demo *)

Section DemoSends.
Import Demo.AgentClient.
Context {App : Type}.
Variable env : Env.
Variable this : Demo.AgentClient.t App.

Local Abbreviation P := (toCompletions (apiKey (llmClient this))).

Lemma demo_sends_awaitWorld {A} (n : nat) (m : Async (World App) A) :
  AsyncSends (@fetched App) P n m -> Sends (@fetched App) P n (awaitWorld m).
Proof.
  intros H. unfold awaitWorld.
  apply sends_await with (logY := @fetched App); [reflexivity | reflexivity | exact H].
Qed.

Lemma demo_sends_streamWords (id : string) (words : list string) (first : bool) :
  Sends (@fetched App) P 0 (streamWords (App := App) id first words).
Proof.
  revert first; induction words as [|w rest IH]; intros first; cbn [streamWords].
  - apply sends_ret.
  - apply (sends_bind (n1 := 0) (n2 := 0)); [apply sends_yield | intros _; apply IH].
Qed.

Lemma demo_sends_toolLoop (calls : list ToolCall) (i : nat) :
  Sends (@fetched App) P 0 (toolLoop env this calls i).
Proof.
  revert i; induction calls as [|c rest IH]; intros i; cbn [toolLoop].
  - apply sends_ret.
  - destruct (findTool (tools this) (call_name c)) as [tool|]; [|apply IH]. cbn zeta.
    apply (sends_bind (n1 := 0) (n2 := 0)); [apply sends_yield | intros _].
    apply (sends_bind (n1 := 0) (n2 := 0));
      [apply sends_if; [apply sends_yield | apply sends_ret] | intros _].
    apply (sends_bind (n1 := 0) (n2 := 0));
      [apply demo_sends_awaitWorld, asyncSends_invoke | intros r].
    apply (sends_bind (n1 := 0) (n2 := 0)); [apply sends_yield | intros _].
    apply (sends_bind (n1 := 0) (n2 := 0)); [apply sends_yield | intros _; apply IH].
Qed.

Lemma demo_gatherResults_sends (calls : list ToolCall) (toolResults : list JSON) :
  AsyncSends (@fetched App) P 0 (gatherResults this calls toolResults).
Proof.
  revert toolResults; induction calls as [|c rest IH]; intros toolResults; cbn [gatherResults].
  - apply asyncSends_ret.
  - destruct (findTool (tools this) (call_name c)) as [tool|]; [|apply IH].
    apply (asyncSends_bind (n1 := 0) (n2 := 0)); [apply asyncSends_invoke | intros r; apply IH].
Qed.

Lemma demo_generateIntelligentResponse_sends (prompt : string) (calls : list ToolCall) :
  AsyncSends (@fetched App) P 1 (generateIntelligentResponse env this prompt calls).
Proof.
  unfold generateIntelligentResponse.
  apply (asyncSends_tryCatch (n1 := 1) (n2 := 0)); [|intros e; apply asyncSends_ret].
  apply (asyncSends_bind (n1 := 0) (n2 := 1)); [apply demo_gatherResults_sends | intros results].
  cbn zeta.
  apply (asyncSends_bind (n1 := 1) (n2 := 0));
    [apply asyncSends_onNet, asyncSends_doFetch; now split|].
  intros [e|ok st stt txt js]; [apply asyncSends_throw|].
  apply (asyncSends_bind (n1 := 0) (n2 := 0)).
  - destruct (negb ok); async_sends.
  - intros _. apply (asyncSends_bind (n1 := 0) (n2 := 0)); [apply asyncSends_lift | intros data].
    apply (asyncSends_bind (n1 := 0) (n2 := 0)); async_sends.
Qed.

Lemma demo_sends_processPrompt (n : nat) (prompt : string) :
  AsyncSends (fun l => l) P n (getToolCalls (llmClient this) prompt) ->
  Sends (@fetched App) P (n + (if useRealLLM (llmClient this) then 1 else 0))
        (processPrompt env this prompt).
Proof.
  intros Hres. set (k := if useRealLLM (llmClient this) then 1 else 0).
  unfold processPrompt. cbn zeta.
  apply (sends_bind (n1 := 0) (n2 := n + k)); [apply sends_yield | intros _].
  apply (sends_more (n := n + k + 0)); [lia|].
  apply (sends_bind (n1 := n + k) (n2 := 0)); [|intros _; apply sends_yield].
  apply (sends_more (n := n + k + 0)); [lia|].
  apply (sends_tryCatch (n1 := n + k) (n2 := 0)); [|intros e; apply sends_yield].
  unfold tryBlock.
  apply (sends_bind (n1 := n) (n2 := k));
    [apply demo_sends_awaitWorld, asyncSends_onNet, Hres | intros toolCalls].
  apply (sends_bind (n1 := 0) (n2 := k)); [apply demo_sends_toolLoop | intros _].
  apply (sends_more (n := k + 0)); [lia|].
  apply (sends_bind (n1 := k) (n2 := 0)).
  - apply sends_if; [|apply (sends_more (n := 0)); [lia | apply sends_ret]]. cbn zeta.
    apply (sends_bind (n1 := 0) (n2 := k)); [apply sends_yield | intros _].
    apply (sends_more (n := k + 0)); [lia|].
    apply (sends_bind (n1 := k) (n2 := 0)); [|intros _; apply sends_yield].
    subst k. destruct (useRealLLM (llmClient this)); [|apply sends_yield].
    apply (sends_bind (n1 := 1) (n2 := 0));
      [apply demo_sends_awaitWorld, demo_generateIntelligentResponse_sends | intros response].
    apply (sends_bind (n1 := 0) (n2 := 0)); [|intros words; apply demo_sends_streamWords].
    apply demo_sends_awaitWorld, asyncSends_lift.
  - intros _. apply sends_if; [|apply sends_ret]. cbn zeta.
    apply (sends_bind (n1 := 0) (n2 := 0)); [apply sends_yield | intros _].
    apply (sends_bind (n1 := 0) (n2 := 0)); [apply sends_yield | intros _; apply sends_yield].
Qed.
End DemoSends.

(** X10.  What a call of [processPrompt] of the demo sends over the
    network, for an agent that holds an [LLMClient] with any fields, in
    any state of the page and for any behaviour of the tools and of the
    remote service: every request goes to the completions address and
    carries the value of [apiKey]; there is at most one for the resolver,
    sent only when a key is configured, and at most one for the response,
    sent only when [useRealLLM] is set - which [setApiKey] sets even for
    the key [null].  With [useRealLLM] not set, nothing is sent. *)
Theorem demo_run_network_use
        (App : Type) (env : Env) (c : Demo.LLMClient.t App) (tools : list (Tool App))
        (prompt : string) (w : World App) :
  let this := Demo.AgentClient.mk tools (Demo.AgentClient.ofLLMClient env c) in
  let run := Demo.AgentClient.processPrompt env this prompt w in
  exists new,
    fetched (final run) = fetched w ++ new
    /\ length new <= (if keyConfigured (Demo.LLMClient.useRealLLM c) (Demo.LLMClient.apiKey c)
                      then 1 else 0)
                     + (if Demo.LLMClient.useRealLLM c then 1 else 0)
    /\ Forall (fun req => url req = Demo.LLMClient.completionsUrl
                          /\ bearer req = Demo.LLMClient.apiKey c) new.
Proof.
  cbn zeta.
  exact (demo_sends_processPrompt env
           (Demo.AgentClient.mk tools (Demo.AgentClient.ofLLMClient env c)) prompt
           (demo_getToolCalls_sends env c prompt) w).
Qed.

(** ** The answers of the completion service *)

Section RemoteAnswers.
Variable env : Env.

(** The text that is parsed for an entry: ['{}'] for an empty argument
    text. *)
Lemma functionCall_step (nm arguments : string) (rest : list JSON) (calls : list ToolCall) :
  pushToolCalls env (functionCall nm arguments :: rest) calls
  = andThen (JSON_parse env (JStr (if String.eqb arguments EmptyString then "{}" else arguments)))
            (fun args => pushToolCalls env rest (calls ++ [mkToolCall (Some (JStr nm)) (Some args)])).
Proof.
  cbn [pushToolCalls functionCall getProp assoc String.eqb Ascii.eqb Bool.eqb andThen isString
       orElse truthyJSON].
  destruct (String.eqb arguments EmptyString); reflexivity.
Qed.

Lemma extractToolCalls_completion (toolCalls : list JSON) :
  extractToolCalls env (completion toolCalls) = pushToolCalls env toolCalls [].
Proof. reflexivity. Qed.

Lemma pushToolCalls_decoded (requested : list (string * string * JSON)) :
  Forall (fun r => JSON_parse env (JStr (if String.eqb (snd (fst r)) EmptyString
                                         then "{}" else snd (fst r)))
                   = inl (snd r)) requested ->
  forall calls,
    pushToolCalls env (map (fun r => functionCall (fst (fst r)) (snd (fst r))) requested) calls
    = inl (calls ++ map (fun r => mkToolCall (Some (JStr (fst (fst r)))) (Some (snd r))) requested).
Proof.
  induction 1 as [|[[nm arguments] parsed] rest Hparse _ IH]; intros calls.
  - cbn. now rewrite app_nil_r.
  - cbn [map fst snd] in *. rewrite functionCall_step, Hparse. cbn [andThen].
    rewrite IH, <- app_assoc. reflexivity.
Qed.

Lemma pushToolCalls_malformed (requested : list (string * string)) :
  Exists (fun r => exists e, JSON_parse env (JStr (if String.eqb (snd r) EmptyString
                                                   then "{}" else snd r)) = inr e) requested ->
  forall calls,
    exists e, pushToolCalls env (map (fun r => functionCall (fst r) (snd r)) requested) calls
              = inr e.
Proof.
  induction requested as [|[nm arguments] rest IH]; intros Hex calls.
  - inversion Hex.
  - cbn [map fst snd] in *. rewrite functionCall_step.
    destruct (JSON_parse env (JStr (if String.eqb arguments EmptyString then "{}"
                                    else arguments))) as [args|e] eqn:Hparse.
    + cbn [andThen]. apply IH. inversion Hex as [? ? [e He]|? ? Hrest]; subst.
      * cbn [snd] in He. congruence.
      * exact Hrest.
    + now exists e.
Qed.
End RemoteAnswers.

(** X11.  A remote answer that requests functions is decoded in full and
    in order.  With a key configured and a service that answers with a
    completion whose [tool_calls] are function calls, each with an
    argument text that [JSON.parse] accepts (the text ['{}'] standing in
    for an empty one), [getToolCalls] of either client returns one
    request for each entry, in the order of the answer, with the name of
    the entry and the parsed arguments. *)
Theorem remote_calls_are_decoded_in_order
        (KitApp DemoApp : Type) (env : Env)
        (kit : StarterKit.LLMClient.t KitApp) (demo : Demo.LLMClient.t DemoApp)
        (prompt : string) (log : list FetchRequest)
        (st stt : string) (txt : string + Thrown) (requested : list (string * string * JSON)) :
  let answer := completion (map (fun r => functionCall (fst (fst r)) (snd (fst r))) requested) in
  let calls := map (fun r => mkToolCall (Some (JStr (fst (fst r)))) (Some (snd r))) requested in
  keyConfigured (StarterKit.LLMClient.useRealLLM kit) (StarterKit.LLMClient.apiKey kit) = true ->
  keyConfigured (Demo.LLMClient.useRealLLM demo) (Demo.LLMClient.apiKey demo) = true ->
  (forall req, fetch env req = FetchResponse true st stt txt (inl answer)) ->
  Forall (fun r => JSON_parse env (JStr (if String.eqb (snd (fst r)) EmptyString
                                         then "{}" else snd (fst r)))
                   = inl (snd r)) requested ->
  fst (StarterKit.LLMClient.getToolCalls env kit prompt log) = inl calls
  /\ fst (Demo.LLMClient.getToolCalls env demo prompt log) = inl calls.
Proof.
  cbn zeta. intros Hkit Hdemo Hanswer Hparse.
  pose proof (pushToolCalls_decoded env Hparse []) as Hpush. cbn [List.app] in Hpush.
  unfold StarterKit.LLMClient.getToolCalls, Demo.LLMClient.getToolCalls.
  rewrite Hkit, Hdemo.
  unfold StarterKit.LLMClient.getToolCallsFromOpenAI, StarterKit.LLMClient.requestToolCalls,
    Demo.LLMClient.getToolCallsFromOpenAI, Demo.LLMClient.requestToolCalls,
    AsyncM.tryCatch, AsyncM.bind, doFetch.
  rewrite !Hanswer. cbn [negb AsyncM.ret AsyncM.lift fst].
  rewrite extractToolCalls_completion, Hpush. now split.
Qed.

(** X11 on the example page: the service requests [getPortfolio] with
    the argument text ['{}'] and then [rebalancePortfolio] with an empty
    argument text. *)
Lemma remote_calls_are_decoded_in_order_witness :
  let requested := [("getPortfolio", "{}", JObj []); ("rebalancePortfolio", EmptyString, JObj [])] in
  let answer := completion (map (fun r => functionCall (fst (fst r)) (snd (fst r))) requested) in
  let env := Page.env (fun _ => FetchResponse true "200" "OK" (inr (JsError "body used"))
                                              (inl answer)) in
  keyConfigured (StarterKit.LLMClient.useRealLLM Page.keyedKitLLM)
                (StarterKit.LLMClient.apiKey Page.keyedKitLLM) = true
  /\ keyConfigured (Demo.LLMClient.useRealLLM Page.keyedDemoLLM)
                   (Demo.LLMClient.apiKey Page.keyedDemoLLM) = true
  /\ (forall req, fetch env req
                  = FetchResponse true "200" "OK" (inr (JsError "body used")) (inl answer))
  /\ Forall (fun r => JSON_parse env (JStr (if String.eqb (snd (fst r)) EmptyString
                                            then "{}" else snd (fst r)))
                      = inl (snd r)) requested
  /\ fst (StarterKit.LLMClient.getToolCalls env Page.keyedKitLLM "what do I own?" [])
     = inl [mkToolCall (Some (JStr "getPortfolio")) (Some (JObj []));
            mkToolCall (Some (JStr "rebalancePortfolio")) (Some (JObj []))]
  /\ fst (Demo.LLMClient.getToolCalls env Page.keyedDemoLLM "what do I own?" [])
     = inl [mkToolCall (Some (JStr "getPortfolio")) (Some (JObj []));
            mkToolCall (Some (JStr "rebalancePortfolio")) (Some (JObj []))].
Proof.
  cbn zeta. split; [reflexivity|]. split; [reflexivity|].
  split; [intros req; reflexivity|]. split; [repeat constructor|].
  apply (@remote_calls_are_decoded_in_order _ _ _ Page.keyedKitLLM Page.keyedDemoLLM
           "what do I own?" [] "200" "OK" (inr (JsError "body used"))
           [("getPortfolio", "{}", JObj []); ("rebalancePortfolio", EmptyString, JObj [])]).
  - reflexivity.
  - reflexivity.
  - intros req. reflexivity.
  - repeat constructor.
Defined.

(** X12.  One argument text that [JSON.parse] rejects discards the whole
    remote answer.  With a key configured and a service that answers
    with a completion whose [tool_calls] are function calls, one of which
    has an argument text that does not parse, [getToolCalls] of either
    client returns the list of the keyword rules for the prompt: none of
    the requested calls is kept, the well-formed ones included, and
    nothing is thrown to the caller. *)
Theorem malformed_arguments_discard_the_answer
        (KitApp DemoApp : Type) (env : Env)
        (kit : StarterKit.LLMClient.t KitApp) (demo : Demo.LLMClient.t DemoApp)
        (prompt : string) (log : list FetchRequest)
        (st stt : string) (txt : string + Thrown) (requested : list (string * string)) :
  let answer := completion (map (fun r => functionCall (fst r) (snd r)) requested) in
  keyConfigured (StarterKit.LLMClient.useRealLLM kit) (StarterKit.LLMClient.apiKey kit) = true ->
  keyConfigured (Demo.LLMClient.useRealLLM demo) (Demo.LLMClient.apiKey demo) = true ->
  (forall req, fetch env req = FetchResponse true st stt txt (inl answer)) ->
  Exists (fun r => exists e, JSON_parse env (JStr (if String.eqb (snd r) EmptyString
                                                   then "{}" else snd r)) = inr e) requested ->
  fst (StarterKit.LLMClient.getToolCalls env kit prompt log)
  = inl (StarterKit.LLMClient.keywordCalls prompt)
  /\ fst (Demo.LLMClient.getToolCalls env demo prompt log)
     = inl (Demo.LLMClient.keywordCalls prompt).
Proof.
  cbn zeta. intros Hkit Hdemo Hanswer Hbad.
  destruct (pushToolCalls_malformed env Hbad []) as [e He].
  split.
  - apply (kit_any_error_falls_back env kit prompt log (e := e) Hkit).
    unfold StarterKit.LLMClient.requestToolCalls, AsyncM.bind, doFetch.
    rewrite Hanswer. cbn [negb AsyncM.ret AsyncM.lift fst].
    now rewrite extractToolCalls_completion, He.
  - apply (demo_any_error_falls_back env demo prompt log (e := e) Hdemo).
    unfold Demo.LLMClient.requestToolCalls, AsyncM.bind, doFetch.
    rewrite Hanswer. cbn [negb AsyncM.ret AsyncM.lift fst].
    now rewrite extractToolCalls_completion, He.
Qed.

(** X12 on the example page: the service requests [getPortfolio] with
    the argument text ['{}'] and [rebalancePortfolio] with a text that is
    cut off; the prompt matches the rule for showing the portfolio. *)
Lemma malformed_arguments_discard_the_answer_witness :
  let requested := [("getPortfolio", "{}"); ("rebalancePortfolio", "{strategy")] in
  let answer := completion (map (fun r => functionCall (fst r) (snd r)) requested) in
  let env := Page.env (fun _ => FetchResponse true "200" "OK" (inr (JsError "body used"))
                                              (inl answer)) in
  keyConfigured (StarterKit.LLMClient.useRealLLM Page.keyedKitLLM)
                (StarterKit.LLMClient.apiKey Page.keyedKitLLM) = true
  /\ keyConfigured (Demo.LLMClient.useRealLLM Page.keyedDemoLLM)
                   (Demo.LLMClient.apiKey Page.keyedDemoLLM) = true
  /\ (forall req, fetch env req
                  = FetchResponse true "200" "OK" (inr (JsError "body used")) (inl answer))
  /\ Exists (fun r => exists e, JSON_parse env (JStr (if String.eqb (snd r) EmptyString
                                                      then "{}" else snd r)) = inr e) requested
  /\ fst (StarterKit.LLMClient.getToolCalls env Page.keyedKitLLM "show my portfolio" [])
     = inl [StarterKit.LLMClient.noArgs "getAppData"]
  /\ fst (Demo.LLMClient.getToolCalls env Page.keyedDemoLLM "show my portfolio" [])
     = inl [Demo.LLMClient.getPortfolioCall].
Proof.
  cbn zeta. split; [reflexivity|]. split; [reflexivity|].
  split; [intros req; reflexivity|].
  split; [apply Exists_cons_tl, Exists_cons_hd; eexists; reflexivity|].
  apply (@malformed_arguments_discard_the_answer _ _ _ Page.keyedKitLLM Page.keyedDemoLLM
           "show my portfolio" [] "200" "OK" (inr (JsError "body used"))
           [("getPortfolio", "{}"); ("rebalancePortfolio", "{strategy")]).
  - reflexivity.
  - reflexivity.
  - intros req. reflexivity.
  - apply Exists_cons_tl, Exists_cons_hd. eexists. reflexivity.
Defined.

(** ** The keyword rules of the demo and the tools of the portfolio *)

Section DemoKeywords.
Import Demo.LLMClient.

Lemma parseIntAcc_nonneg (digits : string) :
  forall acc, (0 <= acc)%Z -> (0 <= parseIntAcc digits acc)%Z.
Proof.
  induction digits as [|c rest IH]; intros acc Hacc; cbn [parseIntAcc]; [exact Hacc|].
  apply IH. unfold digitValue. lia.
Qed.

Lemma retirementArgs_counts (p : string) :
  exists fields, retirementArgs p = JObj fields /\ Forall isCount fields.
Proof.
  unfold retirementArgs. eexists; split; [reflexivity|].
  apply Forall_app; split.
  - destruct (matchYears p) as [digits|]; [|constructor].
    constructor; [|constructor]. split; [now left|].
    eexists; split; [reflexivity|]. now apply parseIntAcc_nonneg.
  - destruct (matchMonthly p) as [digits|]; [|constructor].
    constructor; [|constructor]. split; [now right|].
    eexists; split; [reflexivity|]. now apply parseIntAcc_nonneg.
Qed.

Lemma rebalanceStrategy_listed (p : string) : In (rebalanceStrategy p) strategies.
Proof.
  unfold rebalanceStrategy, strategies.
  destruct (_ || _); [cbn; tauto|]. destruct (_ || _); cbn; tauto.
Qed.

Section Shapes.
Variable R : ToolCall -> Prop.
Hypothesis R_getPortfolio : R getPortfolioCall.
Hypothesis R_rebalance : forall strategy, In strategy strategies -> R (rebalanceCall strategy).
Hypothesis R_retirement :
  forall fields, Forall isCount fields ->
                 R (mkToolCall (Some (JStr "getRetirementProjection")) (Some (JObj fields))).

Lemma strategyLoop_shapes (prompt lowerPrompt : string) (calls : list ToolCall) :
  Forall R calls -> Forall R (strategyLoop strategyPatterns prompt lowerPrompt calls).
Proof.
  intros H. unfold strategyPatterns. cbn [strategyLoop].
  repeat match goal with
         | |- context [if ?b then _ else _] => destruct b
         end;
    try exact H; apply Forall_app; split; try exact H;
    repeat constructor; apply R_rebalance; cbn; tauto.
Qed.

(** Every request of the keyword rules has one of the three shapes. *)
Lemma keywordCalls_shapes (prompt : string) : Forall R (keywordCalls prompt).
Proof.
  unfold keywordCalls. cbn zeta. apply strategyLoop_shapes.
  destruct (retirementArgs_counts (toLowerCase prompt)) as (fields & -> & Hfields).
  pose proof (rebalanceStrategy_listed (toLowerCase prompt)) as Hs.
  assert (Ha : In "aggressive" strategies) by (cbn; tauto).
  assert (Hc : In "conservative" strategies) by (cbn; tauto).
  repeat match goal with
         | |- Forall R (if ?b then _ else _) => destruct b
         | |- Forall R (_ ++ _) => apply Forall_app; split
         | |- Forall R (_ :: _) => constructor
         | |- Forall R [] => constructor
         | |- R getPortfolioCall => exact R_getPortfolio
         | |- R (rebalanceCall _) => apply R_rebalance; assumption
         | |- R (mkToolCall _ _) => apply R_retirement; exact Hfields
         end.
Qed.
End Shapes.
End DemoKeywords.

Section PortfolioAccepts.
Variable env : Env.
Variable numbers : Fidelity.Numbers.

Lemma getPortfolio_accepted :
  accepted (Fidelity.getTools env numbers) Demo.LLMClient.getPortfolioCall.
Proof.
  exists (Fidelity.getPortfolio env). repeat split. intros a. eexists. reflexivity.
Qed.

Lemma rebalance_accepted (strategy : string) :
  accepted (Fidelity.getTools env numbers) (Demo.LLMClient.rebalanceCall strategy).
Proof.
  exists (Fidelity.rebalancePortfolio env). repeat split. intros a. eexists. reflexivity.
Qed.

Lemma retirement_accepted (fields : list (string * JSON)) :
  accepted (Fidelity.getTools env numbers)
           (mkToolCall (Some (JStr "getRetirementProjection")) (Some (JObj fields))).
Proof.
  exists (Fidelity.getRetirementProjection env numbers). repeat split.
  intros a. eexists. reflexivity.
Qed.

Lemma keywordCalls_accepted (prompt : string) :
  Forall (accepted (Fidelity.getTools env numbers)) (Demo.LLMClient.keywordCalls prompt).
Proof.
  apply keywordCalls_shapes.
  - apply getPortfolio_accepted.
  - intros strategy _. apply rebalance_accepted.
  - intros fields _. apply retirement_accepted.
Qed.
End PortfolioAccepts.


(** ** The numbers the keyword rules of the demo read from a prompt *)

Section Regex.
Import Demo.LLMClient.
Local Open Scope string_scope.









End Regex.


(** ** The two applications *)



Section YourAppFacts.
Variable env : Env.

Lemma yourApp_getTools_list :
  YourApp.getTools env
  = [YourApp.getAppData env; YourApp.refreshData env; YourApp.analyzeData env;
     YourApp.generateReport env].
Proof. reflexivity. Qed.
End YourAppFacts.

(** X17.  The tools of [YourApp].  Each of the four tools returns for
    every argument in every state, so none of them can make a tool call
    fail.  [getAppData] changes nothing.  The three others stamp
    [lastUpdate] with the time of the call and keep [currentView];
    [refreshData] replaces the data by the two sample items and the
    others keep the data.  After [refreshData], [getAppData] reports the
    two sample items, the status [Ready] with their count, and the time
    of the refresh. *)
Theorem yourApp_tools_always_return (env : Env) :
  Forall (fun tool =>
            forall (args : JSValue) (a : YourApp.AppState),
              let after := snd (execute tool args a) in
              (exists r, fst (execute tool args a) = inl r)
              /\ YourApp.currentView after = YourApp.currentView a
              /\ YourApp.data after
                 = (if String.eqb (name tool) "refreshData" then YourApp.sampleData
                    else YourApp.data a)
              /\ (if String.eqb (name tool) "getAppData" then after = a
                  else YourApp.lastUpdate after = Some (Date_toISOString env)))
         (YourApp.getTools env)
  /\ forall (args args' : JSValue) (a : YourApp.AppState),
       fst (execute (YourApp.getAppData env) args'
                    (snd (execute (YourApp.refreshData env) args a)))
       = inl (JObj [("data", JArr YourApp.sampleData);
                    ("status", JStr ("Ready (" ++ text env (Some (JNum 2)) ++ " items loaded)")%string);
                    ("lastUpdate", JStr (Date_toISOString env));
                    ("currentView", JStr (YourApp.currentView a));
                    ("metadata", JObj [("itemCount", JNum 2);
                                       ("timestamp", JNum (Date_now env))])]).
Proof.
  split; [|reflexivity].
  rewrite yourApp_getTools_list.
  constructor; [|constructor; [|constructor; [|constructor; [|constructor]]]];
    intros args a; cbn zeta; cbn; repeat split; eexists; reflexivity.
Qed.

(** ** Whole runs in keyword mode *)

Section KitAccepted.
Import StarterKit.AgentClient.
Context {App : Type}.
Variable env : Env.
Variable this : StarterKit.AgentClient.t App.

(** The [try] statement inside the loop when the tool returns: the
    request joins the executed ones. *)
Lemma tool_attempt_returns (tool : Tool App) (call : ToolCall) (i : nat)
      (executed : list Executed) (s : State App) (value : JSON) :
  fst (invoke tool (argument call) (world s)) = inl value ->
  result (GenM.tryCatch
            (result <- awaitWorld (invoke tool (argument call));;
             GenM.yield (ToolCallEndEvent (toolCallId env i));;
             GenM.yield (ToolCallResultEvent (messageId env i) (toolCallId env i)
                                             (JSON_stringify env result));;
             GenM.ret (executed ++ [mkExecuted call result]))%gen
            (fun toolError =>
               GenM.yield (ToolCallEndEvent (toolCallId env i));;
               GenM.yield (ToolCallResultEvent (messageId env i) (toolCallId env i)
                             (JSON_stringify env (failurePayload toolError)));;
               GenM.ret executed)%gen s)
  = inl (executed ++ [mkExecuted call value]).
Proof.
  intros Hv. rewrite result_tryCatch, result_bind, awaitWorld_run.
  cbn [trace result final]. now rewrite Hv.
Qed.

(** A loop over requests that are all accepted executes every one of
    them. *)
Lemma toolLoop_accepted (calls : list ToolCall) :
  Forall (acceptedWith argument (tools this)) calls ->
  forall (i : nat) (executed : list Executed) (s : State App),
  exists more,
    result (toolLoop env this calls i executed s) = inl (executed ++ more)
    /\ map (@call) more = calls.
Proof.
  induction 1 as [|c rest (tool & Hfind & _ & Hret) _ IH]; intros i executed s.
  - exists []. cbn. now rewrite app_nil_r.
  - cbn [toolLoop]. rewrite Hfind. cbn beta zeta.
    destruct (tool_attempt env tool c i executed s) as (_ & _ & Hfin).
    cbn zeta in Hfin.
    assert (Hv : exists value, fst (invoke tool (argument c) (world s)) = inl value).
    { unfold invoke. destruct (Hret (app (world s))) as [r Hr].
      destruct (execute tool (argument c) (app (world s))) as [r' a']. cbn [fst] in *.
      now exists r. }
    destruct Hv as [value Hv].
    pose proof (tool_attempt_returns tool c i executed s Hv) as Hres.
    rewrite (bind_returned _ _ _ (a := tt)) by reflexivity.
    cbn [GenM.yield trace final result].
    rewrite (bind_returned _ _ _ (a := tt)) by now destruct (hasArguments (call_args c)).
    replace (final ((if hasArguments (call_args c)
                     then GenM.yield (ToolCallArgsEvent (toolCallId env i)
                                                        (stringifyText env (call_args c)))
                     else GenM.ret tt) s)) with s
      by now destruct (hasArguments (call_args c)).
    cbn [result].
    rewrite (bind_returned _ _ _ Hres), Hfin. cbn [result].
    destruct (IH (S i) (executed ++ [mkExecuted c value])
                 (setWorld (snd (invoke tool (argument c) (world s))) s)) as (more & Hmore & Hcalls).
    exists (mkExecuted c value :: more). rewrite Hmore, <- app_assoc. split; [reflexivity|].
    cbn [map call]. now rewrite Hcalls.
Qed.

Lemma executions_accepted (calls : list ToolCall) :
  Forall (acceptedWith argument (tools this)) calls ->
  executions this calls = map (fun c => (text env (call_name c), argument c)) calls.
Proof.
  induction 1 as [|c rest (tool & Hfind & Hname & _) _ IH]; [reflexivity|].
  cbn [executions flat_map map]. fold (executions this rest).
  rewrite Hfind, IH, Hname. reflexivity.
Qed.

(** The text of an accepted call whose resolver returns: the text of
    [kitResponseText] for the requests the loop executed. *)
Lemma processPrompt_text (prompt : string) (s : State App) (toolCalls : list ToolCall) :
  isProcessing s = false ->
  result (resolve this prompt (setProcessing true s)) = inl toolCalls ->
  exists executed s2,
    result (toolLoop env this toolCalls 0 []
                     (final (resolve this prompt (setProcessing true s)))) = inl executed
    /\ join EmptyString (deltas (events (processPrompt env this prompt s)))
       = kitResponseText env this prompt executed (world s2).
Proof.
  intros Hidle Hres. rewrite (processPrompt_accepted env this prompt s Hidle). cbn zeta.
  change (events (mkOut ?t ?r ?f)) with (map fst t).
  change (map fst (trace ?o)) with (events o).
  rewrite events_tryCatch.
  destruct (tryBlock_resolved env this prompt _ Hres) as (ex & Hex & Hev & Hr & _).
  cbn zeta in Hev. rewrite Hev, Hr, app_nil_r.
  set (s1 := final (resolve this prompt (setProcessing true s))) in *.
  set (s2 := final (toolLoop env this toolCalls 0 [] s1)) in *.
  exists ex, s2. split; [exact Hex|].
  destruct (streamResponse_run env this prompt ex (runId env) s2) as [_ Hjoin].
  cbn zeta in Hjoin. rewrite <- Hjoin. f_equal.
  assert (Hquiet : Forall (fun e => isText e = false)
                          (started env :: events (toolLoop env this toolCalls 0 [] s1))).
  { constructor; [reflexivity|].
    pose proof (avoids_toolLoop env this isText toolCalls 0 []) as H. apply H.
    intros e He. now destruct e. }
  change (started env :: ?l ++ ?l') with ((started env :: l) ++ l').
  rewrite deltas_app, (deltas_quiet Hquiet), deltas_app. cbn [List.app deltas flat_map].
  now rewrite app_nil_r.
Qed.
End KitAccepted.

Section KitOnYourApp.
Variable env : Env.

Lemma kit_keywordCalls_noArgs (prompt : string) :
  Forall (fun c => exists n, In n ["getAppData"; "refreshData"; "analyzeData"; "generateReport"]
                             /\ c = StarterKit.LLMClient.noArgs n)
         (StarterKit.LLMClient.keywordCalls prompt).
Proof.
  unfold StarterKit.LLMClient.keywordCalls, StarterKit.LLMClient.push. cbn zeta.
  repeat match goal with
         | |- context [if ?b then _ else _] => destruct b
         end;
    cbn [List.app]; repeat constructor; eexists; (split; [|reflexivity]); cbn; tauto.
Qed.

Lemma yourApp_accepts (prompt : string) :
  Forall (acceptedWith (StarterKit.AgentClient.argument) (YourApp.getTools env))
         (StarterKit.LLMClient.keywordCalls prompt).
Proof.
  eapply Forall_impl; [|apply kit_keywordCalls_noArgs].
  intros c (n & Hin & ->). cbn [In] in Hin.
  destruct Hin as [<-|[<-|[<-|[<-|[]]]]].
  - exists (YourApp.getAppData env). repeat split. intros a. eexists. reflexivity.
  - exists (YourApp.refreshData env). repeat split. intros a. eexists. reflexivity.
  - exists (YourApp.analyzeData env). repeat split. intros a. eexists. reflexivity.
  - exists (YourApp.generateReport env). repeat split. intros a. eexists. reflexivity.
Qed.
End KitOnYourApp.

(** X18.  A run of the starter kit as its page sets it up: the agent
    built on the tools of [YourApp], no key configured.  For every
    prompt, from every idle state of the page: each request of the
    keyword rules is executed exactly once, in the order of the rules,
    with the argument [{}]; no tool fails, so the tools named in the
    response are all the requests of the rules; the run finishes with the
    status [completed]; the text of the response is the no-tools response
    when no rule matched and the simple response over the executed
    requests otherwise; and nothing is sent over the network. *)
Theorem kit_keyword_run_on_yourApp
        (env : Env) (prompt : string) (s : StarterKit.AgentClient.State YourApp.AppState) :
  let this := StarterKit.AgentClient.new env (YourApp.getTools env) in
  let run := StarterKit.AgentClient.processPrompt env this prompt s in
  let calls := StarterKit.LLMClient.keywordCalls prompt in
  StarterKit.AgentClient.isProcessing s = false ->
  last (events run) (StarterKit.AgentClient.started env)
  = StarterKit.AgentClient.finished env "completed"
  /\ invoked (StarterKit.AgentClient.world (final run))
     = invoked (StarterKit.AgentClient.world s)
       ++ map (fun c => (text env (call_name c), Some (JObj []))) calls
  /\ fetched (StarterKit.AgentClient.world (final run))
     = fetched (StarterKit.AgentClient.world s)
  /\ exists executed,
       map (@StarterKit.AgentClient.call) executed = calls
       /\ join EmptyString (deltas (events run))
          = match executed with
            | [] => StarterKit.AgentClient.generateNoToolsResponse prompt
            | _ => StarterKit.AgentClient.generateSimpleResponse env executed
            end.
Proof.
  cbn zeta. intros Hidle.
  set (this := StarterKit.AgentClient.new env (YourApp.getTools env)).
  assert (Hres : result (StarterKit.AgentClient.resolve this prompt
                           (StarterKit.AgentClient.setProcessing true s))
                 = inl (StarterKit.LLMClient.keywordCalls prompt)) by reflexivity.
  pose proof (yourApp_accepts env prompt) as Hacc.
  destruct (processPrompt_completed env this prompt s Hidle Hres) as (response & Hev & _ & Hinv).
  split; [|split; [|split]].
  - rewrite Hev.
    change (StarterKit.AgentClient.started env :: ?l ++ ?r ++ [?f])
      with ((StarterKit.AgentClient.started env :: l) ++ r ++ [f]).
    now rewrite !app_assoc, last_last.
  - rewrite Hinv. f_equal. rewrite (executions_accepted env this Hacc).
    apply map_ext_in. intros c Hc.
    pose proof (kit_keywordCalls_noArgs prompt) as Hshape.
    rewrite Forall_forall in Hshape. destruct (Hshape c Hc) as (n & _ & ->). reflexivity.
  - destruct (kit_sends_processPrompt env this (P := fun _ => True) (n := 0) prompt
                (asyncSends_ret _ _ _) (fun calls => asyncSends_ret _ _ _) s)
      as (new & Hlog & Hlen & _).
    destruct new; [|cbn in Hlen; lia]. now rewrite app_nil_r in Hlog.
  - destruct (processPrompt_text env this prompt s Hidle Hres) as (executed & s2 & Hex & Htext).
    destruct (toolLoop_accepted env this Hacc 0 []
                (final (StarterKit.AgentClient.resolve this prompt
                          (StarterKit.AgentClient.setProcessing true s))))
      as (more & Hmore & Hcalls).
    cbn [List.app] in Hmore. rewrite Hmore in Hex. injection Hex as <-.
    exists more. split; [exact Hcalls|]. rewrite Htext. unfold kitResponseText.
    now destruct more.
Qed.

(** X18 on the example page, for a prompt that matches the rules for
    showing and for refreshing. *)
Lemma kit_keyword_run_on_yourApp_witness :
  let run := StarterKit.AgentClient.processPrompt Page.offlineEnv Samples.yourKit
                                                  "show and refresh the data" Samples.yourIdle in
  StarterKit.AgentClient.isProcessing Samples.yourIdle = false
  /\ last (events run) (StarterKit.AgentClient.started Page.offlineEnv)
     = StarterKit.AgentClient.finished Page.offlineEnv "completed"
  /\ invoked (StarterKit.AgentClient.world (final run))
     = [("getAppData", Some (JObj [])); ("refreshData", Some (JObj []))]
  /\ fetched (StarterKit.AgentClient.world (final run)) = [].
Proof.
  cbn zeta. split; [reflexivity|].
  destruct (@kit_keyword_run_on_yourApp Page.offlineEnv "show and refresh the data"
              Samples.yourIdle eq_refl) as (Hlast & Hinv & Hlog & _).
  split; [exact Hlast|]. split; [exact Hinv | exact Hlog].
Defined.

(** ** The demo in keyword mode *)

Section DemoAccepted.
Import Demo.AgentClient.
Context {App : Type}.
Variable env : Env.
Variable this : Demo.AgentClient.t App.

Lemma demo_awaitWorld_run {A} (m : Async (World App) A) (w : World App) :
  awaitWorld m w = mkOut [] (fst (m w)) (snd (m w)).
Proof. unfold awaitWorld, GenM.await. now destruct (m w). Qed.

(** A loop over requests that are all accepted completes, and executes
    every one of them once, in order, with the arguments of the
    request. *)
Lemma demo_toolLoop_accepted (calls : list ToolCall) :
  Forall (accepted (tools this)) calls ->
  forall (i : nat) (w : World App),
    result (toolLoop env this calls i w) = inl tt
    /\ invoked (final (toolLoop env this calls i w))
       = invoked w ++ map (fun c => (text env (call_name c), call_args c)) calls.
Proof.
  induction 1 as [|c rest (tool & Hfind & Hname & Hret) _ IH]; intros i w.
  - cbn. now rewrite app_nil_r.
  - cbn [toolLoop]. rewrite Hfind. cbn beta zeta.
    assert (Hv : exists value, fst (invoke tool (call_args c) w) = inl value
                               /\ invoked (snd (invoke tool (call_args c) w))
                                  = invoked w ++ [(name tool, call_args c)]).
    { unfold invoke. destruct (Hret (app w)) as [r Hr].
      destruct (execute tool (call_args c) (app w)) as [r' a']. cbn [fst snd invoked] in *.
      now exists r. }
    destruct Hv as (value & Hv & Hinv).
    rewrite result_bind, final_bind. cbn [GenM.yield result final].
    rewrite result_bind, final_bind.
    destruct (truthy (call_args c)); cbn [GenM.yield GenM.ret result final];
      rewrite result_bind, final_bind, demo_awaitWorld_run; cbn [result final]; rewrite Hv;
      rewrite result_bind, final_bind; cbn [GenM.yield result final];
      rewrite result_bind, final_bind; cbn [GenM.yield result final];
      destruct (IH (S i) (snd (invoke tool (call_args c) w))) as [-> ->];
      (split; [reflexivity|]); rewrite Hinv, <- app_assoc; cbn [map List.app];
      now rewrite Hname.
Qed.
End DemoAccepted.

Section DemoKeywordRun.
Import Demo.AgentClient.
Context {App : Type}.
Variable env : Env.
Variable tools : list (Tool App).
Variable prompt : string.

Local Abbreviation this := (Demo.AgentClient.new env tools).
Local Abbreviation calls := (Demo.LLMClient.keywordCalls prompt).

Hypothesis all_accepted : Forall (accepted tools) calls.

Lemma demo_keyword_resolve (a : App) (inv : list (string * JSValue)) (log : list FetchRequest) :
  resolve this prompt (mkWorld a inv log) = mkOut [] (inl calls) (mkWorld a inv log).
Proof. reflexivity. Qed.

(** The run: the start event, events of tool calls, one text message
    with one content event, the finish event. *)
Lemma demo_keyword_run (w : World App) :
  let run := processPrompt env this prompt w in
  let id := match calls with [] => noToolsMessageId env | _ => responseMessageId env end in
  let message := match calls with [] => noToolsResponse | _ => simpleResponse env calls end in
  exists blocks,
    events run
    = started env
      :: blocks
      ++ [TextMessageStartEvent id "assistant"; TextMessageContentEvent id message;
          TextMessageEndEvent id; finished env "completed"]
    /\ Forall (fun e => isText e = false) blocks
    /\ Forall (fun e => isToolEvent e = true) blocks
    /\ result run = inl tt
    /\ invoked (final run)
       = invoked w ++ map (fun c => (text env (call_name c), call_args c)) calls.
Proof.
  cbn zeta. destruct w as [a inv log].
  set (w := mkWorld a inv log).
  destruct (demo_toolLoop_accepted env this all_accepted 0 w) as [Hres Hinv].
  exists (events (toolLoop env this calls 0 w)).
  assert (Htext : Forall (fun e => isText e = false) (events (toolLoop env this calls 0 w))).
  { apply (demo_avoids_toolLoop env this isText). intros e He. now destruct e. }
  assert (Htool : Forall (fun e => isToolEvent e = true) (events (toolLoop env this calls 0 w))).
  { assert (H : Avoids (fun e => negb (isToolEvent e)) (toolLoop env this calls 0))
      by (apply demo_avoids_toolLoop; intros e He; now rewrite He).
    eapply Forall_impl; [|apply H]. cbn. intros e He. now apply negb_false_iff in He. }
  assert (Htry :
    events (tryBlock env this prompt w)
    = events (toolLoop env this calls 0 w)
      ++ [TextMessageStartEvent
            (match calls with [] => noToolsMessageId env | _ => responseMessageId env end)
            "assistant";
          TextMessageContentEvent
            (match calls with [] => noToolsMessageId env | _ => responseMessageId env end)
            (match calls with [] => noToolsResponse | _ => simpleResponse env calls end);
          TextMessageEndEvent
            (match calls with [] => noToolsMessageId env | _ => responseMessageId env end)]
    /\ result (tryBlock env this prompt w) = inl tt
    /\ final (tryBlock env this prompt w) = final (toolLoop env this calls 0 w)).
  { unfold tryBlock. rewrite events_bind, result_bind, final_bind.
    subst w. rewrite !demo_keyword_resolve. cbn [result final events trace map List.app].
    set (w := mkWorld a inv log) in *.
    rewrite events_bind, result_bind, final_bind, Hres.
    destruct calls as [|c rest]; cbn [length Nat.ltb Nat.leb Nat.eqb]; repeat split;
      cbn; now rewrite ?app_nil_r. }
  destruct Htry as (Hev & Hr & Hfin).
  split; [|split; [exact Htext|split; [exact Htool|]]].
  - unfold processPrompt. cbn zeta. rewrite events_bind.
    cbn [GenM.yield trace result final events map fst List.app].
    change (map fst (trace ?o)) with (events o).
    rewrite events_bind, result_tryCatch, events_tryCatch, Hr, Hev, app_nil_r.
    cbn [GenM.yield trace result final events map fst List.app].
    now rewrite <- app_assoc.
  - unfold processPrompt. cbn zeta.
    rewrite result_bind, final_bind. cbn [GenM.yield result final].
    rewrite result_bind, final_bind, result_tryCatch, final_tryCatch, Hr, Hfin.
    cbn [GenM.yield result final]. now split.
Qed.
End DemoKeywordRun.

(** *** The panel of the events of the demo *)

Section DemoPanel.
Import DemoUI.
Context {X : Type}.
Variable callback : string -> X -> X.

Lemma demo_renderAll_app (l1 l2 : list Event) (panel : AgentUI.t) (x : X) :
  AgentUI.renderAll (Some callback) (l1 ++ l2) panel x
  = AgentUI.renderAll (Some callback) l2
      (fst (AgentUI.renderAll (Some callback) l1 panel x))
      (snd (AgentUI.renderAll (Some callback) l1 panel x)).
Proof.
  revert panel x; induction l1 as [|e rest IH]; intros panel x; [reflexivity|].
  cbn [List.app AgentUI.renderAll].
  destruct (AgentUI.renderEvent (Some callback) e panel x) as [panel' x']. apply IH.
Qed.

(** Events that belong to no text message leave the messages that are
    open and the object of the callback as they are. *)
Lemma demo_renderAll_quiet (l : list Event) :
  Forall (fun e => isText e = false) l ->
  forall (panel : AgentUI.t) (x : X),
    AgentUI.activeMessages (fst (AgentUI.renderAll (Some callback) l panel x))
    = AgentUI.activeMessages panel
    /\ snd (AgentUI.renderAll (Some callback) l panel x) = x.
Proof.
  induction 1 as [|e rest He _ IH]; intros panel x; [now split|].
  cbn [AgentUI.renderAll].
  assert (Hr : AgentUI.activeMessages (fst (AgentUI.renderEvent (Some callback) e panel x))
               = AgentUI.activeMessages panel
               /\ snd (AgentUI.renderEvent (Some callback) e panel x) = x).
  { destruct e; try discriminate He; cbn [AgentUI.renderEvent]; try (now split).
    destruct (mapGet _ _) as [[toolName received]|]; now split. }
  destruct (AgentUI.renderEvent (Some callback) e panel x) as [panel' x'].
  cbn [fst snd] in Hr. destruct Hr as [Hm ->].
  destruct (IH panel' x) as [IHm IHx]. now rewrite IHm, IHx.
Qed.

(** A text message with one content event, when no message is open: the
    callback receives the content, unless it is empty, and no message is
    left open. *)
Lemma demo_render_message (id role content : string) (panel : AgentUI.t) (x : X) :
  AgentUI.activeMessages panel = [] ->
  AgentUI.renderAll (Some callback)
    [TextMessageStartEvent id role; TextMessageContentEvent id content; TextMessageEndEvent id]
    panel x
  = (AgentUI.mk [] (AgentUI.activeToolCalls panel),
     if String.eqb content EmptyString then x else callback content x).
Proof.
  intros Hnone. cbn [AgentUI.renderAll AgentUI.renderEvent AgentUI.activeMessages
                     AgentUI.activeToolCalls].
  rewrite Hnone. cbn [mapSet mapGet mapDelete snd filter fst].
  rewrite !String.eqb_refl. cbn [mapSet mapGet mapDelete snd filter fst negb String.append].
  rewrite !String.eqb_refl. reflexivity.
Qed.
End DemoPanel.

(** X19.  The demo as its page sets it up, in keyword mode: the agent
    built on the tools of the portfolio application, no key set.  For
    every prompt and from every state of the page, a run completes
    without an error event; each request of the keyword rules is executed
    exactly once, in the order of the rules, with the arguments of the
    request; the run carries one text message with one content event, the
    no-tools response when no rule matched and the simple response that
    names the requests otherwise.  The function [processPrompt] of the
    page ignores a blank prompt; otherwise the chat grows by the prompt as
    typed and by that one response, the input is cleared and the panel
    keeps no message open. *)
Theorem demo_keyword_run_on_portfolio
        (env : Env) (numbers : Fidelity.Numbers) (prompt : string)
        (page : DemoUI.Page Fidelity.FidelityApp) :
  let this := Demo.AgentClient.new env (Fidelity.getTools env numbers) in
  let w := DemoUI.world page in
  let run := Demo.AgentClient.processPrompt env this prompt w in
  let calls := Demo.LLMClient.keywordCalls prompt in
  let message :=
    match calls with
    | [] => Demo.AgentClient.noToolsResponse
    | _ => Demo.AgentClient.simpleResponse env calls
    end in
  let after := DemoUI.processPrompt env this prompt page in
  result run = inl tt
  /\ Forall (fun e => eventType e <> RUN_ERROR) (events run)
  /\ deltas (events run) = [message]
  /\ invoked (final run)
     = invoked w ++ map (fun c => (text env (call_name c), call_args c)) calls
  /\ (if String.eqb (trim prompt) EmptyString then after = page
      else
        DemoUI.userInput after = EmptyString
        /\ DemoUI.world after = final run
        /\ DemoUI.chatUI after
           = DemoUI.chatUI page
             ++ [DemoUI.ChatUI.mkMessage "user" prompt (Date_now env);
                 DemoUI.ChatUI.mkMessage "agent" message (Date_now env)]
        /\ DemoUI.AgentUI.activeMessages (DemoUI.agentUI after) = []).
Proof.
  cbn zeta.
  destruct (@demo_keyword_run _ env (Fidelity.getTools env numbers) prompt
              (keywordCalls_accepted env numbers prompt) (DemoUI.world page))
    as (blocks & Hev & Htext & Htool & Hres & Hinv).
  cbn zeta in Hev.
  set (id := match Demo.LLMClient.keywordCalls prompt with
             | [] => noToolsMessageId env
             | _ => responseMessageId env
             end) in *.
  set (message := match Demo.LLMClient.keywordCalls prompt with
                  | [] => Demo.AgentClient.noToolsResponse
                  | _ => Demo.AgentClient.simpleResponse env (Demo.LLMClient.keywordCalls prompt)
                  end) in *.
  assert (Hmessage : String.eqb message EmptyString = false).
  { subst message. now destruct (Demo.LLMClient.keywordCalls prompt). }
  split; [exact Hres|]. split; [|split; [|split; [exact Hinv|]]].
  - rewrite Hev. constructor; [discriminate|]. apply Forall_app; split.
    + eapply Forall_impl; [|exact Htool]. intros e He. destruct e; discriminate.
    + repeat constructor; discriminate.
  - rewrite Hev.
    change (Demo.AgentClient.started env :: blocks ++ ?l)
      with ((Demo.AgentClient.started env :: blocks) ++ l).
    rewrite deltas_app, deltas_quiet; [reflexivity|]. now constructor.
  - unfold DemoUI.processPrompt, DemoUI.onMessageComplete.
    destruct (String.eqb (trim prompt) EmptyString); [reflexivity|]. cbn [negb].
    rewrite Hres, Hev.
    change (Demo.AgentClient.started env :: blocks ++ ?l)
      with ((Demo.AgentClient.started env :: blocks) ++ l).
    rewrite demo_renderAll_app.
    assert (Hquiet : Forall (fun e => isText e = false) (Demo.AgentClient.started env :: blocks))
      by now constructor.
    destruct (demo_renderAll_quiet (DemoUI.ChatUI.addAgentMessage env) Hquiet
                (DemoUI.AgentUI.clear (DemoUI.agentUI page))
                (DemoUI.ChatUI.addUserMessage env prompt (DemoUI.chatUI page))) as [Hm Hx].
    rewrite Hx.
    change [TextMessageStartEvent id "assistant"; TextMessageContentEvent id message;
            TextMessageEndEvent id; Demo.AgentClient.finished env "completed"]
      with ([TextMessageStartEvent id "assistant"; TextMessageContentEvent id message;
             TextMessageEndEvent id] ++ [Demo.AgentClient.finished env "completed"]).
    rewrite demo_renderAll_app, demo_render_message by exact Hm.
    rewrite Hmessage. cbn [fst snd DemoUI.AgentUI.renderAll DemoUI.AgentUI.renderEvent
                           Demo.AgentClient.finished DemoUI.userInput DemoUI.world
                           DemoUI.chatUI DemoUI.agentUI DemoUI.AgentUI.activeMessages].
    repeat split. unfold DemoUI.ChatUI.addAgentMessage, DemoUI.ChatUI.addUserMessage.
    now rewrite <- app_assoc.
Qed.

(** ** Letter case *)

(** X20.  The keyword rules ignore the case of the letters.  Two prompts
    of ASCII characters that are the same once lower-cased resolve to the
    same requests, in the starter kit and in the demo: the conditions of
    the rules test the lower-cased prompt, the strategy patterns of the
    demo, tested on the prompt as typed, carry the [i] flag, and the
    numbers are read from the lower-cased prompt. *)
Theorem keyword_rules_ignore_case (prompt other : string) :
  isAscii prompt = true ->
  isAscii other = true ->
  toLowerCase prompt = toLowerCase other ->
  StarterKit.LLMClient.keywordCalls prompt = StarterKit.LLMClient.keywordCalls other
  /\ Demo.LLMClient.keywordCalls prompt = Demo.LLMClient.keywordCalls other.
Proof.
  intros _ _ H. split.
  - unfold StarterKit.LLMClient.keywordCalls. now rewrite H.
  - unfold Demo.LLMClient.keywordCalls, Demo.LLMClient.strategyPatterns.
    cbn [Demo.LLMClient.strategyLoop].
    unfold Demo.LLMClient.aggressivePattern, Demo.LLMClient.moderatePattern,
      Demo.LLMClient.conservativePattern.
    now rewrite H.
Qed.

(** X20 for a prompt typed in capitals. *)
Lemma keyword_rules_ignore_case_witness :
  isAscii "SHOW MY PORTFOLIO" = true
  /\ isAscii "show my portfolio" = true
  /\ toLowerCase "SHOW MY PORTFOLIO" = toLowerCase "show my portfolio"
  /\ StarterKit.LLMClient.keywordCalls "SHOW MY PORTFOLIO"
     = StarterKit.LLMClient.keywordCalls "show my portfolio"
  /\ Demo.LLMClient.keywordCalls "SHOW MY PORTFOLIO"
     = Demo.LLMClient.keywordCalls "show my portfolio".
Proof.
  split; [reflexivity|]. split; [reflexivity|]. split; [reflexivity|].
  exact (@keyword_rules_ignore_case "SHOW MY PORTFOLIO" "show my portfolio"
           eq_refl eq_refl eq_refl).
Defined.

